(** * TurboCut timeline export (src/main/exporters/davinci.ts)

    A shallow embedding of the EDL / FCPXML exporter and its timecode
    arithmetic, with the properties stated about it.

    Modelling conventions.

    - A JavaScript [number] is an exact rational, or [NaN], or one of the two
      infinities.  Finite results are kept in lowest terms, so two finite
      numbers are equal exactly when they denote the same rational.  The
      code computes in binary64, and the two agree as long as the values
      involved are integers of magnitude at most [maxSafeInteger]
      (2^53 - 1): there binary64 is exact.  Outside that range the model
      does not follow the code: it does not round, it does not overflow to
      an infinity, and it has a single zero.  A property whose truth
      depends on exact values therefore carries the range as a hypothesis;
      the remaining properties say which expression is computed, or hold
      for the binary64 values as well.
    - A JavaScript string is a [string] of characters; the exporter's own
      output is ASCII.  [Number] and [parseInt] read a run of digits as the
      integer it writes, which is what JavaScript returns up to
      [maxSafeInteger]; [toString] prints every digit of an integer, which
      is what JavaScript prints below 10^21.
    - The collaborators of the orchestrators (save dialog, ffprobe, mkdir,
      writeFile, js2xml) are inputs of the model: what they answer is given
      by a [World], what they are asked is recorded in a trace.

    Two smaller pieces of the renderer are modelled after the exporter: the
    output path of the optimized audio file, and the key handler of the
    [Cut] page that disables the segments of the selection. *)

From Stdlib Require Import ZArith QArith Qround Qcanon Lia List Bool.
From Stdlib Require Import Ascii String.
Import ListNotations.

Set Implicit Arguments.

(** ** JavaScript numbers *)

Module JSNumber.

(** A finite value is an exact rational.  The binary64 values of the code
    are among them, and the operations below agree with those of the code
    whenever the exact result is itself a binary64 value, as it is for
    integers of magnitude at most 2^53 - 1. *)
Inductive number : Type :=
| Fin (q : Q)
| NaN
| PInf
| NInf.

(** A finite result, reduced to lowest terms. *)
Definition fin (q : Q) : number := Fin (Qred q).

Definition of_Z (z : Z) : number := Fin (inject_Z z).

(** Sign of a rational as -1, 0 or 1. *)
Definition Qsign (q : Q) : Z := Z.sgn (Qnum q).

Definition inf_of_sign (s : Z) : number :=
  match s with
  | Z0 => NaN
  | Zpos _ => PInf
  | Zneg _ => NInf
  end.

Definition nsign (a : number) : Z :=
  match a with
  | Fin q => Qsign q
  | NaN => 0
  | PInf => 1
  | NInf => -1
  end.

Definition nneg (a : number) : number :=
  match a with
  | Fin q => fin (- q)
  | NaN => NaN
  | PInf => NInf
  | NInf => PInf
  end.

(** [a + b] *)
Definition nadd (a b : number) : number :=
  match a, b with
  | NaN, _ | _, NaN => NaN
  | Fin p, Fin q => fin (p + q)
  | PInf, NInf | NInf, PInf => NaN
  | PInf, _ | _, PInf => PInf
  | NInf, _ | _, NInf => NInf
  end.

(** [a - b] *)
Definition nsub (a b : number) : number := nadd a (nneg b).

(** [a * b]: an infinity times zero is NaN. *)
Definition nmul (a b : number) : number :=
  match a, b with
  | NaN, _ | _, NaN => NaN
  | Fin p, Fin q => fin (p * q)
  | _, _ => inf_of_sign (nsign a * nsign b)
  end.

(** [a / b]: a finite number over zero is an infinity of its sign, 0/0 is
    NaN, a finite number over an infinity is 0. *)
Definition ndiv (a b : number) : number :=
  match a, b with
  | NaN, _ | _, NaN => NaN
  | Fin p, Fin q =>
      if Qeq_bool q 0 then inf_of_sign (Qsign p) else fin (p / q)
  | Fin _, _ => of_Z 0
  | _, Fin q => if Qeq_bool q 0 then a else inf_of_sign (nsign a * Qsign q)
  | _, _ => NaN
  end.

(** Truncation toward zero. *)
Definition Qtrunc (q : Q) : Z :=
  if Qle_bool 0 q then Qfloor q else Qceiling q.

(** [a % b]: the remainder has the sign of the dividend. *)
Definition nrem (a b : number) : number :=
  match a, b with
  | NaN, _ | _, NaN => NaN
  | Fin p, Fin q =>
      if Qeq_bool q 0 then NaN
      else fin (p - q * inject_Z (Qtrunc (p / q)))
  | Fin _, _ => a
  | _, _ => NaN
  end.

(** [Math.floor] *)
Definition Math_floor (a : number) : number :=
  match a with
  | Fin q => of_Z (Qfloor q)
  | _ => a
  end.

(** [Math.round]: to the nearest integer, a half rounds up. *)
Definition Math_round (a : number) : number :=
  match a with
  | Fin q => of_Z (Qfloor (q + (1 # 2)))
  | _ => a
  end.

(** ToBoolean on a number: 0 and NaN are falsy. *)
Definition truthy (a : number) : bool :=
  match a with
  | Fin q => negb (Qeq_bool q 0)
  | NaN => false
  | _ => true
  end.

(** Strict equality of numbers ([===]): NaN differs from itself. *)
Definition neqb (a b : number) : bool :=
  match a, b with
  | Fin p, Fin q => Qeq_bool p q
  | PInf, PInf | NInf, NInf => true
  | _, _ => false
  end.

(** [a <= b], false as soon as one side is NaN. *)
Definition nle (a b : number) : Prop :=
  match a, b with
  | NaN, _ | _, NaN => False
  | Fin p, Fin q => (p <= q)%Q
  | NInf, _ | _, PInf => True
  | _, _ => False
  end.

Definition is_finite (a : number) : bool :=
  match a with Fin _ => true | _ => false end.

End JSNumber.

Export JSNumber.

Declare Scope js_scope.
Delimit Scope js_scope with js.
Bind Scope js_scope with number.
Infix "+" := nadd : js_scope.
Infix "-" := nsub : js_scope.
Infix "*" := nmul : js_scope.
Infix "/" := ndiv : js_scope.
(** [a mod b] stands for the JavaScript remainder [a % b]. *)
Infix "mod" := nrem : js_scope.

(** Numeric literals of the source. *)
Definition num (z : Z) : number := of_Z z.
Definition dec (n : Z) (d : positive) : number := fin (n # d).

(** ** JavaScript strings *)

Module JSString.

Local Open Scope string_scope.
Local Open Scope Z_scope.

Definition is_digit (c : ascii) : bool :=
  let n := nat_of_ascii c in (48 <=? n)%nat && (n <=? 57)%nat.

Definition digit_value (c : ascii) : Z := Z.of_nat (nat_of_ascii c) - 48.

Definition digit_char (d : Z) : ascii := ascii_of_nat (Z.to_nat (48 + d)).

(** White space that [Number] and [parseInt] strip (the ASCII part of it). *)
Definition is_space (c : ascii) : bool :=
  let n := nat_of_ascii c in ((9 <=? n)%nat && (n <=? 13)%nat) || (n =? 32)%nat.

Fixpoint all_chars (p : ascii -> bool) (s : string) : bool :=
  match s with
  | EmptyString => true
  | String c s' => p c && all_chars p s'
  end.

(** The longest prefix whose characters satisfy [p], and what follows it. *)
Fixpoint span (p : ascii -> bool) (s : string) : string * string :=
  match s with
  | EmptyString => (EmptyString, EmptyString)
  | String c s' =>
      if p c then let '(a, b) := span p s' in (String c a, b)
      else (EmptyString, s)
  end.

Fixpoint drop_while (p : ascii -> bool) (s : string) : string :=
  match s with
  | String c s' => if p c then drop_while p s' else s
  | EmptyString => EmptyString
  end.

Fixpoint rev_string (s acc : string) : string :=
  match s with
  | EmptyString => acc
  | String c s' => rev_string s' (String c acc)
  end.

(** [s.trim()] *)
Definition trim (s : string) : string :=
  let t := drop_while is_space s in
  rev_string (drop_while is_space (rev_string t EmptyString)) EmptyString.

(** Value of a string of decimal digits read left to right from [acc]. *)
Fixpoint digits_value (acc : Z) (s : string) : Z :=
  match s with
  | EmptyString => acc
  | String c s' => digits_value (10 * acc + digit_value c) s'
  end.

(** Decimal digits of a non-negative integer, most significant first; the
    fuel bounds the number of digits. *)
Fixpoint digits_fuel (fuel : nat) (n : Z) (acc : string) : string :=
  match fuel with
  | O => acc
  | S f =>
      let acc' := String (digit_char (n mod 10)) acc in
      if n <? 10 then acc' else digits_fuel f (n / 10) acc'
  end.

Definition digits (n : Z) : string :=
  digits_fuel (S (Z.to_nat (Z.log2 n))) n EmptyString.

(** Up to [k] digits of the fraction [r / d] (with [0 <= r < d]), stopping
    when the expansion ends. *)
Fixpoint fraction_digits (k : nat) (r d : Z) : string :=
  match k with
  | O => EmptyString
  | S k' =>
      if r =? 0 then EmptyString
      else String (digit_char (10 * r / d)) (fraction_digits k' ((10 * r) mod d) d)
  end.

(** [n.toString()].  An integer prints as its decimal digits, which is
    what JavaScript prints below 10^21.  A finite non-integer prints as its
    decimal expansion, which is what JavaScript prints whenever that
    expansion is short (at most 17 digits are produced here; exponent
    notation is not modelled). *)
Definition toString (a : number) : string :=
  match a with
  | NaN => "NaN"
  | PInf => "Infinity"
  | NInf => "-Infinity"
  | Fin q =>
      let m := Z.abs (Qnum q) in
      let d := Zpos (Qden q) in
      let body :=
        digits (m / d) ++
        (if m mod d =? 0 then "" else "." ++ fraction_digits 17 (m mod d) d) in
      if Qnum q <? 0 then "-" ++ body else body
  end.

(** [fill] repeated and cut to [k] characters. *)
Fixpoint repeat_fill (k : nat) (fill cur : string) : string :=
  match k with
  | O => EmptyString
  | S k' =>
      match cur with
      | String c cur' => String c (repeat_fill k' fill cur')
      | EmptyString =>
          match fill with
          | String c cur' => String c (repeat_fill k' fill cur')
          | EmptyString => EmptyString
          end
      end
  end.

(** [s.padStart(targetLength, fill)] *)
Definition padStart (targetLength : nat) (fill : string) (s : string) : string :=
  if (targetLength <=? String.length s)%nat then s
  else repeat_fill (targetLength - String.length s) fill fill ++ s.

(** [s.split(sep)] for a separator that matches one character: the fields
    between the matching characters, at least one field. *)
Fixpoint split (sep : ascii -> bool) (s : string) : list string :=
  match s with
  | EmptyString => [EmptyString]
  | String c s' =>
      if sep c then EmptyString :: split sep s'
      else
        match split sep s' with
        | field :: fields => String c field :: fields
        | [] => [String c EmptyString]
        end
  end.

(** [s.replace(c, '')] for a one-character pattern given as a string: the
    first occurrence is removed. *)
Fixpoint remove_first (c : ascii) (s : string) : string :=
  match s with
  | EmptyString => EmptyString
  | String c' s' => if Ascii.eqb c c' then s' else String c' (remove_first c s')
  end.

(** [s.split('/').pop()] *)
Definition last_field (sep : ascii -> bool) (s : string) : string :=
  List.last (split sep s) EmptyString.

(** Value of a digit in a radix up to 16, if the character is one. *)
Definition radix_digit (radix : Z) (c : ascii) : option Z :=
  let n := Z.of_nat (nat_of_ascii c) in
  let v :=
    if (48 <=? n) && (n <=? 57) then n - 48
    else if (97 <=? n) && (n <=? 102) then n - 87
    else if (65 <=? n) && (n <=? 70) then n - 55
    else radix in
  if v <? radix then Some v else None.

Fixpoint radix_value (radix : Z) (acc : Z) (s : string) : option Z :=
  match s with
  | EmptyString => Some acc
  | String c s' =>
      match radix_digit radix c with
      | Some v => radix_value radix (radix * acc + v) s'
      | None => None
      end
  end.

(** A non-empty string of digits in [radix], as a number. *)
Definition radix_literal (radix : Z) (s : string) : number :=
  match s with
  | EmptyString => NaN
  | _ => match radix_value radix 0 s with
         | Some v => of_Z v
         | None => NaN
         end
  end.

(** The exponent part after [e]: an optional sign and at least one digit. *)
Definition exponent_value (s : string) : option Z :=
  let unsigned (t : string) :=
    match t with
    | EmptyString => None
    | _ => if all_chars is_digit t then Some (digits_value 0 t) else None
    end in
  match s with
  | String "+" t => unsigned t
  | String "-" t => option_map Z.opp (unsigned t)
  | _ => unsigned s
  end.

(** An unsigned decimal literal: [Infinity], or digits with an optional
    fraction and an optional exponent, at least one digit in all. *)
Definition unsigned_decimal (s : string) : number :=
  if String.eqb s "Infinity" then PInf
  else
    let '(mant, r1) := span is_digit s in
    let '(frac, r2) :=
      match r1 with
      | String "." r => span is_digit r
      | _ => (EmptyString, r1)
      end in
    let exponent :=
      match r2 with
      | EmptyString => Some 0
      | String "e" r | String "E" r => exponent_value r
      | _ => None
      end in
    match mant ++ frac, exponent with
    | EmptyString, _ | _, None => NaN
    | ds, Some e =>
        fin (inject_Z (digits_value 0 ds) *
             Qpower (inject_Z 10) (e - Z.of_nat (String.length frac)))
    end.

(** [Number(s)]: white space is trimmed; what remains is the empty string,
    which is 0, or a radix-prefixed integer, or a signed decimal literal;
    anything else is NaN.  The literal is read exactly, as JavaScript does
    for an integer up to 2^53; other values JavaScript rounds to the
    nearest binary64 value, or to an infinity. *)
Definition StrNumericLiteral (t : string) : number :=
  match t with
  | EmptyString => of_Z 0
  | String "0" (String "x" t) | String "0" (String "X" t) => radix_literal 16 t
  | String "0" (String "o" t) | String "0" (String "O" t) => radix_literal 8 t
  | String "0" (String "b" t) | String "0" (String "B" t) => radix_literal 2 t
  | String "+" t => unsigned_decimal t
  | String "-" t => nneg (unsigned_decimal t)
  | t => unsigned_decimal t
  end.

Definition Number (s : string) : number := StrNumericLiteral (trim s).

(** [parseInt(s, 10)]: leading white space and a sign are skipped, then the
    longest run of decimal digits is read; NaN when there is none.  The run
    is read exactly, as JavaScript does up to 2^53; beyond, JavaScript
    returns the nearest binary64 value. *)
Definition parseInt (s : string) : number :=
  let t := drop_while is_space s in
  let '(negative, body) :=
    match t with
    | String "-" r => (true, r)
    | String "+" r => (false, r)
    | _ => (false, t)
    end in
  match fst (span is_digit body) with
  | EmptyString => NaN
  | ds => let v := digits_value 0 ds in of_Z (if negative then - v else v)
  end.

End JSString.

Export JSString.

(** ** Timecode arithmetic *)

Local Open Scope string_scope.
Local Open Scope js_scope.

(** An array element read by destructuring; a missing element is
    [undefined], which arithmetic turns into NaN. *)
Definition item (i : nat) (l : list number) : number := nth i l NaN.

(** The separators of [timecode.split(/[:;]/)]. *)
Definition timecode_separator (c : ascii) : bool :=
  Ascii.eqb c ":" || Ascii.eqb c ";".

Definition framesToTimecode (frames frameRate : number) : string :=
  let fps := Math_round frameRate in
  let hours := Math_floor (frames / (num 3600 * fps)) in
  let minutes := Math_floor ((frames mod (num 3600 * fps)) / (num 60 * fps)) in
  let seconds :=
    Math_floor (((frames mod (num 3600 * fps)) mod (num 60 * fps)) / fps) in
  let frs :=
    Math_floor (((frames mod (num 3600 * fps)) mod (num 60 * fps)) mod fps) in
  padStart 2 "0" (toString hours) ++ ":" ++
  padStart 2 "0" (toString minutes) ++ ":" ++
  padStart 2 "0" (toString seconds) ++ ":" ++
  padStart 2 "0" (toString frs).

Definition framesToSeconds (frames frameRate : number) : number :=
  Math_round ((frames / frameRate) * num 10) / num 10.

Definition timecodeToFrames (timecode : string) (frameRate : number) : number :=
  let fields := map Number (split timecode_separator timecode) in
  let hours := item 0 fields in
  let minutes := item 1 fields in
  let seconds := item 2 fields in
  let frames := item 3 fields in
  Math_floor
    ((hours * num 3600 + minutes * num 60 + seconds) * Math_round frameRate
     + frames).

(** ** Rational frame-duration table *)

(** The object literal of [frameRateToFrameDuration]; a numeric key is
    looked up by the number it denotes. *)
Definition frameDurationTable : list (number * string) :=
  [ (dec 23976 1000, "1001/24000s");
    (num 24, "100/2400s");
    (num 25, "1/25s");
    (dec 2997 100, "1001/30000s");
    (num 30, "1/30s");
    (num 50, "1/50s");
    (dec 5994 100, "1001/60000s");
    (num 60, "1/60s") ].

Fixpoint lookup (key : number) (table : list (number * string)) : option string :=
  match table with
  | [] => None
  | (k, v) :: rest => if neqb k key then Some v else lookup key rest
  end.

(** [x || fallback] for an optional string: [undefined] and the empty
    string are falsy. *)
Definition or_string (x : option string) (fallback : string) : string :=
  match x with
  | Some EmptyString | None => fallback
  | Some v => v
  end.

Definition frameRateToFrameDuration (frameRate : number) : string :=
  or_string (lookup frameRate frameDurationTable) "1001/24000s".

(** The pair read back from the table entry by
    [.split('/').map((n) => parseInt(n, 10))]; every entry has both parts,
    so neither element is ever missing. *)
Definition frameDurationPair (frameRate : number) : number * number :=
  let parts :=
    map parseInt
      (split (fun c => Ascii.eqb c "/") (frameRateToFrameDuration frameRate)) in
  (item 0 parts, item 1 parts).

(** The supported nominal frame rates: the keys of the table, that is
    23.976, 24, 25, 29.97, 30, 50, 59.94 and 60. *)
Definition supportedFrameRates : list number := map fst frameDurationTable.

(** ** Data model *)

(** Modelled from the spec: the [Clip] type of [shared/types], a retained
    interval [{start, end}] in seconds; the exporter reads these two
    fields and nothing else. *)
Record Clip : Type := { start : number; end_ : number }.

(** Modelled from the spec: the [VideoInfo] type of [shared/types], of which
    the exporter reads the source path and the duration in seconds. *)
Record VideoInfo : Type := { path : string; duration : number }.

(** An attribute object of the compact XML tree: names and values in the
    order of the object literal. *)
Definition Attributes : Type := list (string * string).

Record Asset : Type :=
  { asset_attributes : Attributes;
    media_rep : Attributes }.

(** The tree handed to [js2xml]. *)
Record ElementCompact : Type :=
  { declaration : Attributes;
    fcpxml_attributes : Attributes;
    format : Attributes;
    asset : list Asset;
    event : Attributes;
    project : Attributes;
    sequence : Attributes;
    spine : list Attributes }.

(** The template literal [`${n}/${denominator}s`]. *)
Definition rational (n denominator : number) : string :=
  toString n ++ "/" ++ toString denominator ++ "s".

(** ** Project-XML generator *)

(** The element pushed on the spine for one clip. *)
Definition assetClip (sourceClipName : string) (denominator : number)
    (offset duration start : number) : Attributes :=
  [ ("offset", rational offset denominator);
    ("enabled", "1");
    ("ref", "r2");
    ("duration", rational duration denominator);
    ("lane", "2");
    ("name", sourceClipName);
    ("start", rational start denominator) ].

(** Source-aligned start and end of a clip in the shared rational unit. *)
Definition clipStart (numerator frameRate timecodeInSeconds : number)
    (clip : Clip) : number :=
  numerator * Math_floor ((timecodeInSeconds + start clip) * frameRate).

Definition clipEnd (numerator frameRate timecodeInSeconds : number)
    (clip : Clip) : number :=
  numerator * Math_floor ((timecodeInSeconds + end_ clip) * frameRate).

(** The body of [clips.forEach] in [generateFCPXML]; the state is the spine
    built so far and the running [offset]. *)
Definition spineStep (sourceClipName : string)
    (numerator denominator frameRate timecodeInSeconds : number)
    (st : list Attributes * number) (clip : Clip) : list Attributes * number :=
  let '(spine_so_far, offset) := st in
  let start := clipStart numerator frameRate timecodeInSeconds clip in
  let end_ := clipEnd numerator frameRate timecodeInSeconds clip in
  let duration := end_ - start in
  ((spine_so_far ++
    [assetClip sourceClipName denominator offset duration start])%list,
   offset + duration).

Definition generateFCPXML (pathToSource sourceClipName : string)
    (sourceDuration : number) (clips : list Clip)
    (frameRate timecodeInSeconds : number) : ElementCompact :=
  let '(numerator, denominator) := frameDurationPair frameRate in
  let assetStart := numerator * Math_floor (timecodeInSeconds * frameRate) in
  let assetDuration := numerator * Math_floor (sourceDuration * frameRate) in
  {| declaration := [("version", "1.0"); ("encoding", "UTF-8")];
     fcpxml_attributes := [("version", "1.10")];
     format :=
       [ ("id", "r0");
         ("name",
          "FFVideoFormat3840x2160p" ++
          remove_first "." (toString (Math_round (frameRate * num 100) / num 100)));
         ("frameDuration", frameRateToFrameDuration frameRate);
         ("width", "3840");
         ("height", "2160") ];
     asset :=
       [ {| asset_attributes :=
              [ ("id", "r2");
                ("name", sourceClipName);
                ("start", rational assetStart denominator);
                ("duration", rational assetDuration denominator);
                ("format", "r1");
                ("hasAudio", "1");
                ("audioSources", "1");
                ("audioChannels", "1") ];
            media_rep :=
              [ ("src", "file://" ++ pathToSource);
                ("kind", "original-media") ] |} ];
     event := [("name", "TurboCut " ++ sourceClipName)];
     project := [("name", "TurboCut " ++ sourceClipName)];
     sequence := [("tcStart", "0/1s"); ("format", "r0"); ("tcFormat", "NDF")];
     spine :=
       fst (fold_left
              (spineStep sourceClipName numerator denominator frameRate
                 timecodeInSeconds)
              clips ([], num 0)) |}.

(** ** EDL generator *)

Definition srcStartFrames (frameRate timecodeInSeconds : number)
    (clip : Clip) : number :=
  Math_floor ((start clip + timecodeInSeconds) * frameRate).

Definition srcEndFrames (frameRate timecodeInSeconds : number)
    (clip : Clip) : number :=
  Math_floor ((end_ clip + timecodeInSeconds) * frameRate).

Definition recEndFrames (frameRate recordStartFrames : number)
    (clip : Clip) : number :=
  Math_floor (recordStartFrames + (end_ clip - start clip) * frameRate).

(** The two lines and the blank line appended for one clip; [index] is the
    position of the clip, from 0. *)
Definition edlRecord (sourceClipName : string) (frameRate : number)
    (index : nat) (srcStart srcEnd recStart recEnd : number) : string :=
  padStart 3 "0" (toString (num (Z.of_nat index) + num 1)) ++
  "  AX       V     C        " ++
  framesToTimecode srcStart frameRate ++ " " ++
  framesToTimecode srcEnd frameRate ++ " " ++
  framesToTimecode recStart frameRate ++ " " ++
  framesToTimecode recEnd frameRate ++ String "010" "" ++
  "* FROM CLIP NAME: " ++ sourceClipName ++ String "010" (String "010" "").

(** The body of [clips.forEach] in [generateEDL]; the state is the text so
    far, [recordStartFrames] and the index of the clip. *)
Definition edlStep (sourceClipName : string)
    (frameRate timecodeInSeconds : number)
    (st : string * number * nat) (clip : Clip) : string * number * nat :=
  let '(edl, recordStartFrames, index) := st in
  let recStartFrames := recordStartFrames in
  let recEnd := recEndFrames frameRate recordStartFrames clip in
  (edl ++
   edlRecord sourceClipName frameRate index
     (srcStartFrames frameRate timecodeInSeconds clip)
     (srcEndFrames frameRate timecodeInSeconds clip)
     recStartFrames recEnd,
   recEnd, S index).

Definition edlHeader (title : string) : string :=
  "TITLE: " ++ title ++ String "010" "" ++
  "FCM: NON-DROP FRAME" ++ String "010" (String "010" "").

Definition generateEDL (title sourceClipName : string) (clips : list Clip)
    (frameRate timecodeInSeconds : number) : string :=
  fst (fst (fold_left (edlStep sourceClipName frameRate timecodeInSeconds)
              clips (edlHeader title, num 0, O))).

(** ** Source start-offset resolver *)

(** What a probed field may hold. *)
Inductive value : Type :=
| Undefined
| Str (s : string)
| Num (n : number).

(** ToBoolean: [undefined], the empty string, 0 and NaN are falsy. *)
Definition truthy_value (v : value) : bool :=
  match v with
  | Undefined => false
  | Str EmptyString => false
  | Str _ => true
  | Num n => truthy n
  end.

(** [a || b]: [b] is looked at only when [a] is falsy. *)
Definition or_value (a b : value) : value :=
  if truthy_value a then a else b.

Infix "||" := or_value : js_scope.

Record Tags : Type := { timecode : value }.

Record FfprobeStream : Type :=
  { codec_type : string;
    stream_tags : option Tags;
    start_time : value }.

Record FfprobeFormat : Type := { format_tags : option Tags }.

Record FfprobeData : Type :=
  { streams : list FfprobeStream;
    probe_format : FfprobeFormat }.

(** [tags?.timecode] *)
Definition tags_timecode (tags : option Tags) : value :=
  match tags with
  | Some t => timecode t
  | None => Undefined
  end.

(** [streams.find((stream) => stream.codec_type === kind)] *)
Definition find_stream (kind : string) (l : list FfprobeStream)
  : option FfprobeStream :=
  find (fun stream => String.eqb (codec_type stream) kind) l.

(** The part of [getStartTimecode] that follows the probe. *)
Definition startTimecodeOf (probeData : FfprobeData) : value :=
  let videoStream := find_stream "video" (streams probeData) in
  let qtStream := find_stream "data" (streams probeData) in
  let startTimecodeFormat := tags_timecode (format_tags (probe_format probeData)) in
  let startTimecodeStream :=
    match videoStream with
    | Some v => tags_timecode (stream_tags v)
    | None => Undefined
    end in
  let startTimecodeQt :=
    match qtStream with
    | Some q => tags_timecode (stream_tags q)
    | None => Undefined
    end in
  let startTimecodeStreamStart :=
    match videoStream with
    | Some v => start_time v
    | None => Undefined
    end in
  (startTimecodeFormat || startTimecodeStream || startTimecodeQt ||
   startTimecodeStreamStart || Str "00:00:00:00")%js.

(** ** Export orchestrators *)

Inductive Error : Type :=
| ProbeError (message : string)
| FsError (code : string)
| TypeError (message : string)
| PlainError (message : string).

Inductive Result (A : Type) : Type :=
| Ok (a : A)
| Throw (e : Error).

Arguments Ok {A} a.
Arguments Throw {A} e.

Record SaveDialogOptions : Type :=
  { dialog_title : string;
    defaultPath : string;
    filters : list (string * list string) }.

Record SaveDialogResult : Type :=
  { canceled : bool;
    filePath : option string }.

(** A call made to a collaborator. *)
Inductive Call : Type :=
| ShowSaveDialog (options : SaveDialogOptions)
| Ffprobe (filePath : string)
| Mkdir (dir : string)
| WriteFile (file data encoding : string).

(** What the collaborators answer. *)
Record World : Type :=
  { showSaveDialog : SaveDialogOptions -> SaveDialogResult;
    ffprobe : string -> Result FfprobeData;
    mkdir : string -> Result unit;
    writeFile : string -> string -> string -> Result unit }.

(** An asynchronous computation: the calls it makes, in order, and how it
    settles. *)
Definition Async (A : Type) : Type := World -> list Call * Result A.

Definition ret {A} (a : A) : Async A := fun _ => ([], Ok a).

Definition throw {A} (e : Error) : Async A := fun _ => ([], Throw e).

Definition bind {A B} (m : Async A) (k : A -> Async B) : Async B :=
  fun w =>
    match m w with
    | (calls, Ok a) => let '(calls', r) := k a w in ((calls ++ calls')%list, r)
    | (calls, Throw e) => (calls, Throw e)
    end.

(** [try { m } catch (error) { handler error }] *)
Definition try_catch {A} (m : Async A) (handler : Error -> Async A) : Async A :=
  fun w =>
    match m w with
    | (calls, Ok a) => (calls, Ok a)
    | (calls, Throw e) =>
        let '(calls', r) := handler e w in ((calls ++ calls')%list, r)
    end.

Notation "x <- m ;; k" := (bind m (fun x => k))
  (at level 61, m at next level, right associativity).
Notation "m ;;; k" := (bind m (fun _ => k))
  (at level 61, right associativity).

Definition call_showSaveDialog (o : SaveDialogOptions) : Async SaveDialogResult :=
  fun w => ([ShowSaveDialog o], Ok (showSaveDialog w o)).

Definition call_ffprobe (filePath : string) : Async FfprobeData :=
  fun w => ([Ffprobe filePath], ffprobe w filePath).

Definition call_mkdir (dir : string) : Async unit :=
  fun w => ([Mkdir dir], mkdir w dir).

Definition call_writeFile (file data encoding : string) : Async unit :=
  fun w => ([WriteFile file data encoding], writeFile w file data encoding).

Definition getStartTimecode (filePath : string) : Async value :=
  probeData <- call_ffprobe filePath ;;
  ret (startTimecodeOf probeData).

(** [error.code], which only a file-system error carries. *)
Definition error_code (e : Error) : option string :=
  match e with
  | FsError code => Some code
  | _ => None
  end.

(** [error.code !== expected], where a missing code is [undefined]. *)
Definition code_differs (code : option string) (expected : string) : bool :=
  match code with
  | Some c => negb (String.eqb c expected)
  | None => true
  end.

(** [timecodeToFrames] applied to what [getStartTimecode] resolved: a value
    that is not a string has no [split] method. *)
Definition startFrameOf (startTimecode : value) (frameRate : number)
  : Async number :=
  match startTimecode with
  | Str s => ret (timecodeToFrames s frameRate)
  | _ => throw (TypeError "timecode.split is not a function")
  end.

(** The options handed to [dialog.showSaveDialog] by each entry point. *)
Definition fcpxmlDialogOptions (title : string) (videoInfo : VideoInfo)
  : SaveDialogOptions :=
  {| dialog_title := title;
     defaultPath :=
       last_field (fun c => Ascii.eqb c "/") (path videoInfo) ++ ".fcpxmld";
     filters := [("FCPXML 1.10", ["fcpxmld"])] |}.

Definition edlDialogOptions (title : string) (videoInfo : VideoInfo)
  : SaveDialogOptions :=
  {| dialog_title := title;
     defaultPath :=
       last_field (fun c => Ascii.eqb c "/") (path videoInfo) ++ ".edl";
     filters := [("EDL", ["edl"])] |}.

Section Orchestrators.

(** The serializer of [xml-js] and [path.join] of Node. *)
Variable js2xml : ElementCompact -> string.
Variable path_join : string -> string -> string.

Definition createFCPXML (title : string) (clips : list Clip)
    (videoInfo : VideoInfo) (clipName : string) (frameRate : number)
  : Async bool :=
  result <- call_showSaveDialog (fcpxmlDialogOptions title videoInfo) ;;
  match canceled result, filePath result with
  | true, _ | _, None => ret false
  | false, Some file =>
      startTimecode <- getStartTimecode (path videoInfo) ;;
      startFrame <- startFrameOf startTimecode frameRate ;;
      let startTimecodeInSeconds := framesToSeconds startFrame frameRate in
      let xml :=
        js2xml (generateFCPXML (path videoInfo) clipName (duration videoInfo)
                  clips frameRate startTimecodeInSeconds) in
      try_catch (call_mkdir file)
        (fun error =>
           if code_differs (error_code error) "EEXIST"
           then throw (PlainError "Failed to create directory")
           else ret tt) ;;;
      call_writeFile (path_join file "Info.fcpxml") xml "utf8" ;;;
      ret true
  end.

Definition createEDL (title : string) (clips : list Clip)
    (videoInfo : VideoInfo) (clipName : string) (frameRate : number)
  : Async bool :=
  result <- call_showSaveDialog (edlDialogOptions title videoInfo) ;;
  match canceled result, filePath result with
  | true, _ | _, None => ret false
  | false, Some file =>
      startTimecode <- getStartTimecode (path videoInfo) ;;
      startFrame <- startFrameOf startTimecode frameRate ;;
      let startTimecodeInSeconds := framesToSeconds startFrame frameRate in
      let edl :=
        generateEDL "Silence Removed" clipName clips frameRate
          startTimecodeInSeconds in
      call_writeFile file edl "utf8" ;;;
      ret true
  end.

End Orchestrators.

(** * The optimized audio file (src/renderer/hooks/useCreateOptimizedAudioFile.ts) *)

Section OptimizedAudioFile.

Local Open Scope string_scope.

(** A character of the class [[^/.]]. *)
Definition extension_char (c : ascii) : bool :=
  negb (Ascii.eqb c "/" || Ascii.eqb c ".")%bool.

(** The whole of [s] matches [\.[^/.]+]: this is a match of
    [/\.[^/.]+$/] that starts at the first character of [s]. *)
Definition extension_at (s : string) : bool :=
  match s with
  | String "." rest =>
      (negb (String.eqb rest "") && all_chars extension_char rest)%bool
  | _ => false
  end.

(** [s.replace(/\.[^/.]+$/, replacement)] for a replacement without [$]:
    the leftmost match, if there is one, is replaced. *)
Fixpoint replaceExtension (replacement s : string) : string :=
  if extension_at s then replacement
  else
    match s with
    | EmptyString => EmptyString
    | String c s' => String c (replaceExtension replacement s')
    end.

(** [outPath] in [convert], from [inputFile.path]. *)
Definition outPath (inputPath : string) : string :=
  replaceExtension ".compressed.mono.wav" inputPath.

End OptimizedAudioFile.

(** * Disabling segments from the selection (the [Cut] page) *)

Section SegmentSelection.

Local Open Scope Z_scope.

(** A [Set<number>] of segment ids: its elements in insertion order,
    without duplicates.  The ids are integers: the state starts empty and
    only receives values of the loop variable below. *)
Definition NumberSet : Type := list Z.

(** [set.has(x)] *)
Definition has (set : NumberSet) (x : Z) : bool := existsb (Z.eqb x) set.

(** [set.add(x)] *)
Definition add (set : NumberSet) (x : Z) : NumberSet :=
  if has set x then set else (set ++ [x])%list.

(** [new Set(iterable)] *)
Definition newSet (elements : list Z) : NumberSet := fold_left add elements [].

(** A segment id read from the document at one end of a range, that is
    [parentElement?.dataset?.segmentId ||
     parentElement?.closest('[data-segment-id]')?.getAttribute('data-segment-id')]:
    a string, or nothing where the element or the attribute is missing. *)
Definition SegmentId : Type := option string.

(** ToBoolean on such a value: nothing and the empty string are falsy. *)
Definition present (id : SegmentId) : bool :=
  match id with
  | Some (String _ _) => true
  | _ => false
  end.

(** [parseInt(id || '-1', 10)] *)
Definition idNumber (id : SegmentId) : number :=
  parseInt (match id with
            | Some (String c s) => String c s
            | _ => "-1"%string
            end).

(** The integers [j, j + 1, ...], [count] of them: the values that the
    variable of a [for] loop takes. *)
Fixpoint countFrom (j : Z) (count : nat) : list Z :=
  match count with
  | O => []
  | S count' => j :: countFrom (j + 1) count'
  end.

(** The values of [j] in [for (let j = from; j <= to; j++)]; the loop
    body does not run when a bound is NaN.  The count is that of the
    integers: it is the count of the code when [to] is at most
    [maxSafeInteger], while from 2^53 on [j++] leaves a binary64 [j]
    unchanged and the loop of the code does not end. *)
Definition loopValues (from to : number) : list Z :=
  match from, to with
  | Fin p, Fin q => countFrom (Qfloor p) (Z.to_nat (Qfloor q - Qfloor p + 1))
  | _, _ => []
  end.

(** The body of the inner loop: a disabled segment is marked for
    deletion, an enabled one for addition. *)
Definition markSegment (disabledSegmentIds : NumberSet)
    (st : NumberSet * NumberSet) (j : Z) : NumberSet * NumberSet :=
  let '(segmentsToDelete, segmentsToAdd) := st in
  if has disabledSegmentIds j then (add segmentsToDelete j, segmentsToAdd)
  else (segmentsToDelete, add segmentsToAdd j).

(** The body of the loop over the ranges of the selection, given the
    segment ids found at the start and at the end of the range. *)
Definition markRange (disabledSegmentIds : NumberSet)
    (st : NumberSet * NumberSet) (range : SegmentId * SegmentId)
  : NumberSet * NumberSet :=
  let '(start, end_) := range in
  if (negb (present start) || negb (present end_))%bool then st
  else
    let from := idNumber start in
    let to := idNumber end_ in
    if (negb (neqb from (num (-1))) && negb (neqb to (num (-1))))%bool
    then fold_left (markSegment disabledSegmentIds) (loopValues from to) st
    else st.

(** The update handed to [setDisabledSegmentIds]. *)
Definition mergeSegments (segmentsToDelete segmentsToAdd : NumberSet)
    (prevDisabledSegmentIds : NumberSet) : NumberSet :=
  newSet (filter (fun id => negb (has segmentsToDelete id))
            prevDisabledSegmentIds ++ segmentsToAdd)%list.

(** [handleKeyUp]: on Backspace or Delete, with a selection, the new set
    of disabled segments; otherwise the state is left alone.  The
    selection is given by the segment ids at the two ends of each of its
    ranges. *)
Definition handleKeyUp (key : string)
    (selection : option (list (SegmentId * SegmentId)))
    (disabledSegmentIds prevDisabledSegmentIds : NumberSet)
  : option NumberSet :=
  if (String.eqb key "Backspace" || String.eqb key "Delete")%bool then
    match selection with
    | None => None
    | Some ranges =>
        let '(segmentsToDelete, segmentsToAdd) :=
          fold_left (markRange disabledSegmentIds) ranges ([], []) in
        Some (mergeSegments segmentsToDelete segmentsToAdd
                prevDisabledSegmentIds)
    end
  else None.

End SegmentSelection.

(** * Notions used to state the properties *)

Section Notions.

Local Open Scope Z_scope.

(** [Number.MAX_SAFE_INTEGER], 2^53 - 1: up to it binary64 holds every
    integer, and sums, products and floors of quotients of integers are
    exact as long as they stay below it. *)
Definition maxSafeInteger : Z := 9007199254740991.

(** A number between -2^53 and 2^53: finite, and far from overflow. *)
Definition inRange (x : number) : Prop :=
  nle (num (- 9007199254740992)) x /\ nle x (num 9007199254740992).

(** The four fields of the timecode of frame [f] at [fps] frames per second. *)
Definition hoursOf (f fps : Z) : Z := f / (3600 * fps).
Definition minutesOf (f fps : Z) : Z := (f mod (3600 * fps)) / (60 * fps).
Definition secondsOf (f fps : Z) : Z :=
  ((f mod (3600 * fps)) mod (60 * fps)) / fps.
Definition framesOf (f fps : Z) : Z :=
  ((f mod (3600 * fps)) mod (60 * fps)) mod fps.

(** The pattern [^\d{2}:\d{2}:\d{2}:\d{2}$]. *)
Definition matchesTimecodePattern (s : string) : bool :=
  match s with
  | String h1 (String h2 (String c1 (String m1 (String m2 (String c2
      (String s1 (String s2 (String c3 (String f1 (String f2 EmptyString))))))))))
    =>
      is_digit h1 && is_digit h2 && Ascii.eqb c1 ":" &&
      is_digit m1 && is_digit m2 && Ascii.eqb c2 ":" &&
      is_digit s1 && is_digit s2 && Ascii.eqb c3 ":" &&
      is_digit f1 && is_digit f2
  | _ => false
  end.

(** Membership in the table of supported rates, by numeric equality. *)
Definition isSupported (frameRate : number) : bool :=
  existsb (fun k => neqb k frameRate) supportedFrameRates.

(** The sources of a start timecode, in the order of the resolver. *)
Definition formatTimecode (probeData : FfprobeData) : value :=
  tags_timecode (format_tags (probe_format probeData)).

Definition videoTimecode (probeData : FfprobeData) : value :=
  match find_stream "video" (streams probeData) with
  | Some v => tags_timecode (stream_tags v)
  | None => Undefined
  end.

Definition dataTimecode (probeData : FfprobeData) : value :=
  match find_stream "data" (streams probeData) with
  | Some q => tags_timecode (stream_tags q)
  | None => Undefined
  end.

Definition videoStartTime (probeData : FfprobeData) : value :=
  match find_stream "video" (streams probeData) with
  | Some v => start_time v
  | None => Undefined
  end.

Definition timecodeSources (probeData : FfprobeData) : list value :=
  [ formatTimecode probeData; videoTimecode probeData;
    dataTimecode probeData; videoStartTime probeData ].

Definition all_falsy (l : list value) : bool :=
  forallb (fun v => negb (truthy_value v)) l.

(** The records of an EDL, one per clip, from a record cursor and an
    index. *)
Fixpoint edlRecords (sourceClipName : string)
    (frameRate timecodeInSeconds recordStartFrames : number) (index : nat)
    (clips : list Clip) : list string :=
  match clips with
  | [] => []
  | clip :: rest =>
      let recEnd :=
        Math_floor (recordStartFrames + (end_ clip - start clip) * frameRate)%js in
      edlRecord sourceClipName frameRate index
        (Math_floor ((start clip + timecodeInSeconds) * frameRate)%js)
        (Math_floor ((end_ clip + timecodeInSeconds) * frameRate)%js)
        recordStartFrames recEnd
      :: edlRecords sourceClipName frameRate timecodeInSeconds recEnd (S index)
           rest
  end.

(** Concatenation of a list of strings. *)
Definition concatStrings (l : list string) : string :=
  fold_right append EmptyString l.

(** The numbers behind one spine element. *)
Record SpineEntry : Type :=
  { entry_offset : number;
    entry_duration : number;
    entry_start : number }.

Definition renderEntry (sourceClipName : string) (denominator : number)
    (e : SpineEntry) : Attributes :=
  assetClip sourceClipName denominator
    (entry_offset e) (entry_duration e) (entry_start e).

(** The spine as numbers, one entry per clip, from a running offset. *)
Fixpoint spineEntries (numerator frameRate timecodeInSeconds offset : number)
    (clips : list Clip) : list SpineEntry :=
  match clips with
  | [] => []
  | clip :: rest =>
      let s :=
        (numerator * Math_floor ((timecodeInSeconds + start clip) * frameRate))%js in
      let e :=
        (numerator * Math_floor ((timecodeInSeconds + end_ clip) * frameRate))%js in
      let d := (e - s)%js in
      {| entry_offset := offset; entry_duration := d; entry_start := s |}
      :: spineEntries numerator frameRate timecodeInSeconds (offset + d)%js rest
  end.

(** Sum of a list of numbers, added left to right from 0. *)
Definition total (l : list number) : number := fold_left nadd l (num 0).

(** Each element is at most the next one. *)
Fixpoint nondecreasing (l : list number) : Prop :=
  match l with
  | a :: (b :: _) as rest => nle a b /\ nondecreasing rest
  | _ => True
  end.

(** A clip whose bounds are finite and in order. *)
Definition orderedClip (clip : Clip) : Prop :=
  is_finite (start clip) = true /\ is_finite (end_ clip) = true /\
  nle (start clip) (end_ clip).

(** A clip in order whose two ends, counted from [timecodeInSeconds], are
    in range. *)
Definition clipInRange (timecodeInSeconds : number) (clip : Clip) : Prop :=
  nle (start clip) (end_ clip) /\
  inRange (timecodeInSeconds + start clip)%js /\
  inRange (timecodeInSeconds + end_ clip)%js.

(** The data written by the [writeFile] calls of a trace. *)
Definition writtenData (calls : list Call) : list string :=
  flat_map (fun c => match c with WriteFile _ data _ => [data] | _ => [] end)
    calls.

(** The dialog was cancelled, or closed without a path. *)
Definition cancelled (result : SaveDialogResult) : Prop :=
  canceled result = true \/ filePath result = None.

Definition newline : string := String "010" EmptyString.

(** A world for examples: the user picks [/out], the probe finds one video
    stream without timecode tag or start time, and the file system accepts
    every request. *)
Definition exampleWorld : World :=
  {| showSaveDialog := fun _ => {| canceled := false; filePath := Some "/out" |};
     ffprobe := fun _ =>
       Ok {| streams :=
               [ {| codec_type := "video"; stream_tags := None;
                    start_time := Undefined |} ];
             probe_format := {| format_tags := None |} |};
     mkdir := fun _ => Ok tt;
     writeFile := fun _ _ _ => Ok tt |}.

(** The same world with a user who cancels the dialog. *)
Definition cancellingWorld : World :=
  {| showSaveDialog := fun _ => {| canceled := true; filePath := None |};
     ffprobe := ffprobe exampleWorld;
     mkdir := mkdir exampleWorld;
     writeFile := writeFile exampleWorld |}.

Definition exampleVideo : VideoInfo :=
  {| path := "/media/a.mov"; duration := num 60 |}.

(** Stand-ins for the serializer and for [path.join] in examples. *)
Definition exampleSerializer (doc : ElementCompact) : string :=
  concatStrings
    (map (fun a => concatStrings (map (fun kv => (fst kv ++ "=" ++ snd kv ++ ";")%string) a))
       (spine doc)).

Definition examplePathJoin (a b : string) : string := (a ++ "/" ++ b)%string.

(** The frame counts behind one EDL record. *)
Record EdlEntry : Type :=
  { src_start : number;
    src_end : number;
    rec_start : number;
    rec_end : number }.

(** The EDL as numbers, one entry per clip, from a record cursor. *)
Fixpoint edlEntries (frameRate timecodeInSeconds recordStartFrames : number)
    (clips : list Clip) : list EdlEntry :=
  match clips with
  | [] => []
  | clip :: rest =>
      let recEnd := recEndFrames frameRate recordStartFrames clip in
      {| src_start := srcStartFrames frameRate timecodeInSeconds clip;
         src_end := srcEndFrames frameRate timecodeInSeconds clip;
         rec_start := recordStartFrames;
         rec_end := recEnd |}
      :: edlEntries frameRate timecodeInSeconds recEnd rest
  end.

(** The text of the entries, numbered from [index]. *)
Fixpoint renderEdlEntries (sourceClipName : string) (frameRate : number)
    (index : nat) (es : list EdlEntry) : list string :=
  match es with
  | [] => []
  | e :: rest =>
      edlRecord sourceClipName frameRate index
        (src_start e) (src_end e) (rec_start e) (rec_end e)
      :: renderEdlEntries sourceClipName frameRate (S index) rest
  end.

(** The record cursor after a list of clips. *)
Definition recordCursor (frameRate recordStartFrames : number)
    (clips : list Clip) : number :=
  fold_left (recEndFrames frameRate) clips recordStartFrames.

(** The edit number of the record at position [index]. *)
Definition editNumber (index : nat) : string :=
  padStart 3 "0" (toString (num (Z.of_nat index) + num 1)%js).

Fixpoint map_chars (f : ascii -> ascii) (s : string) : string :=
  match s with
  | EmptyString => EmptyString
  | String c s' => String (f c) (map_chars f s')
  end.

(** A timecode written with the drop-frame separator: every [:] becomes
    [;]. *)
Definition withSemicolons (s : string) : string :=
  map_chars (fun c => if Ascii.eqb c ":" then ";"%char else c) s.

(** A timecode of four fields, each padded to two places. *)
Definition timecodeOfFields (h m s fr : Z) : string :=
  (padStart 2 "0" (digits h) ++ ":" ++
   padStart 2 "0" (digits m) ++ ":" ++
   padStart 2 "0" (digits s) ++ ":" ++
   padStart 2 "0" (digits fr))%string.

(** A world whose probe fails. *)
Definition failingProbeWorld : World :=
  {| showSaveDialog := showSaveDialog exampleWorld;
     ffprobe := fun _ => Throw (ProbeError "ffprobe exited with code 1");
     mkdir := mkdir exampleWorld;
     writeFile := writeFile exampleWorld |}.

(** A world whose [mkdir] fails with the given error code. *)
Definition failingMkdirWorld (code : string) : World :=
  {| showSaveDialog := showSaveDialog exampleWorld;
     ffprobe := ffprobe exampleWorld;
     mkdir := fun _ => Throw (FsError code);
     writeFile := writeFile exampleWorld |}.

(** The bounds of a range of the selection that [markRange] acts on. *)
Definition rangeBounds (range : SegmentId * SegmentId) : option (Z * Z) :=
  let '(start, end_) := range in
  if (present start && present end_)%bool then
    match idNumber start, idNumber end_ with
    | Fin p, Fin q =>
        if ((Qfloor p =? -1) || (Qfloor q =? -1))%bool then None
        else Some (Qfloor p, Qfloor q)
    | _, _ => None
    end
  else None.

(** The bounds of every range are integers that binary64 holds exactly and
    can count through. *)
Definition safeRanges (ranges : list (SegmentId * SegmentId)) : Prop :=
  Forall (fun range =>
            match rangeBounds range with
            | Some (a, b) =>
                - maxSafeInteger <= a <= maxSafeInteger /\
                - maxSafeInteger <= b <= maxSafeInteger
            | None => True
            end) ranges.

(** The segment lies in one of the ranges of the selection. *)
Definition selected (ranges : list (SegmentId * SegmentId)) (id : Z) : bool :=
  existsb (fun range =>
             match rangeBounds range with
             | Some (a, b) => ((a <=? id) && (id <=? b))%bool
             | None => false
             end) ranges.

(** What the two sets hold, given which segments the ranges seen so far
    cover. *)
Definition marks (disabled : NumberSet) (covered : Z -> bool)
    (st : NumberSet * NumberSet) : Prop :=
  forall id : Z,
    has (fst st) id = (covered id && has disabled id)%bool /\
    has (snd st) id = (covered id && negb (has disabled id))%bool.

End Notions.

(** * Properties *)

(** ** Arithmetic of integer-valued numbers *)

Section IntegerNumbers.

Local Open Scope Z_scope.

Lemma Qred_inject_Z (z : Z) : Qred (inject_Z z) = inject_Z z.
Proof.
  apply Qred_identity. simpl. apply Z.gcd_1_r.
Qed.

Lemma fin_of_Z (q : Q) (z : Z) : (q == inject_Z z)%Q -> fin q = of_Z z.
Proof.
  intros H. unfold fin, of_Z.
  rewrite (Qred_complete _ _ H). now rewrite Qred_inject_Z.
Qed.

Lemma nadd_num (a b : Z) : (num a + num b)%js = num (a + b).
Proof.
  unfold num. simpl. apply fin_of_Z. now rewrite inject_Z_plus.
Qed.

Lemma nmul_num (a b : Z) : (num a * num b)%js = num (a * b).
Proof.
  unfold num. simpl. apply fin_of_Z. now rewrite inject_Z_mult.
Qed.

Lemma nsub_num (a b : Z) : (num a - num b)%js = num (a - b).
Proof.
  unfold num, of_Z, nsub, nneg, nadd. apply fin_of_Z.
  unfold fin. rewrite Qred_correct.
  unfold Z.sub. rewrite inject_Z_plus, inject_Z_opp. reflexivity.
Qed.

Lemma Qeq_bool_inject_Z_0 (b : Z) : b <> 0 -> Qeq_bool (inject_Z b) 0 = false.
Proof.
  intros Hb. destruct (Qeq_bool (inject_Z b) 0) eqn:E; [|reflexivity].
  apply Qeq_bool_eq in E. unfold Qeq in E. simpl in E. lia.
Qed.

Lemma Qfloor_div_Z (a b : Z) :
  0 < b -> Qfloor (inject_Z a / inject_Z b) = a / b.
Proof.
  intros Hb. destruct b as [|p|p]; try lia.
  rewrite <- Qmake_Qdiv. reflexivity.
Qed.

Lemma Math_floor_num (z : Z) : Math_floor (num z) = num z.
Proof.
  unfold num, of_Z, Math_floor. now rewrite Qfloor_Z.
Qed.

Lemma floor_div_num (a b : Z) :
  0 < b -> Math_floor (num a / num b)%js = num (a / b).
Proof.
  intros Hb. unfold num, of_Z, ndiv.
  rewrite Qeq_bool_inject_Z_0 by lia.
  unfold fin, Math_floor.
  rewrite (Qfloor_comp _ _ (Qred_correct _)).
  now rewrite Qfloor_div_Z.
Qed.

Lemma nrem_num (a b : Z) :
  0 <= a -> 0 < b -> (num a mod num b)%js = num (a mod b).
Proof.
  intros Ha Hb. unfold num, of_Z, nrem.
  rewrite Qeq_bool_inject_Z_0 by lia.
  apply fin_of_Z.
  assert (Hq : Qtrunc (inject_Z a / inject_Z b) = a / b).
  { unfold Qtrunc.
    assert (Hle : Qle_bool 0 (inject_Z a / inject_Z b) = true).
    { apply Qle_bool_iff. apply Qle_shift_div_l.
      - change 0%Q with (inject_Z 0). rewrite <- Zlt_Qlt. lia.
      - rewrite Qmult_0_l. change 0%Q with (inject_Z 0).
        rewrite <- Zle_Qle. lia. }
    rewrite Hle. now apply Qfloor_div_Z. }
  rewrite Hq.
  rewrite Z.mod_eq by lia. unfold Z.sub.
  rewrite inject_Z_plus, inject_Z_opp, inject_Z_mult. reflexivity.
Qed.

End IntegerNumbers.

(** ** Decimal digits *)

Section Digits.

Local Open Scope Z_scope.

Lemma small_digit_cases (d : Z) :
  0 <= d < 10 ->
  d = 0 \/ d = 1 \/ d = 2 \/ d = 3 \/ d = 4 \/
  d = 5 \/ d = 6 \/ d = 7 \/ d = 8 \/ d = 9.
Proof. lia. Qed.

Ltac each_digit d H :=
  let C := fresh "C" in
  pose proof (small_digit_cases H) as C;
  repeat (destruct C as [C|C]; [subst d|]); [..|subst d].

Lemma is_digit_digit_char (d : Z) :
  0 <= d < 10 -> is_digit (digit_char d) = true.
Proof. intros H. each_digit d H; reflexivity. Qed.

Lemma digit_value_digit_char (d : Z) :
  0 <= d < 10 -> digit_value (digit_char d) = d.
Proof. intros H. each_digit d H; reflexivity. Qed.

Lemma is_digit_range (c : ascii) :
  is_digit c = true -> (48 <= nat_of_ascii c <= 57)%nat.
Proof.
  unfold is_digit. intros H. apply andb_true_iff in H as [H1 H2].
  apply Nat.leb_le in H1, H2. lia.
Qed.

Lemma is_digit_not_char (c c' : ascii) :
  is_digit c = true -> is_digit c' = false -> Ascii.eqb c c' = false.
Proof.
  intros H H'. destruct (Ascii.eqb_spec c c') as [->|]; congruence.
Qed.

Lemma is_digit_not_separator (c : ascii) :
  is_digit c = true -> timecode_separator c = false.
Proof.
  intros H. unfold timecode_separator.
  rewrite (@is_digit_not_char c ":" H eq_refl).
  now rewrite (@is_digit_not_char c ";" H eq_refl).
Qed.

Lemma is_digit_not_space (c : ascii) :
  is_digit c = true -> is_space c = false.
Proof.
  intros H. apply is_digit_range in H. unfold is_space.
  destruct (Nat.leb_spec 9 (nat_of_ascii c)),
           (Nat.leb_spec (nat_of_ascii c) 13),
           (Nat.eqb_spec (nat_of_ascii c) 32); simpl; try reflexivity; lia.
Qed.

(** Printing then reading the digits of a non-negative integer. *)
Lemma digits_value_digits_fuel (fuel : nat) :
  forall (n : Z) (rest : string),
    0 <= n < 2 ^ Z.of_nat fuel ->
    digits_value 0 (digits_fuel fuel n rest) = digits_value n rest.
Proof.
  induction fuel as [|fuel IH]; intros n rest Hn.
  - simpl in *. now replace n with 0 by lia.
  - cbn [digits_fuel].
    assert (Hm : 0 <= n mod 10 < 10) by (apply Z.mod_pos_bound; lia).
    destruct (Z.ltb_spec n 10) as [Hlt|Hge].
    + cbn [digits_value]. rewrite digit_value_digit_char by assumption.
      rewrite Z.mod_small by lia. f_equal.
    + rewrite IH.
      * cbn [digits_value]. rewrite digit_value_digit_char by assumption.
        f_equal. rewrite (Z.div_mod n 10) at 3 by lia. reflexivity.
      * rewrite Nat2Z.inj_succ, Z.pow_succ_r in Hn by lia.
        split; [apply Z.div_pos; lia|].
        apply Z.div_lt_upper_bound; lia.
Qed.

Lemma digits_bound (n : Z) :
  0 <= n -> 0 <= n < 2 ^ Z.of_nat (S (Z.to_nat (Z.log2 n))).
Proof.
  intros Hn. split; [assumption|].
  rewrite Nat2Z.inj_succ, Z2Nat.id by apply Z.log2_nonneg.
  destruct (Z.eq_dec n 0) as [->|Hz]; [reflexivity|].
  apply Z.log2_spec. lia.
Qed.

Lemma digits_value_digits (n : Z) :
  0 <= n -> digits_value 0 (digits n) = n.
Proof.
  intros Hn. unfold digits.
  now rewrite digits_value_digits_fuel by (apply digits_bound; assumption).
Qed.

Lemma all_digits_digits_fuel (fuel : nat) :
  forall (n : Z) (rest : string),
    0 <= n ->
    all_chars is_digit rest = true ->
    all_chars is_digit (digits_fuel fuel n rest) = true.
Proof.
  induction fuel as [|fuel IH]; intros n rest Hn Hrest; [assumption|].
  cbn [digits_fuel].
  assert (Hd : is_digit (digit_char (n mod 10)) = true).
  { apply is_digit_digit_char, Z.mod_pos_bound. lia. }
  destruct (n <? 10).
  - cbn [all_chars]. now rewrite Hd, Hrest.
  - apply IH; [apply Z.div_pos; lia|].
    cbn [all_chars]. now rewrite Hd, Hrest.
Qed.

Lemma all_digits_digits (n : Z) :
  0 <= n -> all_chars is_digit (digits n) = true.
Proof.
  intros Hn. now apply all_digits_digits_fuel.
Qed.

Lemma digits_fuel_nonempty (fuel : nat) (n : Z) (rest : string) :
  digits_fuel (S fuel) n rest <> EmptyString.
Proof.
  revert n rest.
  induction fuel as [|fuel IH]; intros n rest; cbn [digits_fuel].
  - destruct (n <? 10); discriminate.
  - destruct (n <? 10); [discriminate|]. apply IH.
Qed.

Lemma digits_nonempty (n : Z) : digits n <> EmptyString.
Proof. apply digits_fuel_nonempty. Qed.

(** The printed form of an integer below 100. *)
Lemma digits_one (n : Z) :
  0 <= n < 10 -> digits n = String (digit_char n) EmptyString.
Proof.
  intros Hn. unfold digits. cbn [digits_fuel].
  destruct (Z.ltb_spec n 10); [|lia].
  now rewrite Z.mod_small by lia.
Qed.

Lemma digits_two (n : Z) :
  10 <= n < 100 ->
  digits n =
  String (digit_char (n / 10)) (String (digit_char (n mod 10)) EmptyString).
Proof.
  intros Hn. unfold digits.
  assert (Hlog : 3 <= Z.log2 n).
  { change 3 with (Z.log2 10). apply Z.log2_le_mono. lia. }
  destruct (Z.to_nat (Z.log2 n)) as [|k] eqn:E; [lia|].
  cbn [digits_fuel].
  destruct (Z.ltb_spec n 10); [lia|].
  assert (Hq : 0 <= n / 10 < 10).
  { split; [apply Z.div_pos; lia|apply Z.div_lt_upper_bound; lia]. }
  destruct (Z.ltb_spec (n / 10) 10); [|lia].
  now rewrite (Z.mod_small (n / 10)) by lia.
Qed.

End Digits.

(** ** Reading a string of digits *)

Section ReadingDigits.

Local Open Scope Z_scope.

Lemma append_empty_r (s : string) : (s ++ "")%string = s.
Proof. induction s as [|c s IH]; simpl; congruence. Qed.

Lemma append_assoc (a b c : string) :
  ((a ++ b) ++ c)%string = (a ++ (b ++ c))%string.
Proof. induction a as [|x a IH]; simpl; congruence. Qed.

Lemma rev_string_rev_string (s : string) :
  forall acc acc',
    rev_string (rev_string s acc) acc' = rev_string acc (s ++ acc')%string.
Proof.
  induction s as [|c s IH]; intros acc acc'; simpl; [reflexivity|].
  now rewrite IH.
Qed.

Lemma all_chars_rev_string (p : ascii -> bool) (s : string) :
  forall acc,
    all_chars p s = true -> all_chars p acc = true ->
    all_chars p (rev_string s acc) = true.
Proof.
  induction s as [|c s IH]; intros acc Hs Hacc; simpl in *; [assumption|].
  apply andb_true_iff in Hs as [Hc Hs].
  apply IH; [assumption|]. simpl. now rewrite Hc.
Qed.

Lemma drop_while_space_digits (s : string) :
  all_chars is_digit s = true -> drop_while is_space s = s.
Proof.
  destruct s as [|c s]; [reflexivity|]. simpl. intros H.
  apply andb_true_iff in H as [Hc _].
  now rewrite (is_digit_not_space _ Hc).
Qed.

Lemma trim_digits (s : string) :
  all_chars is_digit s = true -> trim s = s.
Proof.
  intros H. unfold trim.
  rewrite (drop_while_space_digits _ H).
  rewrite drop_while_space_digits
    by (apply all_chars_rev_string; [assumption|reflexivity]).
  rewrite rev_string_rev_string. simpl. apply append_empty_r.
Qed.

Lemma span_all (p : ascii -> bool) (s : string) :
  all_chars p s = true -> span p s = (s, EmptyString).
Proof.
  induction s as [|c s IH]; simpl; [reflexivity|]. intros H.
  apply andb_true_iff in H as [Hc Hs]. now rewrite Hc, IH.
Qed.

Lemma unsigned_decimal_digits (s : string) :
  s <> EmptyString ->
  all_chars is_digit s = true ->
  unsigned_decimal s = of_Z (digits_value 0 s).
Proof.
  intros Hne H. unfold unsigned_decimal.
  destruct s as [|c s]; [congruence|].
  assert (Hc : is_digit c = true) by (simpl in H; now apply andb_true_iff in H).
  assert (Hinf : String.eqb (String c s) "Infinity" = false).
  { cbn [String.eqb]. now rewrite (@is_digit_not_char c "I" Hc eq_refl). }
  rewrite Hinf, (span_all _ _ H).
  rewrite append_empty_r.
  apply fin_of_Z.
  change (Z.of_nat (String.length "")) with 0. simpl (0 - 0).
  simpl (Qpower _ 0). apply Qmult_1_r.
Qed.

Lemma StrNumericLiteral_digits (s : string) :
  s <> EmptyString ->
  all_chars is_digit s = true ->
  StrNumericLiteral s = unsigned_decimal s.
Proof.
  intros Hne H.
  destruct s as [|c s]; [congruence|].
  simpl in H. apply andb_true_iff in H as [Hc Hs].
  destruct c as [[] [] [] [] [] [] [] []]; try discriminate Hc; try reflexivity.
  destruct s as [|c' s]; [reflexivity|].
  simpl in Hs. apply andb_true_iff in Hs as [Hc' _].
  destruct c' as [[] [] [] [] [] [] [] []]; try discriminate Hc'; reflexivity.
Qed.

(** [Number] reads a non-empty string of digits as the integer it writes. *)
Lemma Number_digits (s : string) :
  s <> EmptyString ->
  all_chars is_digit s = true ->
  Number s = num (digits_value 0 s).
Proof.
  intros Hne H. unfold Number.
  rewrite (trim_digits _ H), (StrNumericLiteral_digits Hne H).
  now apply unsigned_decimal_digits.
Qed.

(** A field without separator, followed by a separator. *)
Lemma split_field (sep : ascii -> bool) (field rest : string) (c : ascii) :
  all_chars (fun x => negb (sep x)) field = true ->
  sep c = true ->
  split sep (field ++ String c rest) = field :: split sep rest.
Proof.
  intros Hf Hc. induction field as [|x field IH]; simpl.
  - now rewrite Hc.
  - simpl in Hf. apply andb_true_iff in Hf as [Hx Hf].
    apply negb_true_iff in Hx. now rewrite Hx, (IH Hf).
Qed.

Lemma split_last_field (sep : ascii -> bool) (field : string) :
  all_chars (fun x => negb (sep x)) field = true ->
  split sep field = [field].
Proof.
  intros Hf. induction field as [|x field IH]; simpl; [reflexivity|].
  simpl in Hf. apply andb_true_iff in Hf as [Hx Hf].
  apply negb_true_iff in Hx. now rewrite Hx, (IH Hf).
Qed.

Lemma digits_no_separator (s : string) :
  all_chars is_digit s = true ->
  all_chars (fun x => negb (timecode_separator x)) s = true.
Proof.
  induction s as [|c s IH]; simpl; [reflexivity|]. intros H.
  apply andb_true_iff in H as [Hc Hs].
  now rewrite (is_digit_not_separator _ Hc), (IH Hs).
Qed.

(** Padding a non-empty string of digits to two places keeps its value. *)
Lemma padStart2_digits (s : string) :
  s <> EmptyString ->
  all_chars is_digit s = true ->
  padStart 2 "0" s <> EmptyString /\
  all_chars is_digit (padStart 2 "0" s) = true /\
  digits_value 0 (padStart 2 "0" s) = digits_value 0 s.
Proof.
  intros Hne H.
  destruct s as [|a [|b s]]; [congruence| |].
  - cbn in *. rewrite H. repeat split. discriminate.
  - repeat split; [discriminate|exact H].
Qed.

End ReadingDigits.

(** ** Timecodes of integer frame counts *)

Section Timecodes.

Local Open Scope Z_scope.

Lemma fields_recompose (f fps : Z) :
  0 < fps ->
  (hoursOf f fps * 3600 + minutesOf f fps * 60 + secondsOf f fps) * fps
  + framesOf f fps = f.
Proof.
  intros Hfps. unfold hoursOf, minutesOf, secondsOf, framesOf.
  pose proof (Z.div_mod f (3600 * fps)) as H1.
  pose proof (Z.div_mod (f mod (3600 * fps)) (60 * fps)) as H2.
  pose proof (Z.div_mod ((f mod (3600 * fps)) mod (60 * fps)) fps) as H3.
  specialize (H1 ltac:(lia)). specialize (H2 ltac:(lia)).
  specialize (H3 ltac:(lia)).
  set (h := f / (3600 * fps)) in *.
  set (r1 := f mod (3600 * fps)) in *.
  set (m := r1 / (60 * fps)) in *.
  set (r2 := r1 mod (60 * fps)) in *.
  set (s := r2 / fps) in *.
  set (fr := r2 mod fps) in *.
  lia.
Qed.

Lemma fields_bounds (f fps : Z) :
  0 <= f -> 0 < fps ->
  0 <= hoursOf f fps /\
  0 <= minutesOf f fps < 60 /\
  0 <= secondsOf f fps < 60 /\
  0 <= framesOf f fps < fps.
Proof.
  intros Hf Hfps. unfold hoursOf, minutesOf, secondsOf, framesOf.
  pose proof (Z.mod_pos_bound f (3600 * fps) ltac:(lia)) as H1.
  pose proof (Z.mod_pos_bound (f mod (3600 * fps)) (60 * fps) ltac:(lia)) as H2.
  pose proof (Z.mod_pos_bound ((f mod (3600 * fps)) mod (60 * fps)) fps Hfps)
    as H3.
  repeat split; try (apply Z.div_pos; lia); try lia;
    apply Z.div_lt_upper_bound; lia.
Qed.

Lemma toString_num_nonneg (z : Z) : 0 <= z -> toString (num z) = digits z.
Proof.
  intros Hz. unfold toString, num, of_Z, inject_Z, Qnum, Qden.
  rewrite Z.abs_eq, Z.div_1_r, Z.mod_1_r by assumption.
  destruct (Z.ltb_spec z 0); [lia|]. simpl. apply append_empty_r.
Qed.

Lemma toString_num_neg (z : Z) :
  z < 0 -> toString (num z) = ("-" ++ digits (- z))%string.
Proof.
  intros Hz. unfold toString, num, of_Z, inject_Z, Qnum, Qden.
  rewrite Z.abs_neq, Z.div_1_r, Z.mod_1_r by lia.
  destruct (Z.ltb_spec z 0); [|lia]. simpl. now rewrite append_empty_r.
Qed.

(** The rounded rate of each supported frame rate. *)
Lemma supported_rate_rounds (r : number) :
  In r supportedFrameRates ->
  exists fps : Z, Math_round r = num fps /\ 24 <= fps <= 60.
Proof.
  unfold supportedFrameRates. simpl.
  intros [<-|[<-|[<-|[<-|[<-|[<-|[<-|[<-|[]]]]]]]]].
  - exists 24. split; [reflexivity|lia].
  - exists 24. split; [reflexivity|lia].
  - exists 25. split; [reflexivity|lia].
  - exists 30. split; [reflexivity|lia].
  - exists 30. split; [reflexivity|lia].
  - exists 50. split; [reflexivity|lia].
  - exists 60. split; [reflexivity|lia].
  - exists 60. split; [reflexivity|lia].
Qed.

(** The hours field, whatever the sign of the frame count. *)
Lemma hours_field (f fps : Z) :
  0 < fps ->
  Math_floor (num f / (num 3600 * num fps))%js = num (hoursOf f fps).
Proof.
  intros Hfps. rewrite nmul_num. apply floor_div_num. lia.
Qed.

(** [framesToTimecode] on a non-negative integer frame count: each field
    is the decimal form of the corresponding quotient, padded to two
    places. *)
Lemma framesToTimecode_fields (f fps : Z) (frameRate : number) :
  0 <= f -> 0 < fps -> Math_round frameRate = num fps ->
  framesToTimecode (num f) frameRate =
  (padStart 2 "0" (digits (hoursOf f fps)) ++ ":" ++
   padStart 2 "0" (digits (minutesOf f fps)) ++ ":" ++
   padStart 2 "0" (digits (secondsOf f fps)) ++ ":" ++
   padStart 2 "0" (digits (framesOf f fps)))%string.
Proof.
  intros Hf Hfps Hr.
  destruct (fields_bounds Hf Hfps) as (Hh & Hm & Hs & Hfr).
  unfold framesToTimecode. rewrite Hr.
  rewrite hours_field by assumption.
  rewrite !nmul_num.
  assert (H1 : 0 <= f mod (3600 * fps) < 3600 * fps)
    by (apply Z.mod_pos_bound; lia).
  assert (H2 : 0 <= (f mod (3600 * fps)) mod (60 * fps) < 60 * fps)
    by (apply Z.mod_pos_bound; lia).
  rewrite (nrem_num (a := f)) by lia.
  rewrite (nrem_num (a := f mod (3600 * fps))) by lia.
  rewrite (nrem_num (a := (f mod (3600 * fps)) mod (60 * fps))) by lia.
  rewrite !floor_div_num by lia.
  rewrite Math_floor_num.
  fold (minutesOf f fps) (secondsOf f fps) (framesOf f fps).
  rewrite !toString_num_nonneg by lia.
  reflexivity.
Qed.

End Timecodes.

(** ** Round trip between frame counts and timecodes *)

Section RoundTrip.

Local Open Scope Z_scope.

Lemma Number_padded_digits (z : Z) :
  0 <= z -> Number (padStart 2 "0" (digits z)) = num z.
Proof.
  intros Hz.
  destruct (padStart2_digits (digits_nonempty z) (all_digits_digits Hz))
    as (Hne & Hall & Hval).
  rewrite (Number_digits Hne Hall), Hval.
  now rewrite digits_value_digits.
Qed.

Lemma padded_digits_no_separator (z : Z) :
  0 <= z ->
  all_chars (fun x => negb (timecode_separator x))
    (padStart 2 "0" (digits z)) = true.
Proof.
  intros Hz. apply digits_no_separator.
  now destruct (padStart2_digits (digits_nonempty z) (all_digits_digits Hz))
    as (_ & Hall & _).
Qed.

(** Reading back the four padded fields. *)
Lemma timecodeToFrames_fields (h m s fr fps : Z) (frameRate : number) :
  0 <= h -> 0 <= m -> 0 <= s -> 0 <= fr ->
  Math_round frameRate = num fps ->
  timecodeToFrames
    (padStart 2 "0" (digits h) ++ ":" ++
     padStart 2 "0" (digits m) ++ ":" ++
     padStart 2 "0" (digits s) ++ ":" ++
     padStart 2 "0" (digits fr))%string frameRate
  = num ((h * 3600 + m * 60 + s) * fps + fr).
Proof.
  intros Hh Hm Hs Hfr Hr. unfold timecodeToFrames.
  cbn [append].
  rewrite !split_field, split_last_field
    by (try reflexivity; now apply padded_digits_no_separator).
  cbn [map item nth].
  rewrite !Number_padded_digits by assumption.
  rewrite Hr, !nmul_num, !nadd_num, nmul_num, nadd_num.
  apply Math_floor_num.
Qed.

End RoundTrip.

(** ** Claims on timecode arithmetic *)

Section TimecodeClaims.

Local Open Scope Z_scope.

(** C1.  For every non-negative integer frame count [f] that a number
    holds exactly, that is up to [maxSafeInteger], and every supported
    frame rate [r], writing [f] as a timecode with [framesToTimecode] and
    reading it back with [timecodeToFrames] returns [f].  In this range
    every quotient, remainder, product and sum of the two functions is
    computed exactly by the code as well: the divisors are at most 216000,
    and what is read back never exceeds [f]. *)
Theorem timecode_roundtrip (f : Z) (r : number) :
  0 <= f <= maxSafeInteger ->
  In r supportedFrameRates ->
  timecodeToFrames (framesToTimecode (num f) r) r = num f.
Proof.
  intros [Hf _] Hr.
  destruct (supported_rate_rounds Hr) as (fps & Hround & Hfps).
  assert (Hpos : 0 < fps) by lia.
  destruct (fields_bounds Hf Hpos) as (Hh & Hm & Hs & Hfr).
  rewrite (@framesToTimecode_fields f fps r Hf Hpos Hround).
  rewrite (@timecodeToFrames_fields _ _ _ _ fps r) by (assumption || lia).
  now rewrite fields_recompose.
Qed.

Lemma timecode_roundtrip_witness :
  0 <= 2589407 <= maxSafeInteger /\
  In (dec 2997 100) supportedFrameRates /\
  timecodeToFrames (framesToTimecode (num 2589407) (dec 2997 100))
    (dec 2997 100) = num 2589407.
Proof.
  assert (H0 : 0 <= 2589407 <= maxSafeInteger) by (unfold maxSafeInteger; lia).
  assert (H1 : In (dec 2997 100) supportedFrameRates)
    by (simpl; auto).
  split; [exact H0|]. split; [exact H1|].
  exact (@timecode_roundtrip _ _ H0 H1).
Defined.

(** A field below 100 is written with exactly two digits. *)
Lemma padded_two_digits (z : Z) :
  0 <= z < 100 ->
  exists a b : ascii,
    padStart 2 "0" (digits z) = String a (String b EmptyString) /\
    is_digit a = true /\ is_digit b = true.
Proof.
  intros Hz. destruct (Z.ltb_spec z 10) as [Hlt|Hge].
  - exists "0"%char, (digit_char z).
    rewrite digits_one by lia. repeat split.
    apply is_digit_digit_char. lia.
  - exists (digit_char (z / 10)), (digit_char (z mod 10)).
    rewrite digits_two by lia. repeat split.
    + apply is_digit_digit_char.
      split; [apply Z.div_pos; lia|apply Z.div_lt_upper_bound; lia].
    + apply is_digit_digit_char, Z.mod_pos_bound. lia.
Qed.

Lemma digits_fuel_suffix (fuel : nat) :
  forall (n : Z) (rest : string),
    exists front : string, digits_fuel fuel n rest = (front ++ rest)%string.
Proof.
  induction fuel as [|fuel IH]; intros n rest.
  - exists EmptyString. reflexivity.
  - cbn [digits_fuel]. destruct (n <? 10).
    + exists (String (digit_char (n mod 10)) EmptyString). reflexivity.
    + destruct (IH (n / 10) (String (digit_char (n mod 10)) rest))
        as [front E].
      exists (front ++ String (digit_char (n mod 10)) EmptyString)%string.
      rewrite E, append_assoc. reflexivity.
Qed.

(** From 100 on, an integer is written with at least three digits. *)
Lemma digits_three (n : Z) :
  100 <= n ->
  exists (a b c : ascii) (rest : string),
    digits n = String a (String b (String c rest)) /\ is_digit c = true.
Proof.
  intros Hn.
  assert (Hall : all_chars is_digit (digits n) = true)
    by (apply all_digits_digits; lia).
  assert (Hlog : 6 <= Z.log2 n).
  { change 6 with (Z.log2 100). apply Z.log2_le_mono. lia. }
  unfold digits in *.
  destruct (Z.to_nat (Z.log2 n)) as [|[|k]] eqn:E; try lia.
  cbn [digits_fuel] in *.
  destruct (Z.ltb_spec n 10); [lia|].
  destruct (Z.ltb_spec (n / 10) 10) as [Hlt|_].
  { assert (10 <= n / 10) by (apply Z.div_le_lower_bound; lia). lia. }
  destruct (n / 10 / 10 <? 10).
  - cbn [all_chars] in Hall.
    repeat (apply andb_true_iff in Hall as [?H Hall]).
    do 4 eexists. split; [reflexivity|assumption].
  - destruct (digits_fuel_suffix k (n / 10 / 10 / 10)
                (String (digit_char ((n / 10 / 10) mod 10))
                   (String (digit_char ((n / 10) mod 10))
                      (String (digit_char (n mod 10)) EmptyString))))
      as [front Efront].
    rewrite Efront in *.
    destruct front as [|a [|b [|c front]]];
      cbn [append all_chars] in *;
      repeat (apply andb_true_iff in Hall as [?H Hall]);
      do 4 eexists; (split; [reflexivity|assumption]).
Qed.

(** A string whose third character is a digit does not match the
    pattern. *)
Lemma third_digit_no_match (a b c : ascii) (rest : string) :
  is_digit c = true ->
  matchesTimecodePattern (String a (String b (String c rest))) = false.
Proof.
  intros Hc.
  assert (E : Ascii.eqb c ":" = false)
    by exact (@is_digit_not_char c ":" Hc eq_refl).
  destruct rest as [|t1 [|t2 [|t3 [|t4 [|t5 [|t6 [|t7 [|t8 [|t9 rest]]]]]]]]];
    cbn [matchesTimecodePattern]; try reflexivity.
  now rewrite E, andb_false_r.
Qed.

(** C7, as the code has it.  For every supported frame rate and every
    non-negative integer frame count, the string returned by
    [framesToTimecode] matches [^\d{2}:\d{2}:\d{2}:\d{2}$] exactly when
    the frame count is below one hundred hours, that is below
    [360000 * round(frameRate)] frames. *)
Theorem timecode_pattern_below_100_hours (f fps : Z) (r : number) :
  In r supportedFrameRates ->
  Math_round r = num fps ->
  0 <= f ->
  matchesTimecodePattern (framesToTimecode (num f) r) = true <->
  f < 360000 * fps.
Proof.
  intros Hr Hround Hf.
  destruct (supported_rate_rounds Hr) as (fps' & Hround' & Hfps).
  assert (fps' = fps) as ->.
  { rewrite Hround in Hround'. unfold num, of_Z in Hround'.
    injection Hround' as E. now rewrite E. }
  assert (Hpos : 0 < fps) by lia.
  destruct (fields_bounds Hf Hpos) as (Hh & Hm & Hs & Hfr).
  rewrite (@framesToTimecode_fields f fps r Hf Hpos Hround).
  destruct (Z.lt_ge_cases f (360000 * fps)) as [Hlt|Hge].
  - split; [intros _; exact Hlt|intros _].
    assert (Hh' : hoursOf f fps < 100).
    { unfold hoursOf. apply Z.div_lt_upper_bound; lia. }
    destruct (@padded_two_digits (hoursOf f fps))
      as (h1 & h2 & -> & Hh1 & Hh2); [lia|].
    destruct (@padded_two_digits (minutesOf f fps))
      as (m1 & m2 & -> & Hm1 & Hm2); [lia|].
    destruct (@padded_two_digits (secondsOf f fps))
      as (s1 & s2 & -> & Hs1 & Hs2); [lia|].
    destruct (@padded_two_digits (framesOf f fps))
      as (f1 & f2 & -> & Hf1 & Hf2); [lia|].
    cbn. now rewrite Hh1, Hh2, Hm1, Hm2, Hs1, Hs2, Hf1, Hf2.
  - split; [|lia].
    assert (Hh' : 100 <= hoursOf f fps).
    { unfold hoursOf. apply Z.div_le_lower_bound; lia. }
    destruct (digits_three Hh') as (a & b & c & rest & E & Hc).
    rewrite E. cbn [padStart String.length Nat.leb append].
    rewrite (@third_digit_no_match a b c _ Hc). discriminate.
Qed.

Lemma timecode_pattern_below_100_hours_witness :
  In (num 24) supportedFrameRates /\
  Math_round (num 24) = num 24 /\
  0 <= 8639999 /\
  (matchesTimecodePattern (framesToTimecode (num 8639999) (num 24)) = true <->
   8639999 < 360000 * 24).
Proof.
  assert (H0 : In (num 24) supportedFrameRates) by (simpl; auto).
  assert (H1 : Math_round (num 24) = num 24) by reflexivity.
  assert (H2 : 0 <= 8639999) by lia.
  split; [exact H0|]. split; [exact H1|]. split; [exact H2|].
  exact (@timecode_pattern_below_100_hours _ _ _ H0 H1 H2).
Defined.

(** C7, as stated, fails from one hundred hours on: at 24 frames per second
    frame 8640000 is written with a three-digit hours field. *)
Lemma timecode_pattern_counterexample :
  0 <= 8640000 /\
  In (num 24) supportedFrameRates /\
  framesToTimecode (num 8640000) (num 24) = "100:00:00:00"%string /\
  matchesTimecodePattern (framesToTimecode (num 8640000) (num 24)) = false.
Proof.
  split; [lia|]. split; [simpl; auto|]. split; vm_compute; reflexivity.
Qed.

End TimecodeClaims.

(** ** Claims on invalid frame counts and on the frame-duration table *)

Section InvalidFramesAndTable.

Local Open Scope Z_scope.

(** C8, as stated, fails: a negative or a NaN frame count is neither
    rejected nor clamped to zero, its fields are written as they come. *)
Lemma invalid_frames_counterexample :
  framesToTimecode (num (-1)) (num 24) = "-1:-1:-1:-1"%string /\
  framesToTimecode NaN (num 24) = "NaN:NaN:NaN:NaN"%string /\
  framesToTimecode (num 0) (num 24) = "00:00:00:00"%string.
Proof.
  repeat split; vm_compute; reflexivity.
Qed.

(** C8, as the code has it.  [framesToTimecode] validates nothing and
    always returns a string.  At a supported frame rate, a negative integer
    frame count is written with a negative hours field, so that the result
    begins with a minus sign and is not the timecode of frame 0; a NaN frame
    count gives [NaN:NaN:NaN:NaN] at every frame rate. *)
Theorem invalid_frames_are_formatted (r : number) :
  (forall f : Z,
      f < 0 -> In r supportedFrameRates ->
      exists rest : string,
        framesToTimecode (num f) r = String "-" rest /\
        framesToTimecode (num f) r <> framesToTimecode (num 0) r) /\
  framesToTimecode NaN r = "NaN:NaN:NaN:NaN"%string.
Proof.
  split; [|reflexivity].
  intros f Hf Hr.
  destruct (supported_rate_rounds Hr) as (fps & Hround & Hfps).
  assert (Hneg : hoursOf f fps < 0).
  { unfold hoursOf. apply Z.div_lt_upper_bound; lia. }
  assert (Hzero : framesToTimecode (num 0) r = "00:00:00:00"%string).
  { rewrite (@framesToTimecode_fields 0 fps r) by (assumption || lia).
    unfold hoursOf, minutesOf, secondsOf, framesOf.
    rewrite !Z.mod_0_l, !Z.div_0_l by lia. reflexivity. }
  rewrite Hzero.
  unfold framesToTimecode. rewrite Hround, hours_field by lia.
  rewrite (toString_num_neg Hneg).
  destruct (digits (- hoursOf f fps)) as [|d ds] eqn:E.
  - now apply digits_nonempty in E.
  - cbn. eexists. split; [reflexivity|discriminate].
Qed.

Lemma invalid_frames_are_formatted_witness :
  -90 < 0 /\ In (num 30) supportedFrameRates /\
  exists rest : string,
    framesToTimecode (num (-90)) (num 30) = String "-" rest /\
    framesToTimecode (num (-90)) (num 30) <> framesToTimecode (num 0) (num 30).
Proof.
  assert (H0 : -90 < 0) by lia.
  assert (H1 : In (num 30) supportedFrameRates)
    by (simpl; do 4 right; left; reflexivity).
  split; [exact H0|]. split; [exact H1|].
  exact (proj1 (invalid_frames_are_formatted (num 30)) (-90) H0 H1).
Defined.

(** C9.  [frameRateToFrameDuration] maps each supported nominal rate to the
    listed entry, read back as the listed pair (24 gives 100/2400, not
    1/24), and every frame rate outside the table to the entry of 23.976. *)
Theorem frame_duration_table :
  (frameRateToFrameDuration (dec 23976 1000) = "1001/24000s"%string /\
   frameDurationPair (dec 23976 1000) = (num 1001, num 24000)) /\
  (frameRateToFrameDuration (num 24) = "100/2400s"%string /\
   frameDurationPair (num 24) = (num 100, num 2400)) /\
  (frameRateToFrameDuration (num 25) = "1/25s"%string /\
   frameDurationPair (num 25) = (num 1, num 25)) /\
  (frameRateToFrameDuration (dec 2997 100) = "1001/30000s"%string /\
   frameDurationPair (dec 2997 100) = (num 1001, num 30000)) /\
  (frameRateToFrameDuration (num 30) = "1/30s"%string /\
   frameDurationPair (num 30) = (num 1, num 30)) /\
  (frameRateToFrameDuration (num 50) = "1/50s"%string /\
   frameDurationPair (num 50) = (num 1, num 50)) /\
  (frameRateToFrameDuration (dec 5994 100) = "1001/60000s"%string /\
   frameDurationPair (dec 5994 100) = (num 1001, num 60000)) /\
  (frameRateToFrameDuration (num 60) = "1/60s"%string /\
   frameDurationPair (num 60) = (num 1, num 60)) /\
  (forall r : number,
      isSupported r = false ->
      frameRateToFrameDuration r = "1001/24000s"%string /\
      frameDurationPair r = (num 1001, num 24000)).
Proof.
  repeat (split; [split; vm_compute; reflexivity|]).
  intros r Hr.
  assert (E : frameRateToFrameDuration r = "1001/24000s"%string).
  { unfold isSupported, supportedFrameRates, frameDurationTable in Hr.
    cbn [existsb map fst] in Hr.
    repeat (apply orb_false_iff in Hr; destruct Hr as [?H Hr]).
    unfold frameRateToFrameDuration, frameDurationTable. cbn [lookup].
    repeat match goal with H : neqb _ r = false |- _ => rewrite H; clear H end.
    reflexivity. }
  split; [exact E|].
  unfold frameDurationPair. rewrite E. vm_compute. reflexivity.
Qed.

Lemma frame_duration_table_witness :
  isSupported (num 48) = false /\
  frameRateToFrameDuration (num 48) = "1001/24000s"%string /\
  frameDurationPair (num 48) = (num 1001, num 24000).
Proof.
  assert (H : isSupported (num 48) = false) by reflexivity.
  split; [exact H|].
  exact (proj2 (proj2 (proj2 (proj2 (proj2 (proj2 (proj2 (proj2
           frame_duration_table))))))) (num 48) H).
Defined.

End InvalidFramesAndTable.

(** ** The loops of the generators *)

Section GeneratorLoops.

Variable sourceClipName : string.
Variables frameRate timecodeInSeconds : number.

Lemma fold_edlStep (clips : list Clip) :
  forall (edl : string) (recordStartFrames : number) (index : nat),
    fst (fst (fold_left (edlStep sourceClipName frameRate timecodeInSeconds)
                clips (edl, recordStartFrames, index))) =
    (edl ++ concatStrings
              (edlRecords sourceClipName frameRate timecodeInSeconds
                 recordStartFrames index clips))%string.
Proof.
  induction clips as [|clip rest IH]; intros edl rec index.
  - simpl. now rewrite append_empty_r.
  - cbn [fold_left edlStep edlRecords concatStrings fold_right].
    rewrite IH, append_assoc. reflexivity.
Qed.

Lemma generateEDL_records (title : string) (clips : list Clip) :
  generateEDL title sourceClipName clips frameRate timecodeInSeconds =
  (edlHeader title ++
   concatStrings
     (edlRecords sourceClipName frameRate timecodeInSeconds (num 0) 0 clips))%string.
Proof. apply fold_edlStep. Qed.

Lemma length_edlRecords (clips : list Clip) :
  forall (recordStartFrames : number) (index : nat),
    List.length (edlRecords sourceClipName frameRate timecodeInSeconds
              recordStartFrames index clips) = List.length clips.
Proof.
  induction clips as [|clip rest IH]; intros rec index; simpl; [reflexivity|].
  now rewrite IH.
Qed.

Lemma nth_edlRecords (clips : list Clip) :
  forall (recordStartFrames : number) (index i : nat) (clip : Clip),
    nth_error clips i = Some clip ->
    exists recStart recEnd : number,
      nth_error
        (edlRecords sourceClipName frameRate timecodeInSeconds
           recordStartFrames index clips) i =
      Some (edlRecord sourceClipName frameRate (index + i)
              (Math_floor ((start clip + timecodeInSeconds) * frameRate)%js)
              (Math_floor ((end_ clip + timecodeInSeconds) * frameRate)%js)
              recStart recEnd).
Proof.
  induction clips as [|c rest IH]; intros rec index i clip Hi.
  - destruct i; discriminate.
  - destruct i as [|i].
    + injection Hi as ->. rewrite Nat.add_0_r. simpl. eauto.
    + simpl in Hi. cbn [edlRecords nth_error].
      rewrite <- Nat.add_succ_comm. now apply IH.
Qed.

Variables numerator denominator : number.

Lemma fold_spineStep (clips : list Clip) :
  forall (acc : list Attributes) (offset : number),
    fold_left
      (spineStep sourceClipName numerator denominator frameRate
         timecodeInSeconds)
      clips (acc, offset) =
    ((acc ++ map (renderEntry sourceClipName denominator)
               (spineEntries numerator frameRate timecodeInSeconds offset clips))%list,
     fold_left nadd
       (map entry_duration
          (spineEntries numerator frameRate timecodeInSeconds offset clips))
       offset).
Proof.
  induction clips as [|clip rest IH]; intros acc offset.
  - simpl. now rewrite app_nil_r.
  - cbn [fold_left spineStep]. unfold clipStart, clipEnd. rewrite IH.
    cbn [spineEntries map fold_left entry_duration].
    now rewrite <- app_assoc.
Qed.

Lemma length_spineEntries (clips : list Clip) :
  forall offset : number,
    List.length (spineEntries numerator frameRate timecodeInSeconds offset clips) =
    List.length clips.
Proof.
  induction clips as [|clip rest IH]; intros offset; simpl; [reflexivity|].
  now rewrite IH.
Qed.

Lemma nth_spineEntries (clips : list Clip) :
  forall (offset : number) (i : nat) (clip : Clip),
    nth_error clips i = Some clip ->
    exists e : SpineEntry,
      nth_error
        (spineEntries numerator frameRate timecodeInSeconds offset clips) i =
      Some e /\
      entry_start e =
      (numerator * Math_floor ((timecodeInSeconds + start clip) * frameRate))%js /\
      entry_duration e =
      (numerator * Math_floor ((timecodeInSeconds + end_ clip) * frameRate)
       - numerator * Math_floor ((timecodeInSeconds + start clip) * frameRate))%js.
Proof.
  induction clips as [|c rest IH]; intros offset i clip Hi.
  - destruct i; discriminate.
  - destruct i as [|i].
    + injection Hi as ->. simpl. eauto.
    + simpl in Hi. simpl. apply IH. exact Hi.
Qed.

(** Each offset is the previous offset plus the previous duration. *)
Lemma spineEntries_accumulate (clips : list Clip) :
  forall (offset : number) (i : nat) (e e' : SpineEntry),
    let es := spineEntries numerator frameRate timecodeInSeconds offset clips in
    nth_error es i = Some e ->
    nth_error es (S i) = Some e' ->
    entry_offset e' = (entry_offset e + entry_duration e)%js.
Proof.
  induction clips as [|c rest IH]; intros offset i e e' es He He'.
  - destruct i; discriminate.
  - destruct i as [|i].
    + subst es. simpl in He. injection He as <-.
      destruct rest as [|c' rest']; [discriminate|].
      simpl in He'. injection He' as <-. reflexivity.
    + subst es. simpl in He, He'. eapply IH; eassumption.
Qed.

(** The last offset plus the last duration is the sum of the durations,
    counted from the offset the loop starts with. *)
Lemma spineEntries_total (clips : list Clip) :
  forall (offset : number) (e : SpineEntry),
    let es := spineEntries numerator frameRate timecodeInSeconds offset clips in
    nth_error es (pred (List.length es)) = Some e ->
    (entry_offset e + entry_duration e)%js =
    fold_left nadd (map entry_duration es) offset.
Proof.
  induction clips as [|c rest IH]; intros offset e es He.
  - discriminate.
  - subst es. cbn [spineEntries] in *.
    cbn [List.length pred map fold_left entry_duration] in *.
    destruct rest as [|c' rest'].
    + simpl in He. injection He as <-. reflexivity.
    + rewrite length_spineEntries in He. cbn [List.length nth_error] in He.
      apply IH. rewrite length_spineEntries. exact He.
Qed.

End GeneratorLoops.

(** ** Claims on the frame counts of the generators *)

Section FrameCounts.

Local Open Scope Z_scope.

Lemma spine_of_generateFCPXML (pathToSource sourceClipName : string)
    (sourceDuration : number) (clips : list Clip)
    (frameRate timecodeInSeconds : number) :
  spine (generateFCPXML pathToSource sourceClipName sourceDuration clips
           frameRate timecodeInSeconds) =
  map (renderEntry sourceClipName (snd (frameDurationPair frameRate)))
    (spineEntries (fst (frameDurationPair frameRate)) frameRate
       timecodeInSeconds (num 0) clips).
Proof.
  unfold generateFCPXML.
  destruct (frameDurationPair frameRate) as [numerator denominator].
  cbn [spine fst snd]. now rewrite fold_spineStep.
Qed.

(** C2, as stated, fails at the rates that are not integers: at 23.976 the
    frame count of second 1000 is 23976, where the rounded rate would give
    24000, in the EDL and in the XML spine alike. *)
Lemma rounded_rate_counterexample :
  let clip := {| start := num 1000; end_ := num 2000 |} in
  let r := dec 23976 1000 in
  In r supportedFrameRates /\
  srcStartFrames r (num 0) clip <>
  Math_floor ((start clip + num 0) * Math_round r)%js /\
  srcStartFrames r (num 0) clip = num 23976 /\
  Math_floor ((start clip + num 0) * Math_round r)%js = num 24000 /\
  generateEDL "T" "a.mov" [clip] r (num 0) =
  (edlHeader "T" ++
   edlRecord "a.mov" r 0 (num 23976) (num 47952) (num 0) (num 23976))%string /\
  spine (generateFCPXML "/a.mov" "a.mov" (num 3000) [clip] r (num 0)) =
  [ assetClip "a.mov" (num 24000) (num 0) (num (1001 * 23976))
      (num (1001 * 23976)) ].
Proof.
  cbv zeta. split; [simpl; auto|].
  split; [vm_compute; discriminate|].
  repeat split; vm_compute; reflexivity.
Qed.

(** C2, as the code has it.  For every clip list, frame rate and source
    offset, the record written for a clip carries the source frame counts
    [floor((clip.start + offset) * frameRate)] and
    [floor((clip.end + offset) * frameRate)], and the spine element of the
    clip carries [numerator * floor((offset + clip.start) * frameRate)] as
    start and the like difference as duration, all with the frame rate as
    given; [round(frameRate)] enters only through [framesToTimecode].  When
    the frame rate is its own rounding (24, 25, 30, 50, 60) these are the
    counts taken with [round(frameRate)]. *)
Theorem frame_counts_use_given_rate (title pathToSource name : string)
    (sourceDuration : number) (clips : list Clip) (r offset : number) :
  let numerator := fst (frameDurationPair r) in
  let denominator := snd (frameDurationPair r) in
  generateEDL title name clips r offset =
  (edlHeader title ++
   concatStrings (edlRecords name r offset (num 0) 0 clips))%string /\
  spine (generateFCPXML pathToSource name sourceDuration clips r offset) =
  map (renderEntry name denominator)
    (spineEntries numerator r offset (num 0) clips) /\
  (forall (i : nat) (clip : Clip),
      nth_error clips i = Some clip ->
      (exists recStart recEnd : number,
          nth_error (edlRecords name r offset (num 0) 0 clips) i =
          Some (edlRecord name r i
                  (Math_floor ((start clip + offset) * r)%js)
                  (Math_floor ((end_ clip + offset) * r)%js)
                  recStart recEnd)) /\
      (exists e : SpineEntry,
          nth_error (spineEntries numerator r offset (num 0) clips) i = Some e /\
          entry_start e =
          (numerator * Math_floor ((offset + start clip) * r))%js /\
          entry_duration e =
          (numerator * Math_floor ((offset + end_ clip) * r)
           - numerator * Math_floor ((offset + start clip) * r))%js) /\
      (Math_round r = r ->
       srcStartFrames r offset clip =
       Math_floor ((start clip + offset) * Math_round r)%js /\
       srcEndFrames r offset clip =
       Math_floor ((end_ clip + offset) * Math_round r)%js /\
       clipStart numerator r offset clip =
       (numerator * Math_floor ((offset + start clip) * Math_round r))%js /\
       clipEnd numerator r offset clip =
       (numerator * Math_floor ((offset + end_ clip) * Math_round r))%js)).
Proof.
  cbv zeta. split; [apply generateEDL_records|].
  split; [apply spine_of_generateFCPXML|].
  intros i clip Hi. split; [|split].
  - exact (nth_edlRecords name r offset clips (num 0) 0 i Hi).
  - exact (nth_spineEntries r offset (fst (frameDurationPair r)) clips
             (num 0) i Hi).
  - intros ->. repeat split.
Qed.

Lemma frame_counts_use_given_rate_witness :
  let clip := {| start := num 2; end_ := num 5 |} in
  nth_error [clip] 0 = Some clip /\
  Math_round (num 30) = num 30 /\
  srcStartFrames (num 30) (num 0) clip =
  Math_floor ((start clip + num 0) * Math_round (num 30))%js.
Proof.
  cbv zeta.
  assert (H0 : nth_error [{| start := num 2; end_ := num 5 |}] 0 =
               Some {| start := num 2; end_ := num 5 |}) by reflexivity.
  assert (H1 : Math_round (num 30) = num 30) by reflexivity.
  split; [exact H0|]. split; [exact H1|].
  exact (proj1 (proj2 (proj2 (proj2 (proj2
           (@frame_counts_use_given_rate "T" "/a.mov" "a.mov" (num 60)
              [{| start := num 2; end_ := num 5 |}] (num 30) (num 0)))
           0%nat _ H0)) H1)).
Defined.

End FrameCounts.

(** ** Claims on the spine of the project XML *)

Section SpineOffsets.

Local Open Scope Z_scope.

Lemma frameDurationPair_positive (r : number) :
  exists n d : Z, frameDurationPair r = (num n, num d) /\ 0 < n.
Proof.
  unfold frameDurationPair, frameRateToFrameDuration, frameDurationTable.
  cbn [lookup].
  repeat match goal with
         | |- context [neqb ?k r] => destruct (neqb k r)
         end;
    vm_compute; do 2 eexists; (split; [reflexivity|reflexivity]).
Qed.

Lemma floor_sum_scaled (t s q : Q) :
  Math_floor ((Fin t + Fin s) * Fin q)%js = num (Qfloor ((t + s) * q)).
Proof.
  unfold nadd, nmul, fin, Math_floor, num. f_equal.
  apply Qfloor_comp. now rewrite !Qred_correct.
Qed.

Lemma nle_num (a b : Z) : nle (num a) (num b) <-> a <= b.
Proof. unfold nle, num, of_Z. now rewrite <- Zle_Qle. Qed.

Lemma nondecreasing_cons (a : number) (l : list number) :
  nondecreasing (a :: l) <->
  match l with [] => True | b :: _ => nle a b end /\ nondecreasing l.
Proof. destruct l; simpl; tauto. Qed.

Lemma finite_is_Fin (a : number) :
  is_finite a = true -> exists q : Q, a = Fin q.
Proof. destruct a; try discriminate. eauto. Qed.

(** With clips in order, a non-negative rate and a non-negative numerator,
    the offsets never go down. *)
Lemma spine_offsets_nondecreasing (n : Z) (q t : Q) (clips : list Clip) :
  0 <= n -> (0 <= q)%Q ->
  Forall orderedClip clips ->
  forall o : Z,
    nondecreasing
      (map entry_offset (spineEntries (num n) (Fin q) (Fin t) (num o) clips)).
Proof.
  intros Hn Hq Hclips. induction Hclips as [|c rest Hc _ IH]; intros o.
  - exact I.
  - destruct Hc as (Hs & He & Hle).
    apply finite_is_Fin in Hs as [s Es]. apply finite_is_Fin in He as [e Ee].
    rewrite Es, Ee in Hle. cbn [nle] in Hle.
    cbn [spineEntries map entry_offset]. rewrite Es, Ee.
    rewrite !floor_sum_scaled, !nmul_num, nsub_num, nadd_num.
    apply nondecreasing_cons. split; [|apply IH].
    destruct rest as [|c' rest']; [exact I|].
    cbn [spineEntries map entry_offset]. apply nle_num.
    assert (Hfloor : Qfloor ((t + s) * q) <= Qfloor ((t + e) * q)).
    { apply Qfloor_resp_le. apply Qmult_le_compat_r; [|exact Hq].
      now apply Qplus_le_r. }
    nia.
Qed.

Lemma inRange_Fin (x : number) : inRange x -> exists q : Q, x = Fin q.
Proof.
  destruct x as [q| | |]; intros [H1 H2]; cbn in H1, H2;
    try contradiction; eauto.
Qed.

Lemma clipInRange_ordered (t : Q) (clip : Clip) :
  clipInRange (Fin t) clip -> orderedClip clip.
Proof.
  intros (Hle & Hs & He).
  apply inRange_Fin in Hs as [s Es]. apply inRange_Fin in He as [e Ee].
  unfold orderedClip.
  destruct (start clip); cbn in Es; try discriminate Es;
    destruct (end_ clip); cbn in Ee; try discriminate Ee.
  repeat split. exact Hle.
Qed.

(** C5, as stated, fails on the monotony of the offsets: after a clip whose
    end precedes its start the running offset goes down. *)
Lemma spine_monotony_counterexample :
  let clips := [ {| start := num 5; end_ := num 2 |};
                 {| start := num 0; end_ := num 1 |} ] in
  spine (generateFCPXML "/a.mov" "a.mov" (num 60) clips (num 30) (num 0)) =
  [ assetClip "a.mov" (num 30) (num 0) (num (-90)) (num 150);
    assetClip "a.mov" (num 30) (num (-90)) (num 30) (num 0) ] /\
  ~ nondecreasing
      (map entry_offset
         (spineEntries (fst (frameDurationPair (num 30))) (num 30) (num 0)
            (num 0) clips)).
Proof.
  cbv zeta. split; [vm_compute; reflexivity|].
  vm_compute. intros [H _]. apply H. reflexivity.
Qed.

(** C5, as the code has it.  For every clip list the spine is one element
    per clip; the first offset is 0, each further offset is the previous
    offset plus the previous scaled duration, and the last offset plus the
    last duration is the sum of the scaled durations.  The offsets are
    non-decreasing whenever the frame rate lies between 0 and 2^53 and
    every clip has [start <= end] with both ends, counted from the source
    offset, between -2^53 and 2^53.  In that range nothing overflows in
    the code either, and sums, products and floors keep the order of their
    arguments also where binary64 rounds them. *)
Theorem spine_offsets_accumulate (pathToSource name : string)
    (sourceDuration : number) (clips : list Clip) (r offset : number) :
  let numerator := fst (frameDurationPair r) in
  let denominator := snd (frameDurationPair r) in
  let es := spineEntries numerator r offset (num 0) clips in
  spine (generateFCPXML pathToSource name sourceDuration clips r offset) =
  map (renderEntry name denominator) es /\
  List.length es = List.length clips /\
  (forall e : SpineEntry, nth_error es 0 = Some e -> entry_offset e = num 0) /\
  (forall (i : nat) (e e' : SpineEntry),
      nth_error es i = Some e -> nth_error es (S i) = Some e' ->
      entry_offset e' = (entry_offset e + entry_duration e)%js) /\
  (forall e : SpineEntry,
      nth_error es (pred (List.length es)) = Some e ->
      (entry_offset e + entry_duration e)%js = total (map entry_duration es)) /\
  (nle (num 0) r -> inRange r ->
   Forall (clipInRange offset) clips ->
   nondecreasing (map entry_offset es)).
Proof.
  cbv zeta. split; [apply spine_of_generateFCPXML|].
  split; [apply length_spineEntries|].
  split; [|split; [|split]].
  - destruct clips as [|c rest]; [discriminate|].
    simpl. now intros e [= <-].
  - intros i e e'. apply spineEntries_accumulate.
  - intros e. apply spineEntries_total.
  - intros Hr0 Hr Hclips.
    destruct clips as [|c rest]; [exact I|].
    destruct (frameDurationPair_positive r) as (n & d & -> & Hn).
    apply inRange_Fin in Hr as [q ->].
    assert (Ho : exists t : Q, offset = Fin t).
    { apply Forall_inv in Hclips. destruct Hclips as (_ & Hs & _).
      apply inRange_Fin in Hs as [s Es].
      destruct offset as [t| | |]; [now exists t| | |];
        destruct (start c); discriminate Es. }
    destruct Ho as [t ->].
    cbn [fst]. apply spine_offsets_nondecreasing; [lia|exact Hr0|].
    revert Hclips. apply Forall_impl. intros clip. apply clipInRange_ordered.
Qed.

Lemma spine_offsets_accumulate_witness :
  let clips := [ {| start := num 2; end_ := num 5 |};
                 {| start := num 10; end_ := num 12 |} ] in
  let r := dec 2997 100 in
  nle (num 0) r /\ inRange r /\
  Forall (clipInRange (num 0)) clips /\
  nondecreasing
    (map entry_offset
       (spineEntries (fst (frameDurationPair r)) r (num 0) (num 0) clips)).
Proof.
  cbv zeta.
  assert (H0 : nle (num 0) (dec 2997 100)) by (vm_compute; discriminate).
  assert (H1 : inRange (dec 2997 100))
    by (split; vm_compute; discriminate).
  assert (H2 : Forall (clipInRange (num 0))
                 [ {| start := num 2; end_ := num 5 |};
                   {| start := num 10; end_ := num 12 |} ]).
  { repeat constructor; vm_compute; discriminate. }
  split; [exact H0|]. split; [exact H1|]. split; [exact H2|].
  exact (proj2 (proj2 (proj2 (proj2 (proj2
           (@spine_offsets_accumulate "/a.mov" "a.mov" (num 60) _ _ (num 0))))))
           H0 H1 H2).
Defined.

End SpineOffsets.

(** ** Claims on the start-offset resolver *)

Section Resolver.

Lemma startTimecodeOf_chain (d : FfprobeData) :
  startTimecodeOf d =
  (formatTimecode d || videoTimecode d || dataTimecode d ||
   videoStartTime d || Str "00:00:00:00")%js.
Proof. reflexivity. Qed.

Ltac settle_truthiness :=
  repeat match goal with
         | H : negb _ = true |- _ => apply negb_true_iff in H
         | H : truthy_value ?x = _ |- context [truthy_value ?x] => rewrite H
         | |- context [if true then _ else _] => cbv iota
         | |- context [if false then _ else _] => cbv iota
         end.

(** The chain of [||] returns the first truthy value of the list. *)
Lemma or_chain_first_truthy (a b c e fallback : value) :
  forall (pre post : list value) (v : value),
    [a; b; c; e] = (pre ++ v :: post)%list ->
    all_falsy pre = true -> truthy_value v = true ->
    (a || b || c || e || fallback)%js = v.
Proof.
  intros pre post v E Hpre Hv. unfold all_falsy, or_value in *.
  destruct pre as [|p1 [|p2 [|p3 [|p4 pre]]]];
    cbn [app] in E; inversion E; subst; clear E;
    [ | | | |destruct pre; discriminate];
    cbn [forallb] in Hpre;
    repeat (apply andb_true_iff in Hpre as [?H Hpre]);
    settle_truthiness; reflexivity.
Qed.

Lemma or_chain_all_falsy (a b c e fallback : value) :
  all_falsy [a; b; c; e] = true ->
  (a || b || c || e || fallback)%js = fallback.
Proof.
  unfold all_falsy, or_value. cbn [forallb]. intros H.
  repeat (apply andb_true_iff in H as [?H H]).
  settle_truthiness. reflexivity.
Qed.

(** C3.  Given the probed metadata, the start timecode is the first truthy
    value among the timecode tag of the format record, the timecode tag of
    the video stream, the timecode tag of the data stream and the start
    time of the video stream, in this order, whatever the sources after it
    hold; when none is truthy it is [00:00:00:00].  In particular, without
    any timecode tag and with an undefined start time the result is exactly
    [00:00:00:00].  [getStartTimecode] probes the file once and resolves
    to that value. *)
Theorem start_timecode_priority (d : FfprobeData) :
  (forall (pre post : list value) (v : value),
      timecodeSources d = (pre ++ v :: post)%list ->
      all_falsy pre = true -> truthy_value v = true ->
      startTimecodeOf d = v) /\
  (all_falsy (timecodeSources d) = true ->
   startTimecodeOf d = Str "00:00:00:00") /\
  (formatTimecode d = Undefined -> videoTimecode d = Undefined ->
   dataTimecode d = Undefined -> videoStartTime d = Undefined ->
   startTimecodeOf d = Str "00:00:00:00") /\
  (forall (w : World) (filePath : string),
      ffprobe w filePath = Ok d ->
      getStartTimecode filePath w = ([Ffprobe filePath], Ok (startTimecodeOf d))).
Proof.
  rewrite startTimecodeOf_chain. unfold timecodeSources.
  split; [|split; [|split]].
  - apply or_chain_first_truthy.
  - apply or_chain_all_falsy.
  - intros -> -> -> ->. reflexivity.
  - intros w filePath E. unfold getStartTimecode, bind, call_ffprobe, ret.
    rewrite E. reflexivity.
Qed.

Lemma start_timecode_priority_witness :
  let d :=
    {| streams :=
         [ {| codec_type := "audio"; stream_tags := None;
              start_time := Undefined |};
           {| codec_type := "video";
              stream_tags := Some {| timecode := Str "01:00:00:00" |};
              start_time := Num (dec 1 2) |};
           {| codec_type := "data";
              stream_tags := Some {| timecode := Str "02:00:00:00" |};
              start_time := Undefined |} ];
       probe_format := {| format_tags := Some {| timecode := Str "" |} |} |} in
  let bare :=
    {| streams :=
         [ {| codec_type := "video"; stream_tags := None;
              start_time := Undefined |} ];
       probe_format := {| format_tags := None |} |} in
  (timecodeSources d =
   ([Str ""] ++ Str "01:00:00:00" :: [Str "02:00:00:00"; Num (dec 1 2)])%list /\
   all_falsy [Str ""] = true /\
   truthy_value (Str "01:00:00:00") = true /\
   startTimecodeOf d = Str "01:00:00:00") /\
  (formatTimecode bare = Undefined /\ videoTimecode bare = Undefined /\
   dataTimecode bare = Undefined /\ videoStartTime bare = Undefined /\
   startTimecodeOf bare = Str "00:00:00:00").
Proof.
  cbv zeta.
  set (d := {| streams := [_; _; _]; probe_format := _ |}).
  set (bare := {| streams := [_]; probe_format := _ |}).
  assert (H0 : timecodeSources d =
               ([Str ""] ++
                Str "01:00:00:00" :: [Str "02:00:00:00"; Num (dec 1 2)])%list)
    by reflexivity.
  assert (H1 : all_falsy [Str ""] = true) by reflexivity.
  assert (H2 : truthy_value (Str "01:00:00:00") = true) by reflexivity.
  assert (B0 : formatTimecode bare = Undefined) by reflexivity.
  assert (B1 : videoTimecode bare = Undefined) by reflexivity.
  assert (B2 : dataTimecode bare = Undefined) by reflexivity.
  assert (B3 : videoStartTime bare = Undefined) by reflexivity.
  split.
  - split; [exact H0|]. split; [exact H1|]. split; [exact H2|].
    exact (proj1 (start_timecode_priority d) _ _ _ H0 H1 H2).
  - split; [exact B0|]. split; [exact B1|]. split; [exact B2|].
    split; [exact B3|].
    exact (proj1 (proj2 (proj2 (start_timecode_priority bare))) B0 B1 B2 B3).
Defined.

End Resolver.

(** ** Claims on the export orchestrators *)

Section EdlOrchestrator.

(** What [createEDL] does once a destination is chosen and the probe
    resolves to a string. *)
Lemma createEDL_run (w : World) (title : string) (clips : list Clip)
    (videoInfo : VideoInfo) (clipName : string) (frameRate : number)
    (file s : string) (d : FfprobeData) :
  showSaveDialog w (edlDialogOptions title videoInfo) =
  {| canceled := false; filePath := Some file |} ->
  ffprobe w (path videoInfo) = Ok d ->
  startTimecodeOf d = Str s ->
  let edl :=
    generateEDL "Silence Removed" clipName clips frameRate
      (framesToSeconds (timecodeToFrames s frameRate) frameRate) in
  createEDL title clips videoInfo clipName frameRate w =
  ([ ShowSaveDialog (edlDialogOptions title videoInfo);
     Ffprobe (path videoInfo);
     WriteFile file edl "utf8" ],
   match writeFile w file edl "utf8" with
   | Ok _ => Ok true
   | Throw e => Throw e
   end).
Proof.
  intros Hdialog Hprobe Hs edl.
  unfold createEDL, bind, call_showSaveDialog, getStartTimecode, bind,
    call_ffprobe, ret, call_writeFile.
  rewrite Hdialog. cbn [canceled filePath]. rewrite Hprobe, Hs.
  cbn [startFrameOf ret app]. fold edl.
  destruct (writeFile w file edl "utf8"); reflexivity.
Qed.

(** C10.  The title handed to [createEDL] labels the save dialog and
    nothing else: with the same answer of the dialog, two titles give the
    same outcome and the same written text, and every text written begins
    with the header of the fixed title [Silence Removed].  And a text is
    written: once a path is chosen and the probe resolves to a string
    timecode, [createEDL] asks the dialog, probes the source and writes to
    the chosen path the header of [Silence Removed] followed by the records
    of the clips. *)
Theorem edl_title_is_fixed (w : World) (title1 title2 : string)
    (clips : list Clip) (videoInfo : VideoInfo) (clipName : string)
    (frameRate : number) :
  (showSaveDialog w (edlDialogOptions title1 videoInfo) =
   showSaveDialog w (edlDialogOptions title2 videoInfo) ->
   snd (createEDL title1 clips videoInfo clipName frameRate w) =
   snd (createEDL title2 clips videoInfo clipName frameRate w) /\
   tl (fst (createEDL title1 clips videoInfo clipName frameRate w)) =
   tl (fst (createEDL title2 clips videoInfo clipName frameRate w))) /\
  (forall data : string,
      In data
        (writtenData (fst (createEDL title1 clips videoInfo clipName
                             frameRate w))) ->
      exists body : string,
        data =
        ("TITLE: Silence Removed" ++ newline ++
         "FCM: NON-DROP FRAME" ++ newline ++ newline ++ body)%string) /\
  (forall (file s : string) (d : FfprobeData),
      showSaveDialog w (edlDialogOptions title1 videoInfo) =
      {| canceled := false; filePath := Some file |} ->
      ffprobe w (path videoInfo) = Ok d ->
      startTimecodeOf d = Str s ->
      fst (createEDL title1 clips videoInfo clipName frameRate w) =
      [ ShowSaveDialog (edlDialogOptions title1 videoInfo);
        Ffprobe (path videoInfo);
        WriteFile file
          ("TITLE: Silence Removed" ++ newline ++
           "FCM: NON-DROP FRAME" ++ newline ++ newline ++
           concatStrings
             (edlRecords clipName frameRate
                (framesToSeconds (timecodeToFrames s frameRate) frameRate)
                (num 0) 0 clips))%string
          "utf8" ]).
Proof.
  split; [|split].
  - intros H. unfold createEDL, bind, call_showSaveDialog. rewrite H.
    destruct (showSaveDialog w (edlDialogOptions title2 videoInfo))
      as [c [file|]]; destruct c; cbn [canceled filePath];
      try (split; reflexivity).
    destruct (getStartTimecode (path videoInfo) w) as [calls [v|e]];
      [|split; reflexivity].
    destruct (startFrameOf v frameRate w) as [calls' [n|e]];
      [|split; reflexivity].
    destruct (call_writeFile _ _ _ w) as [calls'' [u|e]]; split; reflexivity.
  - intros data. unfold createEDL, bind, call_showSaveDialog.
    destruct (showSaveDialog w (edlDialogOptions title1 videoInfo))
      as [c [file|]]; destruct c; cbn [canceled filePath];
      try (cbn; tauto).
    unfold getStartTimecode, bind, call_ffprobe, ret.
    destruct (ffprobe w (path videoInfo)) as [d|e]; [|cbn; tauto].
    destruct (startTimecodeOf d) as [|s|n]; try (cbn; tauto).
    cbn [startFrameOf ret]. unfold call_writeFile.
    rewrite generateEDL_records.
    destruct (writeFile w file _ "utf8"); cbn;
      (intros [<-|[]]; eexists;
       unfold edlHeader, newline; cbn [append]; reflexivity).
  - intros file s d Hdialog Hprobe Hs.
    rewrite (@createEDL_run w title1 clips videoInfo clipName frameRate
               file s d Hdialog Hprobe Hs).
    cbn [fst]. rewrite generateEDL_records.
    unfold edlHeader, newline. cbn [append]. reflexivity.
Qed.

End EdlOrchestrator.

Section OrchestratorClaims.

Variable js2xml : ElementCompact -> string.
Variable path_join : string -> string -> string.

(** C6.  When the save dialog is cancelled, or gives no path, each entry
    point resolves to [false], which is neither an error nor the [true] of a
    completed export, and its only collaborator call is the dialog itself:
    nothing is probed, created or written.  Conversely [false] is the
    outcome of a cancelled dialog and of nothing else. *)
Theorem cancelled_export_writes_nothing (w : World) (title : string)
    (clips : list Clip) (videoInfo : VideoInfo) (clipName : string)
    (frameRate : number) :
  (cancelled (showSaveDialog w (edlDialogOptions title videoInfo)) ->
   createEDL title clips videoInfo clipName frameRate w =
   ([ShowSaveDialog (edlDialogOptions title videoInfo)], Ok false)) /\
  (cancelled (showSaveDialog w (fcpxmlDialogOptions title videoInfo)) ->
   createFCPXML js2xml path_join title clips videoInfo clipName frameRate w =
   ([ShowSaveDialog (fcpxmlDialogOptions title videoInfo)], Ok false)) /\
  (snd (createEDL title clips videoInfo clipName frameRate w) = Ok false ->
   cancelled (showSaveDialog w (edlDialogOptions title videoInfo))) /\
  (snd (createFCPXML js2xml path_join title clips videoInfo clipName
          frameRate w) = Ok false ->
   cancelled (showSaveDialog w (fcpxmlDialogOptions title videoInfo))).
Proof.
  split; [|split; [|split]].
  - intros H. unfold createEDL, bind, call_showSaveDialog.
    destruct (showSaveDialog w (edlDialogOptions title videoInfo))
      as [c [file|]]; destruct c, H as [H|H]; simpl in H;
      try discriminate; reflexivity.
  - intros H. unfold createFCPXML, bind, call_showSaveDialog.
    destruct (showSaveDialog w (fcpxmlDialogOptions title videoInfo))
      as [c [file|]]; destruct c, H as [H|H]; simpl in H;
      try discriminate; reflexivity.
  - unfold createEDL, bind, call_showSaveDialog, cancelled.
    destruct (showSaveDialog w (edlDialogOptions title videoInfo))
      as [c [file|]]; destruct c; cbn [canceled filePath]; auto.
    destruct (getStartTimecode (path videoInfo) w) as [calls [v|e]];
      [|discriminate].
    destruct (startFrameOf v frameRate w) as [calls' [n|e]]; [|discriminate].
    destruct (call_writeFile _ _ _ w) as [calls'' [u|e]]; discriminate.
  - unfold createFCPXML, bind, call_showSaveDialog, cancelled.
    destruct (showSaveDialog w (fcpxmlDialogOptions title videoInfo))
      as [c [file|]]; destruct c; cbn [canceled filePath]; auto.
    destruct (getStartTimecode (path videoInfo) w) as [calls [v|e]];
      [|discriminate].
    destruct (startFrameOf v frameRate w) as [calls' [n|e]]; [|discriminate].
    destruct (try_catch _ _ w) as [calls'' [u|e]]; [|discriminate].
    destruct (call_writeFile _ _ _ w) as [calls3 [u'|e]]; discriminate.
Qed.

(** What [createFCPXML] does once a destination is chosen, the probe
    resolves to a string and the bundle directory can be made. *)
Lemma createFCPXML_run (w : World) (title : string) (clips : list Clip)
    (videoInfo : VideoInfo) (clipName : string) (frameRate : number)
    (dir s : string) (d : FfprobeData) :
  showSaveDialog w (fcpxmlDialogOptions title videoInfo) =
  {| canceled := false; filePath := Some dir |} ->
  ffprobe w (path videoInfo) = Ok d ->
  startTimecodeOf d = Str s ->
  mkdir w dir = Ok tt ->
  let xml :=
    js2xml
      (generateFCPXML (path videoInfo) clipName (duration videoInfo) clips
         frameRate (framesToSeconds (timecodeToFrames s frameRate) frameRate)) in
  createFCPXML js2xml path_join title clips videoInfo clipName frameRate w =
  ([ ShowSaveDialog (fcpxmlDialogOptions title videoInfo);
     Ffprobe (path videoInfo);
     Mkdir dir;
     WriteFile (path_join dir "Info.fcpxml") xml "utf8" ],
   match writeFile w (path_join dir "Info.fcpxml") xml "utf8" with
   | Ok _ => Ok true
   | Throw e => Throw e
   end).
Proof.
  intros Hdialog Hprobe Hs Hmkdir xml.
  unfold createFCPXML, bind, call_showSaveDialog, getStartTimecode, bind,
    call_ffprobe, ret, try_catch, call_mkdir, call_writeFile.
  rewrite Hdialog. cbn [canceled filePath]. rewrite Hprobe, Hs.
  cbn [startFrameOf ret app]. rewrite Hmkdir. fold xml. cbn [app].
  destruct (writeFile w (path_join dir "Info.fcpxml") xml "utf8"); reflexivity.
Qed.

(** C4, as the code has it.  No clip is rejected, and no export is rejected
    on account of a clip: for every clip list, malformed clips included,
    once a destination is chosen, the probe resolves to a string and the
    file system accepts the requests, [createEDL] returns [true] having
    written the header and one record per clip, in order, and
    [createFCPXML] returns [true] having written the document whose spine
    has one element per clip. *)
Theorem clips_are_never_rejected (w : World) (title : string)
    (clips : list Clip) (videoInfo : VideoInfo) (clipName : string)
    (frameRate : number) (file dir s : string) (d : FfprobeData) :
  ffprobe w (path videoInfo) = Ok d ->
  startTimecodeOf d = Str s ->
  let offset := framesToSeconds (timecodeToFrames s frameRate) frameRate in
  let records := edlRecords clipName frameRate offset (num 0) 0 clips in
  let doc :=
    generateFCPXML (path videoInfo) clipName (duration videoInfo) clips
      frameRate offset in
  (showSaveDialog w (edlDialogOptions title videoInfo) =
   {| canceled := false; filePath := Some file |} ->
   (forall data : string, writeFile w file data "utf8" = Ok tt) ->
   createEDL title clips videoInfo clipName frameRate w =
   ([ ShowSaveDialog (edlDialogOptions title videoInfo);
      Ffprobe (path videoInfo);
      WriteFile file
        (edlHeader "Silence Removed" ++ concatStrings records) "utf8" ],
    Ok true)) /\
  List.length records = List.length clips /\
  (showSaveDialog w (fcpxmlDialogOptions title videoInfo) =
   {| canceled := false; filePath := Some dir |} ->
   mkdir w dir = Ok tt ->
   (forall data : string,
       writeFile w (path_join dir "Info.fcpxml") data "utf8" = Ok tt) ->
   createFCPXML js2xml path_join title clips videoInfo clipName frameRate w =
   ([ ShowSaveDialog (fcpxmlDialogOptions title videoInfo);
      Ffprobe (path videoInfo);
      Mkdir dir;
      WriteFile (path_join dir "Info.fcpxml") (js2xml doc) "utf8" ],
    Ok true)) /\
  List.length (spine doc) = List.length clips.
Proof.
  intros Hprobe Hs offset records doc.
  split; [|split; [|split]].
  - intros Hdialog Hwrite.
    rewrite (@createEDL_run w title clips videoInfo clipName frameRate file s d
               Hdialog Hprobe Hs).
    rewrite Hwrite, generateEDL_records. reflexivity.
  - apply length_edlRecords.
  - intros Hdialog Hmkdir Hwrite.
    rewrite (@createFCPXML_run w title clips videoInfo clipName frameRate dir
               s d Hdialog Hprobe Hs Hmkdir).
    now rewrite Hwrite.
  - subst doc. rewrite spine_of_generateFCPXML, length_map.
    apply length_spineEntries.
Qed.

End OrchestratorClaims.

Lemma cancelled_export_writes_nothing_witness :
  let clips := [ {| start := num 2; end_ := num 5 |} ] in
  (cancelled (showSaveDialog cancellingWorld
                (edlDialogOptions "Export" exampleVideo)) /\
   createEDL "Export" clips exampleVideo "a.mov" (num 30) cancellingWorld =
   ([ShowSaveDialog (edlDialogOptions "Export" exampleVideo)], Ok false)) /\
  (cancelled (showSaveDialog cancellingWorld
                (fcpxmlDialogOptions "Export" exampleVideo)) /\
   createFCPXML exampleSerializer examplePathJoin "Export" clips exampleVideo
     "a.mov" (num 30) cancellingWorld =
   ([ShowSaveDialog (fcpxmlDialogOptions "Export" exampleVideo)], Ok false)).
Proof.
  cbv zeta.
  assert (H : cancelled (showSaveDialog cancellingWorld
                           (edlDialogOptions "Export" exampleVideo)))
    by (left; reflexivity).
  assert (H' : cancelled (showSaveDialog cancellingWorld
                            (fcpxmlDialogOptions "Export" exampleVideo)))
    by (right; reflexivity).
  split; (split; [assumption|]).
  - exact (proj1 (cancelled_export_writes_nothing exampleSerializer
                    examplePathJoin cancellingWorld "Export"
                    [ {| start := num 2; end_ := num 5 |} ] exampleVideo
                    "a.mov" (num 30)) H).
  - exact (proj1 (proj2 (cancelled_export_writes_nothing exampleSerializer
                           examplePathJoin cancellingWorld "Export"
                           [ {| start := num 2; end_ := num 5 |} ] exampleVideo
                           "a.mov" (num 30))) H').
Defined.

Lemma edl_title_is_fixed_witness :
  let clips := [ {| start := num 2; end_ := num 5 |} ] in
  let d :=
    {| streams :=
         [ {| codec_type := "video"; stream_tags := None;
              start_time := Undefined |} ];
       probe_format := {| format_tags := None |} |} in
  (showSaveDialog exampleWorld (edlDialogOptions "Export" exampleVideo) =
   showSaveDialog exampleWorld (edlDialogOptions "Save as" exampleVideo) /\
   snd (createEDL "Export" clips exampleVideo "a.mov" (num 30) exampleWorld) =
   snd (createEDL "Save as" clips exampleVideo "a.mov" (num 30) exampleWorld))
  /\
  (showSaveDialog exampleWorld (edlDialogOptions "Export" exampleVideo) =
   {| canceled := false; filePath := Some "/out" |} /\
   ffprobe exampleWorld (path exampleVideo) = Ok d /\
   startTimecodeOf d = Str "00:00:00:00" /\
   fst (createEDL "Export" clips exampleVideo "a.mov" (num 30) exampleWorld) =
   [ ShowSaveDialog (edlDialogOptions "Export" exampleVideo);
     Ffprobe (path exampleVideo);
     WriteFile "/out"
       ("TITLE: Silence Removed" ++ newline ++
        "FCM: NON-DROP FRAME" ++ newline ++ newline ++
        concatStrings
          (edlRecords "a.mov" (num 30)
             (framesToSeconds (timecodeToFrames "00:00:00:00" (num 30))
                (num 30))
             (num 0) 0 clips))%string
       "utf8" ]).
Proof.
  cbv zeta.
  assert (H : showSaveDialog exampleWorld
                (edlDialogOptions "Export" exampleVideo) =
              showSaveDialog exampleWorld
                (edlDialogOptions "Save as" exampleVideo)) by reflexivity.
  assert (Hdialog : showSaveDialog exampleWorld
                      (edlDialogOptions "Export" exampleVideo) =
                    {| canceled := false; filePath := Some "/out" |})
    by reflexivity.
  assert (Hprobe : ffprobe exampleWorld (path exampleVideo) =
                   Ok {| streams :=
                           [ {| codec_type := "video"; stream_tags := None;
                                start_time := Undefined |} ];
                         probe_format := {| format_tags := None |} |})
    by reflexivity.
  assert (Hs : startTimecodeOf
                 {| streams :=
                      [ {| codec_type := "video"; stream_tags := None;
                           start_time := Undefined |} ];
                    probe_format := {| format_tags := None |} |} =
               Str "00:00:00:00") by reflexivity.
  split.
  - split; [exact H|].
    exact (proj1 (proj1 (edl_title_is_fixed exampleWorld "Export" "Save as"
                           [ {| start := num 2; end_ := num 5 |} ]
                           exampleVideo "a.mov" (num 30)) H)).
  - split; [exact Hdialog|]. split; [exact Hprobe|]. split; [exact Hs|].
    exact (proj2 (proj2 (edl_title_is_fixed exampleWorld "Export" "Save as"
                           [ {| start := num 2; end_ := num 5 |} ]
                           exampleVideo "a.mov" (num 30)))
             "/out" "00:00:00:00" _ Hdialog Hprobe Hs).
Defined.

(** C4, as stated, fails: a clip whose end precedes its start is written
    into the EDL and into the spine like any other, and the export reports
    success. *)
Lemma malformed_clip_counterexample :
  let clips := [ {| start := num 5; end_ := num 2 |} ] in
  createEDL "Export" clips exampleVideo "a.mov" (num 30) exampleWorld =
  ([ ShowSaveDialog (edlDialogOptions "Export" exampleVideo);
     Ffprobe "/media/a.mov";
     WriteFile "/out"
       ("TITLE: Silence Removed" ++ newline ++
        "FCM: NON-DROP FRAME" ++ newline ++ newline ++
        "001  AX       V     C        " ++
        "00:00:05:00 00:00:02:00 00:00:00:00 -1:-1:-3:00" ++ newline ++
        "* FROM CLIP NAME: a.mov" ++ newline ++ newline)%string
       "utf8" ],
   Ok true) /\
  snd (createFCPXML exampleSerializer examplePathJoin "Export" clips
         exampleVideo "a.mov" (num 30) exampleWorld) = Ok true /\
  spine (generateFCPXML "/media/a.mov" "a.mov" (num 60) clips (num 30) (num 0)) =
  [ [ ("offset", "0/30s"); ("enabled", "1"); ("ref", "r2");
      ("duration", "-90/30s"); ("lane", "2"); ("name", "a.mov");
      ("start", "150/30s") ] ]%string.
Proof.
  cbv zeta. repeat split; vm_compute; reflexivity.
Qed.

Lemma clips_are_never_rejected_witness :
  let clips := [ {| start := num 5; end_ := num 2 |};
                 {| start := num 10; end_ := num 12 |} ] in
  let d :=
    {| streams :=
         [ {| codec_type := "video"; stream_tags := None;
              start_time := Undefined |} ];
       probe_format := {| format_tags := None |} |} in
  let offset :=
    framesToSeconds (timecodeToFrames "00:00:00:00" (num 30)) (num 30) in
  let records := edlRecords "a.mov" (num 30) offset (num 0) 0 clips in
  ffprobe exampleWorld (path exampleVideo) = Ok d /\
  startTimecodeOf d = Str "00:00:00:00" /\
  showSaveDialog exampleWorld (edlDialogOptions "Export" exampleVideo) =
  {| canceled := false; filePath := Some "/out" |} /\
  (forall data : string, writeFile exampleWorld "/out" data "utf8" = Ok tt) /\
  createEDL "Export" clips exampleVideo "a.mov" (num 30) exampleWorld =
  ([ ShowSaveDialog (edlDialogOptions "Export" exampleVideo);
     Ffprobe (path exampleVideo);
     WriteFile "/out"
       (edlHeader "Silence Removed" ++ concatStrings records) "utf8" ],
   Ok true) /\
  List.length records = List.length clips.
Proof.
  cbv zeta.
  set (d := {| streams := _; probe_format := _ |}).
  assert (H0 : ffprobe exampleWorld (path exampleVideo) = Ok d) by reflexivity.
  assert (H1 : startTimecodeOf d = Str "00:00:00:00") by reflexivity.
  assert (H2 : showSaveDialog exampleWorld
                 (edlDialogOptions "Export" exampleVideo) =
               {| canceled := false; filePath := Some "/out" |})
    by reflexivity.
  assert (H3 : forall data : string,
             writeFile exampleWorld "/out" data "utf8" = Ok tt)
    by (intros data; reflexivity).
  pose proof
    (@clips_are_never_rejected exampleSerializer examplePathJoin
       exampleWorld "Export"
       [ {| start := num 5; end_ := num 2 |};
         {| start := num 10; end_ := num 12 |} ]
       exampleVideo "a.mov" (num 30) "/out" "/out" "00:00:00:00" d H0 H1)
    as T.
  cbv zeta in T.
  split; [exact H0|]. split; [exact H1|]. split; [exact H2|].
  split; [exact H3|].
  split; [exact (proj1 T H2 H3)|exact (proj1 (proj2 T))].
Defined.

(** ** The examples of the specification *)

(** Clips 2-5 and 10-12 at 30 frames per second with no source offset. *)
Example edl_of_two_clips :
  generateEDL "Silence Removed" "a.mov"
    [ {| start := num 2; end_ := num 5 |};
      {| start := num 10; end_ := num 12 |} ] (num 30) (num 0) =
  ("TITLE: Silence Removed" ++ newline ++
   "FCM: NON-DROP FRAME" ++ newline ++ newline ++
   "001  AX       V     C        " ++
   "00:00:02:00 00:00:05:00 00:00:00:00 00:00:03:00" ++ newline ++
   "* FROM CLIP NAME: a.mov" ++ newline ++ newline ++
   "002  AX       V     C        " ++
   "00:00:10:00 00:00:12:00 00:00:03:00 00:00:05:00" ++ newline ++
   "* FROM CLIP NAME: a.mov" ++ newline ++ newline)%string.
Proof. vm_compute. reflexivity. Qed.

(** The name of the format resource at 23.976 frames per second. *)
Example format_name_23_976 :
  format (generateFCPXML "/a.mov" "a.mov" (num 60) [] (dec 23976 1000) (num 0)) =
  [ ("id", "r0"); ("name", "FFVideoFormat3840x2160p2398");
    ("frameDuration", "1001/24000s"); ("width", "3840"); ("height", "2160") ]%string.
Proof. vm_compute. reflexivity. Qed.

(** A bundle directory that exists already is not an error; any other
    failure of [mkdir] is. *)
Example mkdir_failures :
  let w (code : string) :=
    {| showSaveDialog := showSaveDialog exampleWorld;
       ffprobe := ffprobe exampleWorld;
       mkdir := fun _ => Throw (FsError code);
       writeFile := writeFile exampleWorld |} in
  snd (createFCPXML exampleSerializer examplePathJoin "Export" [] exampleVideo
         "a.mov" (num 30) (w "EEXIST")) = Ok true /\
  snd (createFCPXML exampleSerializer examplePathJoin "Export" [] exampleVideo
         "a.mov" (num 30) (w "EACCES")) =
  Throw (PlainError "Failed to create directory").
Proof. cbv zeta. split; vm_compute; reflexivity. Qed.

(** * Further properties of the exporter *)

(** ** Timecodes at any frame rate *)

Section TimecodesAtAnyRate.

Local Open Scope Z_scope.

Lemma rounded_rate_positive (q : Q) :
  (1 # 2 <= q)%Q -> 0 < Qfloor (q + (1 # 2)).
Proof.
  intros Hq.
  assert (H : Qfloor 1 <= Qfloor (q + (1 # 2))).
  { apply Qfloor_resp_le.
    setoid_replace 1%Q with ((1 # 2) + (1 # 2))%Q by reflexivity.
    now apply Qplus_le_l. }
  change (Qfloor 1) with 1 in H. lia.
Qed.

Lemma frames_of_timecode (f fps : Z) (r : number) :
  0 <= f -> 0 < fps -> Math_round r = num fps ->
  timecodeToFrames (framesToTimecode (num f) r) r = num f.
Proof.
  intros Hf Hpos Hround.
  destruct (fields_bounds Hf Hpos) as (Hh & Hm & Hs & Hfr).
  rewrite (@framesToTimecode_fields f fps r Hf Hpos Hround).
  rewrite (@timecodeToFrames_fields _ _ _ _ fps r) by (assumption || lia).
  now rewrite fields_recompose.
Qed.

(** Writing and reading back a frame count works at every finite frame rate
    from one half on, whether the rate is in the table or not, as long as
    the frame count and one more hour of frames stay within
    [maxSafeInteger].  With that margin the floor of each quotient is the
    floor of the exact quotient in binary64 as well, and nothing that is
    read back exceeds the frame count. *)
Theorem timecode_roundtrip_any_rate (f : Z) (q : Q) :
  0 <= f -> (1 # 2 <= q)%Q ->
  f + 3600 * Qfloor (q + (1 # 2)) <= maxSafeInteger ->
  timecodeToFrames (framesToTimecode (num f) (Fin q)) (Fin q) = num f.
Proof.
  intros Hf Hq _.
  exact (@frames_of_timecode f (Qfloor (q + (1 # 2))) (Fin q) Hf
           (rounded_rate_positive Hq) eq_refl).
Qed.

Lemma timecode_roundtrip_any_rate_witness :
  0 <= 1000000 /\ (1 # 2 <= 48)%Q /\
  1000000 + 3600 * Qfloor (48 + (1 # 2)) <= maxSafeInteger /\
  timecodeToFrames (framesToTimecode (num 1000000) (Fin 48)) (Fin 48) =
  num 1000000.
Proof.
  assert (H0 : 0 <= 1000000) by lia.
  assert (H1 : (1 # 2 <= 48)%Q) by (vm_compute; discriminate).
  assert (H2 : 1000000 + 3600 * Qfloor (48 + (1 # 2)) <= maxSafeInteger)
    by (vm_compute; discriminate).
  split; [exact H0|]. split; [exact H1|]. split; [exact H2|].
  exact (@timecode_roundtrip_any_rate 1000000 48 H0 H1 H2).
Defined.

(** Two different non-negative frame counts never get the same timecode. *)
Theorem framesToTimecode_injective (f g : Z) (q : Q) :
  0 <= f -> 0 <= g -> (1 # 2 <= q)%Q ->
  framesToTimecode (num f) (Fin q) = framesToTimecode (num g) (Fin q) ->
  f = g.
Proof.
  intros Hf Hg Hq E.
  pose proof (@frames_of_timecode f _ (Fin q) Hf (rounded_rate_positive Hq)
                eq_refl) as Ef.
  pose proof (@frames_of_timecode g _ (Fin q) Hg (rounded_rate_positive Hq)
                eq_refl) as Eg.
  rewrite E, Eg in Ef. unfold num, of_Z in Ef.
  injection Ef as Ef. now symmetry.
Qed.

Lemma framesToTimecode_injective_witness :
  0 <= 7 /\ 0 <= 7 /\ (1 # 2 <= 25)%Q /\
  framesToTimecode (num 7) (Fin 25) = framesToTimecode (num 7) (Fin 25) /\
  7 = 7.
Proof.
  assert (H0 : 0 <= 7) by lia.
  assert (H1 : (1 # 2 <= 25)%Q) by (vm_compute; discriminate).
  assert (H2 : framesToTimecode (num 7) (Fin 25) =
               framesToTimecode (num 7) (Fin 25)) by reflexivity.
  split; [exact H0|]. split; [exact H0|]. split; [exact H1|].
  split; [exact H2|].
  exact (@framesToTimecode_injective 7 7 25 H0 H0 H1 H2).
Defined.

Lemma fields_of_recomposed (h m s fr fps : Z) :
  0 <= h -> 0 <= m < 60 -> 0 <= s < 60 -> 0 <= fr < fps ->
  let f := (h * 3600 + m * 60 + s) * fps + fr in
  hoursOf f fps = h /\ minutesOf f fps = m /\
  secondsOf f fps = s /\ framesOf f fps = fr.
Proof.
  intros Hh Hm Hs Hfr f.
  assert (Hfps : 0 < fps) by lia.
  assert (E1 : f mod (3600 * fps) = (m * 60 + s) * fps + fr).
  { symmetry. apply Z.mod_unique with h; [left; nia|unfold f; ring]. }
  assert (E2 : ((m * 60 + s) * fps + fr) mod (60 * fps) = s * fps + fr).
  { symmetry. apply Z.mod_unique with m; [left; nia|ring]. }
  unfold hoursOf, minutesOf, secondsOf, framesOf.
  rewrite E1, E2. repeat split.
  - symmetry. apply Z.div_unique with ((m * 60 + s) * fps + fr);
      [left; nia|unfold f; ring].
  - symmetry. apply Z.div_unique with (s * fps + fr); [left; nia|ring].
  - symmetry. apply Z.div_unique with fr; [left; lia|ring].
  - symmetry. apply Z.mod_unique with s; [left; lia|ring].
Qed.

(** Reading a normalised timecode and writing the frame count again gives
    the timecode back: minutes and seconds are below 60, the frames are
    below the rounded rate, and the hours are such that the frame count
    read and one more hour of frames stay within [maxSafeInteger]. *)
Theorem timecode_of_frames_of_timecode (h m s fr : Z) (q : Q) :
  let fps := Qfloor (q + (1 # 2)) in
  0 <= h -> 0 <= m < 60 -> 0 <= s < 60 -> 0 <= fr < fps ->
  (h * 3600 + m * 60 + s) * fps + fr + 3600 * fps <= maxSafeInteger ->
  framesToTimecode
    (timecodeToFrames (timecodeOfFields h m s fr) (Fin q)) (Fin q) =
  timecodeOfFields h m s fr.
Proof.
  intros fps Hh Hm Hs Hfr _. unfold timecodeOfFields.
  rewrite (@timecodeToFrames_fields h m s fr fps (Fin q))
    by (lia || reflexivity).
  destruct (fields_of_recomposed Hh Hm Hs Hfr) as (E1 & E2 & E3 & E4).
  rewrite (@framesToTimecode_fields _ fps (Fin q)) by (nia || reflexivity).
  now rewrite E1, E2, E3, E4.
Qed.

Lemma timecode_of_frames_of_timecode_witness :
  0 <= 123 /\ 0 <= 59 < 60 /\ 0 <= 7 < 60 /\
  0 <= 23 < Qfloor ((23976 # 1000) + (1 # 2)) /\
  (123 * 3600 + 59 * 60 + 7) * Qfloor ((23976 # 1000) + (1 # 2)) + 23
  + 3600 * Qfloor ((23976 # 1000) + (1 # 2)) <= maxSafeInteger /\
  framesToTimecode
    (timecodeToFrames (timecodeOfFields 123 59 7 23) (Fin (23976 # 1000)))
    (Fin (23976 # 1000)) = timecodeOfFields 123 59 7 23.
Proof.
  assert (H0 : 0 <= 123) by lia.
  assert (H1 : 0 <= 59 < 60) by lia.
  assert (H2 : 0 <= 7 < 60) by lia.
  assert (H3 : 0 <= 23 < Qfloor ((23976 # 1000) + (1 # 2)))
    by (vm_compute; split; [discriminate|reflexivity]).
  assert (H4 : (123 * 3600 + 59 * 60 + 7)
                 * Qfloor ((23976 # 1000) + (1 # 2)) + 23
               + 3600 * Qfloor ((23976 # 1000) + (1 # 2)) <= maxSafeInteger)
    by (vm_compute; discriminate).
  split; [exact H0|]. split; [exact H1|]. split; [exact H2|].
  split; [exact H3|]. split; [exact H4|].
  exact (@timecode_of_frames_of_timecode 123 59 7 23 (23976 # 1000)
           H0 H1 H2 H3 H4).
Defined.

End TimecodesAtAnyRate.

(** ** Reading timecodes *)

Section ReadingTimecodes.

Local Open Scope Z_scope.

Lemma split_withSemicolons (s : string) :
  split timecode_separator (withSemicolons s) = split timecode_separator s.
Proof.
  unfold withSemicolons.
  induction s as [|c s IH]; [reflexivity|].
  cbn [map_chars split]. rewrite IH.
  destruct (Ascii.eqb_spec c ":") as [->|Hc]; [reflexivity|].
  reflexivity.
Qed.

(** The drop-frame separator is read like the colon: a timecode written
    with [;] gives the same frame count as the one written with [:]. *)
Theorem semicolons_read_like_colons (timecode : string) (frameRate : number) :
  timecodeToFrames (withSemicolons timecode) frameRate =
  timecodeToFrames timecode frameRate.
Proof.
  unfold timecodeToFrames. now rewrite split_withSemicolons.
Qed.

(** Four fields of digits with any of the two separators are read as hours,
    minutes, seconds and frames; minutes, seconds and frames need not be in
    their usual range and the fields need not have two digits.  The rate is
    one half at least, and the frame count read is within [maxSafeInteger],
    so that the fields and every sum and product on the way are exact. *)
Theorem timecodeToFrames_digit_fields (h m s fr : string) (c1 c2 c3 : ascii)
    (q : Q) :
  h <> EmptyString -> m <> EmptyString ->
  s <> EmptyString -> fr <> EmptyString ->
  all_chars is_digit h = true -> all_chars is_digit m = true ->
  all_chars is_digit s = true -> all_chars is_digit fr = true ->
  timecode_separator c1 = true -> timecode_separator c2 = true ->
  timecode_separator c3 = true ->
  (1 # 2 <= q)%Q ->
  (digits_value 0 h * 3600 + digits_value 0 m * 60 + digits_value 0 s)
  * Qfloor (q + (1 # 2)) + digits_value 0 fr <= maxSafeInteger ->
  timecodeToFrames (h ++ String c1 (m ++ String c2 (s ++ String c3 fr)))
    (Fin q) =
  num ((digits_value 0 h * 3600 + digits_value 0 m * 60 + digits_value 0 s)
       * Qfloor (q + (1 # 2)) + digits_value 0 fr).
Proof.
  intros Nh Nm Ns Nfr Hh Hm Hs Hfr H1 H2 H3 _ _. unfold timecodeToFrames.
  rewrite !split_field, split_last_field
    by (assumption || now apply digits_no_separator).
  cbn [map item nth].
  rewrite !Number_digits by assumption.
  change (Math_round (Fin q)) with (num (Qfloor (q + (1 # 2)))).
  rewrite !nmul_num, !nadd_num, nmul_num, nadd_num.
  apply Math_floor_num.
Qed.

Lemma timecodeToFrames_digit_fields_witness :
  (1 # 2 <= 2997 # 100)%Q /\
  (digits_value 0 "1" * 3600 + digits_value 0 "90" * 60 + digits_value 0 "005")
  * Qfloor ((2997 # 100) + (1 # 2)) + digits_value 0 "7" <= maxSafeInteger /\
  timecodeToFrames ("1" ++ String ":" ("90" ++ String ":" ("005" ++ String ";" "7")))
    (Fin (2997 # 100)) =
  num ((1 * 3600 + 90 * 60 + 5) * 30 + 7).
Proof.
  assert (Hq : (1 # 2 <= 2997 # 100)%Q) by (vm_compute; discriminate).
  assert (Hmax : (digits_value 0 "1" * 3600 + digits_value 0 "90" * 60
                  + digits_value 0 "005")
                 * Qfloor ((2997 # 100) + (1 # 2)) + digits_value 0 "7"
                 <= maxSafeInteger) by (vm_compute; discriminate).
  split; [exact Hq|]. split; [exact Hmax|].
  exact (@timecodeToFrames_digit_fields "1" "90" "005" "7" ":" ":" ";"
           (2997 # 100)
           ltac:(discriminate) ltac:(discriminate) ltac:(discriminate)
           ltac:(discriminate)
           eq_refl eq_refl eq_refl eq_refl eq_refl eq_refl eq_refl
           Hq Hmax).
Defined.

Lemma nadd_NaN_r (a : number) : (a + NaN)%js = NaN.
Proof. now destruct a. Qed.

Lemma item_missing (i : nat) (l : list string) :
  (List.length l <= i)%nat -> item i (map Number l) = NaN.
Proof.
  intros H. unfold item. apply nth_overflow. now rewrite length_map.
Qed.

(** A string with fewer than four fields reads as NaN, and so does the
    source offset taken from it: every record of the EDL then carries
    NaN as source in and out. *)
Theorem short_timecode_reads_NaN (timecode sourceClipName : string)
    (frameRate : number) (clips : list Clip) :
  (List.length (split timecode_separator timecode) < 4)%nat ->
  let offset :=
    framesToSeconds (timecodeToFrames timecode frameRate) frameRate in
  timecodeToFrames timecode frameRate = NaN /\
  offset = NaN /\
  (forall (i : nat) (clip : Clip),
      nth_error clips i = Some clip ->
      exists recStart recEnd : number,
        nth_error (edlRecords sourceClipName frameRate offset (num 0) 0 clips) i
        = Some (edlRecord sourceClipName frameRate i NaN NaN recStart recEnd)) /\
  framesToTimecode NaN frameRate = "NaN:NaN:NaN:NaN"%string.
Proof.
  intros Hlen offset.
  assert (E : timecodeToFrames timecode frameRate = NaN).
  { unfold timecodeToFrames. rewrite (@item_missing 3) by lia.
    now rewrite nadd_NaN_r. }
  assert (Eo : offset = NaN) by (unfold offset; now rewrite E).
  split; [exact E|]. split; [exact Eo|]. split; [|reflexivity].
  intros i clip Hi. rewrite Eo.
  destruct (@nth_edlRecords sourceClipName frameRate NaN clips (num 0) 0%nat
              i clip Hi) as (a & b & Hrec).
  exists a, b. rewrite Hrec. now rewrite !nadd_NaN_r.
Qed.

Lemma short_timecode_reads_NaN_witness :
  (List.length (split timecode_separator "0.000000") < 4)%nat /\
  timecodeToFrames "0.000000" (num 30) = NaN.
Proof.
  assert (H : (List.length (split timecode_separator "0.000000") < 4)%nat)
    by (vm_compute; repeat constructor).
  split; [exact H|].
  exact (proj1 (@short_timecode_reads_NaN "0.000000" "a.mov" (num 30) [] H)).
Defined.

End ReadingTimecodes.

(** ** Records of the EDL *)

Section EdlRecords.

Local Open Scope Z_scope.

Variable sourceClipName : string.
Variables frameRate timecodeInSeconds : number.

Lemma edlRecords_render (clips : list Clip) :
  forall (recordStartFrames : number) (index : nat),
    edlRecords sourceClipName frameRate timecodeInSeconds recordStartFrames
      index clips =
    renderEdlEntries sourceClipName frameRate index
      (edlEntries frameRate timecodeInSeconds recordStartFrames clips).
Proof.
  induction clips as [|clip rest IH]; intros rec index; [reflexivity|].
  cbn [edlRecords edlEntries renderEdlEntries
       src_start src_end rec_start rec_end].
  now rewrite IH.
Qed.

Lemma length_edlEntries (clips : list Clip) :
  forall recordStartFrames : number,
    List.length (edlEntries frameRate timecodeInSeconds recordStartFrames clips)
    = List.length clips.
Proof.
  induction clips as [|clip rest IH]; intros rec; simpl; [reflexivity|].
  now rewrite IH.
Qed.

Lemma edlEntries_contiguous (clips : list Clip) :
  forall (recordStartFrames : number) (i : nat) (e e' : EdlEntry),
    let es := edlEntries frameRate timecodeInSeconds recordStartFrames clips in
    nth_error es i = Some e -> nth_error es (S i) = Some e' ->
    rec_start e' = rec_end e.
Proof.
  induction clips as [|c rest IH]; intros rec i e e' es He He'.
  - destruct i; discriminate.
  - destruct i as [|i].
    + subst es. simpl in He. injection He as <-.
      destruct rest as [|c' rest']; [discriminate|].
      simpl in He'. injection He' as <-. reflexivity.
    + subst es. simpl in He, He'. eapply IH; eassumption.
Qed.

Lemma edlEntries_step (clips : list Clip) :
  forall (recordStartFrames : number) (i : nat) (e : EdlEntry) (clip : Clip),
    nth_error (edlEntries frameRate timecodeInSeconds recordStartFrames clips) i
    = Some e ->
    nth_error clips i = Some clip ->
    rec_end e = recEndFrames frameRate (rec_start e) clip /\
    src_start e = srcStartFrames frameRate timecodeInSeconds clip /\
    src_end e = srcEndFrames frameRate timecodeInSeconds clip.
Proof.
  induction clips as [|c rest IH]; intros rec i e clip He Hc.
  - destruct i; discriminate.
  - destruct i as [|i].
    + simpl in He, Hc. injection He as <-. injection Hc as <-.
      repeat split.
    + simpl in He, Hc. eapply IH; eassumption.
Qed.

(** The record side of the EDL is laid back to back: the first record
    starts at frame 0, every further record starts where the previous one
    ends, and each record ends at
    [floor(recStart + (clip.end - clip.start) * frameRate)], whatever gaps
    the clips leave in the source. *)
Theorem edl_records_are_contiguous (title : string) (clips : list Clip) :
  let es := edlEntries frameRate timecodeInSeconds (num 0) clips in
  generateEDL title sourceClipName clips frameRate timecodeInSeconds =
  (edlHeader title ++
   concatStrings (renderEdlEntries sourceClipName frameRate 0 es))%string /\
  List.length es = List.length clips /\
  (forall e : EdlEntry, nth_error es 0 = Some e -> rec_start e = num 0) /\
  (forall (i : nat) (e e' : EdlEntry),
      nth_error es i = Some e -> nth_error es (S i) = Some e' ->
      rec_start e' = rec_end e) /\
  (forall (i : nat) (e : EdlEntry) (clip : Clip),
      nth_error es i = Some e -> nth_error clips i = Some clip ->
      rec_end e =
      Math_floor (rec_start e + (end_ clip - start clip) * frameRate)%js).
Proof.
  cbv zeta. split; [|split; [|split; [|split]]].
  - rewrite generateEDL_records. now rewrite edlRecords_render.
  - apply length_edlEntries.
  - destruct clips as [|c rest]; [discriminate|].
    simpl. now intros e [= <-].
  - intros i e e'. apply edlEntries_contiguous.
  - intros i e clip He Hc.
    now destruct (edlEntries_step clips (num 0) i He Hc) as [-> _].
Qed.

(** The whole state of the loop of [generateEDL]. *)
Lemma fold_edlStep_state (clips : list Clip) :
  forall (edl : string) (recordStartFrames : number) (index : nat),
    fold_left (edlStep sourceClipName frameRate timecodeInSeconds) clips
      (edl, recordStartFrames, index) =
    ((edl ++ concatStrings
               (edlRecords sourceClipName frameRate timecodeInSeconds
                  recordStartFrames index clips))%string,
     recordCursor frameRate recordStartFrames clips,
     (index + List.length clips)%nat).
Proof.
  induction clips as [|clip rest IH]; intros edl rec index.
  - simpl. now rewrite append_empty_r, Nat.add_0_r.
  - cbn [fold_left edlStep]. rewrite IH.
    cbn [edlRecords concatStrings fold_right List.length].
    unfold recordCursor. cbn [fold_left].
    now rewrite append_assoc, Nat.add_succ_r.
Qed.

(** Appending clips to the list only appends records: the text for the
    first clips stays as it is, and the further records continue from the
    record cursor and the edit number reached. *)
Theorem edl_of_appended_clips (title : string) (clips more : list Clip) :
  generateEDL title sourceClipName (clips ++ more) frameRate
    timecodeInSeconds =
  (generateEDL title sourceClipName clips frameRate timecodeInSeconds ++
   concatStrings
     (edlRecords sourceClipName frameRate timecodeInSeconds
        (recordCursor frameRate (num 0) clips) (List.length clips) more))%string.
Proof.
  unfold generateEDL. rewrite fold_left_app, !fold_edlStep_state.
  reflexivity.
Qed.

End EdlRecords.

Lemma edl_records_are_contiguous_witness :
  let clips := [ {| start := num 2; end_ := num 5 |};
                 {| start := num 10; end_ := num 12 |} ] in
  let es := edlEntries (num 30) (num 0) (num 0) clips in
  let e := {| src_start := num 60; src_end := num 150;
              rec_start := num 0; rec_end := num 90 |} in
  let e' := {| src_start := num 300; src_end := num 360;
               rec_start := num 90; rec_end := num 150 |} in
  nth_error es 0 = Some e /\ nth_error es 1 = Some e' /\
  rec_start e' = rec_end e.
Proof.
  cbv zeta.
  set (es := edlEntries _ _ _ _).
  set (e := {| src_start := num 60; src_end := _; rec_start := _;
               rec_end := _ |}).
  set (e' := {| src_start := num 300; src_end := _; rec_start := _;
                rec_end := _ |}).
  assert (H0 : nth_error es 0 = Some e) by reflexivity.
  assert (H1 : nth_error es 1 = Some e') by reflexivity.
  split; [exact H0|]. split; [exact H1|].
  exact (proj1 (proj2 (proj2 (proj2
           (@edl_records_are_contiguous "a.mov" (num 30) (num 0) "T"
              [ {| start := num 2; end_ := num 5 |};
                {| start := num 10; end_ := num 12 |} ]))))
           0%nat e e' H0 H1).
Defined.

(** ** Edit numbers *)

Section EditNumbers.

Local Open Scope Z_scope.

Lemma digits_exactly_three (n : Z) :
  100 <= n < 1000 ->
  digits n =
  String (digit_char (n / 100))
    (String (digit_char ((n / 10) mod 10))
       (String (digit_char (n mod 10)) EmptyString)).
Proof.
  intros Hn. unfold digits.
  assert (Hlog : 6 <= Z.log2 n).
  { change 6 with (Z.log2 100). apply Z.log2_le_mono. lia. }
  destruct (Z.to_nat (Z.log2 n)) as [|[|k]] eqn:E; try lia.
  cbn [digits_fuel].
  assert (H10 : 10 <= n / 10 < 100).
  { split; [apply Z.div_le_lower_bound; lia|apply Z.div_lt_upper_bound; lia]. }
  assert (H100 : 1 <= n / 10 / 10 < 10).
  { split; [apply Z.div_le_lower_bound; lia|apply Z.div_lt_upper_bound; lia]. }
  destruct (Z.ltb_spec n 10); [lia|].
  destruct (Z.ltb_spec (n / 10) 10); [lia|].
  destruct (Z.ltb_spec (n / 10 / 10) 10); [|lia].
  rewrite (Z.mod_small (n / 10 / 10)) by lia.
  now rewrite Z.div_div by lia.
Qed.

(** Up to 999 the edit number is written with exactly three digits and
    reads as the position of the record counted from 1. *)
Lemma editNumber_three_digits (index : nat) :
  (index < 999)%nat ->
  exists a b c : ascii,
    editNumber index = String a (String b (String c EmptyString)) /\
    is_digit a = true /\ is_digit b = true /\ is_digit c = true /\
    digits_value 0 (String a (String b (String c EmptyString))) =
    Z.of_nat index + 1.
Proof.
  intros Hi. unfold editNumber. rewrite nadd_num.
  set (n := Z.of_nat index + 1). assert (Hn : 1 <= n < 1000) by lia.
  clearbody n. rewrite toString_num_nonneg by lia.
  assert (Hd : forall d, 0 <= d < 10 ->
                         is_digit (digit_char d) = true /\
                         digit_value (digit_char d) = d).
  { intros d Hd. split; [now apply is_digit_digit_char|
                         now apply digit_value_digit_char]. }
  destruct (Z.ltb_spec n 10) as [H1|H1];
    [|destruct (Z.ltb_spec n 100) as [H2|H2]].
  - rewrite digits_one by lia.
    destruct (Hd n) as [D V]; [lia|].
    exists "0"%char, "0"%char, (digit_char n).
    cbn [padStart String.length Nat.leb Nat.sub repeat_fill append digits_value].
    rewrite V. change (digit_value "0") with 0.
    repeat split; try assumption; lia.
  - rewrite digits_two by lia.
    assert (Hq : 0 <= n / 10 < 10).
    { split; [apply Z.div_pos; lia|apply Z.div_lt_upper_bound; lia]. }
    destruct (Hd (n / 10) Hq) as [D1 V1].
    destruct (Hd (n mod 10)) as [D0 V0]; [apply Z.mod_pos_bound; lia|].
    exists "0"%char, (digit_char (n / 10)), (digit_char (n mod 10)).
    cbn [padStart String.length Nat.leb Nat.sub repeat_fill append digits_value].
    rewrite V1, V0. change (digit_value "0") with 0.
    repeat split; try assumption.
    pose proof (Z.div_mod n 10 ltac:(lia)). lia.
  - rewrite digits_exactly_three by lia.
    assert (Hq2 : 0 <= n / 100 < 10).
    { split; [apply Z.div_pos; lia|apply Z.div_lt_upper_bound; lia]. }
    destruct (Hd (n / 100) Hq2) as [D2 V2].
    destruct (Hd ((n / 10) mod 10)) as [D1 V1]; [apply Z.mod_pos_bound; lia|].
    destruct (Hd (n mod 10)) as [D0 V0]; [apply Z.mod_pos_bound; lia|].
    do 3 eexists.
    cbn [padStart String.length Nat.leb Nat.sub repeat_fill append digits_value].
    rewrite V2, V1, V0. repeat split; try assumption.
    pose proof (Z.div_mod n 10 ltac:(lia)) as E0.
    pose proof (Z.div_mod (n / 10) 10 ltac:(lia)) as E1.
    rewrite Z.div_div in E1 by lia. change (10 * 10) with 100 in E1. lia.
Qed.

(** For up to 999 clips the records are numbered 001, 002, ... in the
    order of the clips: the record of the clip at position [i] begins with
    the three digits of [i + 1], followed by the fixed columns. *)
Theorem edl_records_are_numbered (sourceClipName : string)
    (frameRate timecodeInSeconds : number) (clips : list Clip)
    (i : nat) (clip : Clip) :
  nth_error clips i = Some clip ->
  (i < 999)%nat ->
  exists (a b c : ascii) (rest : string),
    nth_error
      (edlRecords sourceClipName frameRate timecodeInSeconds (num 0) 0 clips) i
    = Some (String a (String b (String c
              ("  AX       V     C        " ++ rest)))) /\
    is_digit a = true /\ is_digit b = true /\ is_digit c = true /\
    digits_value 0 (String a (String b (String c EmptyString))) =
    Z.of_nat i + 1.
Proof.
  intros Hclip Hi.
  destruct (@nth_edlRecords sourceClipName frameRate timecodeInSeconds clips
              (num 0) 0%nat i clip Hclip) as (rs & re & Hrec).
  destruct (editNumber_three_digits Hi) as (a & b & c & E & Ha & Hb & Hc & V).
  exists a, b, c. eexists. split; [|now repeat split].
  rewrite Hrec. cbn [Nat.add]. unfold edlRecord.
  fold (editNumber i). rewrite E. cbn [append]. reflexivity.
Qed.

Lemma edl_records_are_numbered_witness :
  let clips := [ {| start := num 2; end_ := num 5 |};
                 {| start := num 10; end_ := num 12 |} ] in
  nth_error clips 1 = Some {| start := num 10; end_ := num 12 |} /\
  (1 < 999)%nat /\
  exists (a b c : ascii) (rest : string),
    nth_error (edlRecords "a.mov" (num 30) (num 0) (num 0) 0 clips) 1
    = Some (String a (String b (String c
              ("  AX       V     C        " ++ rest)))) /\
    is_digit a = true /\ is_digit b = true /\ is_digit c = true /\
    digits_value 0 (String a (String b (String c EmptyString))) =
    Z.of_nat 1 + 1.
Proof.
  cbv zeta.
  assert (H0 : nth_error [ {| start := num 2; end_ := num 5 |};
                           {| start := num 10; end_ := num 12 |} ] 1 =
               Some {| start := num 10; end_ := num 12 |}) by reflexivity.
  assert (H1 : (1 < 999)%nat) by lia.
  split; [exact H0|]. split; [exact H1|].
  exact (@edl_records_are_numbered "a.mov" (num 30) (num 0) _ 1%nat _ H0 H1).
Defined.

End EditNumbers.

(** ** The frame-duration pair *)

Section FrameDurationPair.

Local Open Scope Z_scope.

Lemma frameRateToFrameDuration_in_table (r : number) :
  In (frameRateToFrameDuration r) (map snd frameDurationTable).
Proof.
  unfold frameRateToFrameDuration, frameDurationTable. cbn [lookup map snd].
  repeat match goal with
         | |- context [neqb ?k r] =>
             destruct (neqb k r); [cbn [or_string In]; tauto|]
         end.
  cbn [or_string In]. tauto.
Qed.

(** Whatever the frame rate, supported or not, the numerator and the
    denominator read back from the table are positive integers, and writing
    them again gives the [frameDuration] of the format resource. *)
Theorem frame_duration_pair_is_positive (r : number) :
  exists n d : Z,
    frameDurationPair r = (num n, num d) /\ 0 < n /\ 0 < d /\
    rational (num n) (num d) = frameRateToFrameDuration r.
Proof.
  unfold frameDurationPair.
  pose proof (frameRateToFrameDuration_in_table r) as H.
  unfold frameDurationTable in H. cbn [map snd In] in H.
  repeat (destruct H as [H|H]; [rewrite <- H|]); [..|contradiction];
    match goal with
    | |- exists n d : Z, ?p = _ /\ _ =>
        let v := eval vm_compute in p in change p with v
    end;
    do 2 eexists;
    (split; [reflexivity|]); (split; [reflexivity|]);
    (split; [reflexivity|vm_compute; reflexivity]).
Qed.

End FrameDurationPair.

(** ** The suggested file name *)

Section SuggestedFileName.

Lemma split_nonempty (sep : ascii -> bool) (s : string) : split sep s <> [].
Proof.
  induction s as [|c s IH]; simpl; [discriminate|].
  destruct (sep c); [discriminate|].
  destruct (split sep s); [congruence|discriminate].
Qed.

(** The fields of [a], then the fields of [b]. *)
Lemma split_app (sep : ascii -> bool) (a b : string) (c : ascii) :
  sep c = true ->
  split sep (a ++ String c b) = (split sep a ++ split sep b)%list.
Proof.
  intros Hc. induction a as [|x a IH]; simpl.
  - now rewrite Hc.
  - rewrite IH. destruct (sep x); [reflexivity|].
    pose proof (split_nonempty sep a) as Hne.
    destruct (split sep a) as [|f fs]; [congruence|reflexivity].
Qed.

Lemma last_app_nonempty {A : Type} (l1 l2 : list A) (d : A) :
  l2 <> [] -> last (l1 ++ l2) d = last l2 d.
Proof.
  intros Hne. induction l1 as [|x l1 IH]; [reflexivity|].
  simpl. rewrite IH. destruct (l1 ++ l2)%list eqn:E; [|reflexivity].
  apply app_eq_nil in E as [_ E]. congruence.
Qed.

(** The save dialog is labelled with the title and suggests the last
    segment of the source path, extension included, followed by [.edl] or
    [.fcpxmld]. *)
Theorem suggested_file_name (title dir base : string) (sourceDuration : number) :
  all_chars (fun c => negb (Ascii.eqb c "/")) base = true ->
  let videoInfo :=
    {| path := dir ++ "/" ++ base; duration := sourceDuration |} in
  defaultPath (edlDialogOptions title videoInfo) = (base ++ ".edl")%string /\
  defaultPath (fcpxmlDialogOptions title videoInfo) =
  (base ++ ".fcpxmld")%string /\
  dialog_title (edlDialogOptions title videoInfo) = title /\
  dialog_title (fcpxmlDialogOptions title videoInfo) = title.
Proof.
  intros Hbase videoInfo.
  assert (E : last_field (fun c => Ascii.eqb c "/") (path videoInfo) = base).
  { unfold last_field, videoInfo. cbn [path append].
    rewrite split_app by reflexivity.
    rewrite last_app_nonempty by apply split_nonempty.
    now rewrite split_last_field. }
  unfold edlDialogOptions, fcpxmlDialogOptions. cbn [defaultPath dialog_title].
  rewrite E. repeat split.
Qed.

Lemma suggested_file_name_witness :
  all_chars (fun c => negb (Ascii.eqb c "/")) "take 1.mov" = true /\
  defaultPath
    (edlDialogOptions "Export"
       {| path := "/Users/me/clips" ++ "/" ++ "take 1.mov";
          duration := num 60 |}) = "take 1.mov.edl"%string.
Proof.
  assert (H : all_chars (fun c => negb (Ascii.eqb c "/")) "take 1.mov" = true)
    by reflexivity.
  split; [exact H|].
  exact (proj1 (@suggested_file_name "Export" "/Users/me/clips" "take 1.mov"
                  (num 60) H)).
Defined.

End SuggestedFileName.

(** ** Failures in the orchestrators *)

Section OrchestratorFailures.

Variable js2xml : ElementCompact -> string.
Variable path_join : string -> string -> string.

Variable w : World.
Variable title : string.
Variable clips : list Clip.
Variable videoInfo : VideoInfo.
Variable clipName : string.
Variable frameRate : number.

(** When the probe fails, each export rejects with the error of the probe
    right after it: no directory is made and nothing is written. *)
Theorem probe_failure_writes_nothing (e : Error) (file : string) :
  ffprobe w (path videoInfo) = Throw e ->
  (showSaveDialog w (edlDialogOptions title videoInfo) =
   {| canceled := false; filePath := Some file |} ->
   createEDL title clips videoInfo clipName frameRate w =
   ([ ShowSaveDialog (edlDialogOptions title videoInfo);
      Ffprobe (path videoInfo) ], Throw e)) /\
  (showSaveDialog w (fcpxmlDialogOptions title videoInfo) =
   {| canceled := false; filePath := Some file |} ->
   createFCPXML js2xml path_join title clips videoInfo clipName frameRate w =
   ([ ShowSaveDialog (fcpxmlDialogOptions title videoInfo);
      Ffprobe (path videoInfo) ], Throw e)).
Proof.
  intros Hprobe. split; intros Hdialog.
  - unfold createEDL, bind, call_showSaveDialog, getStartTimecode, bind,
      call_ffprobe.
    rewrite Hdialog. cbn [canceled filePath]. now rewrite Hprobe.
  - unfold createFCPXML, bind, call_showSaveDialog, getStartTimecode, bind,
      call_ffprobe.
    rewrite Hdialog. cbn [canceled filePath]. now rewrite Hprobe.
Qed.

(** When the bundle directory cannot be made: if the error code is
    [EEXIST] the export goes on and writes [Info.fcpxml] into the
    directory, with any other error it rejects with
    [Failed to create directory] and writes nothing. *)
Theorem bundle_directory_failure (dir s : string) (d : FfprobeData)
    (e : Error) :
  showSaveDialog w (fcpxmlDialogOptions title videoInfo) =
  {| canceled := false; filePath := Some dir |} ->
  ffprobe w (path videoInfo) = Ok d ->
  startTimecodeOf d = Str s ->
  mkdir w dir = Throw e ->
  let xml :=
    js2xml
      (generateFCPXML (path videoInfo) clipName (duration videoInfo) clips
         frameRate (framesToSeconds (timecodeToFrames s frameRate) frameRate)) in
  (error_code e = Some "EEXIST"%string ->
   createFCPXML js2xml path_join title clips videoInfo clipName frameRate w =
   ([ ShowSaveDialog (fcpxmlDialogOptions title videoInfo);
      Ffprobe (path videoInfo);
      Mkdir dir;
      WriteFile (path_join dir "Info.fcpxml") xml "utf8" ],
    match writeFile w (path_join dir "Info.fcpxml") xml "utf8" with
    | Ok _ => Ok true
    | Throw e' => Throw e'
    end)) /\
  (error_code e <> Some "EEXIST"%string ->
   createFCPXML js2xml path_join title clips videoInfo clipName frameRate w =
   ([ ShowSaveDialog (fcpxmlDialogOptions title videoInfo);
      Ffprobe (path videoInfo);
      Mkdir dir ],
    Throw (PlainError "Failed to create directory"))).
Proof.
  intros Hdialog Hprobe Hs Hmkdir xml.
  assert (Hrun :
    createFCPXML js2xml path_join title clips videoInfo clipName frameRate w =
    if code_differs (error_code e) "EEXIST"
    then ([ ShowSaveDialog (fcpxmlDialogOptions title videoInfo);
            Ffprobe (path videoInfo); Mkdir dir ],
          Throw (PlainError "Failed to create directory"))
    else ([ ShowSaveDialog (fcpxmlDialogOptions title videoInfo);
            Ffprobe (path videoInfo); Mkdir dir;
            WriteFile (path_join dir "Info.fcpxml") xml "utf8" ],
          match writeFile w (path_join dir "Info.fcpxml") xml "utf8" with
          | Ok _ => Ok true
          | Throw e' => Throw e'
          end)).
  { unfold createFCPXML, bind, call_showSaveDialog, getStartTimecode, bind,
      call_ffprobe, ret, try_catch, call_mkdir, call_writeFile.
    rewrite Hdialog. cbn [canceled filePath]. rewrite Hprobe, Hs.
    cbn [startFrameOf ret app]. rewrite Hmkdir. fold xml.
    destruct (code_differs (error_code e) "EEXIST"); [reflexivity|].
    unfold ret. cbn [app].
    destruct (writeFile w (path_join dir "Info.fcpxml") xml "utf8");
      reflexivity. }
  rewrite Hrun. split; intros Hcode.
  - now rewrite Hcode.
  - destruct (error_code e) as [code|]; [|reflexivity].
    cbn [code_differs].
    destruct (String.eqb_spec code "EEXIST") as [->|]; [congruence|reflexivity].
Qed.

(** An export that resolves to [true] has handed the document to
    [writeFile], as its last call, and [writeFile] has accepted it; for the
    XML the directory was asked for just before. *)
Theorem true_means_written :
  (snd (createEDL title clips videoInfo clipName frameRate w) = Ok true ->
   exists file data : string,
     fst (createEDL title clips videoInfo clipName frameRate w) =
     [ ShowSaveDialog (edlDialogOptions title videoInfo);
       Ffprobe (path videoInfo);
       WriteFile file data "utf8" ] /\
     filePath (showSaveDialog w (edlDialogOptions title videoInfo)) = Some file /\
     writeFile w file data "utf8" = Ok tt) /\
  (snd (createFCPXML js2xml path_join title clips videoInfo clipName
          frameRate w) = Ok true ->
   exists dir data : string,
     fst (createFCPXML js2xml path_join title clips videoInfo clipName
            frameRate w) =
     [ ShowSaveDialog (fcpxmlDialogOptions title videoInfo);
       Ffprobe (path videoInfo);
       Mkdir dir;
       WriteFile (path_join dir "Info.fcpxml") data "utf8" ] /\
     filePath (showSaveDialog w (fcpxmlDialogOptions title videoInfo)) =
     Some dir /\
     writeFile w (path_join dir "Info.fcpxml") data "utf8" = Ok tt).
Proof.
  split.
  - unfold createEDL, bind, call_showSaveDialog, getStartTimecode, bind,
      call_ffprobe, ret, call_writeFile.
    destruct (showSaveDialog w (edlDialogOptions title videoInfo))
      as [c [file|]]; destruct c; cbn [canceled filePath]; try discriminate.
    destruct (ffprobe w (path videoInfo)) as [d|e]; [|discriminate].
    destruct (startTimecodeOf d) as [|s|n]; try discriminate.
    cbn [startFrameOf ret app].
    match goal with
    | |- context [writeFile w file ?x "utf8"] =>
        destruct (writeFile w file x "utf8") as [[]|e] eqn:E
    end; [|discriminate].
    intros _. do 2 eexists. split; [reflexivity|]. split; [reflexivity|exact E].
  - unfold createFCPXML, bind, call_showSaveDialog, getStartTimecode, bind,
      call_ffprobe, ret, try_catch, call_mkdir, call_writeFile.
    destruct (showSaveDialog w (fcpxmlDialogOptions title videoInfo))
      as [c [dir|]]; destruct c; cbn [canceled filePath]; try discriminate.
    destruct (ffprobe w (path videoInfo)) as [d|e]; [|discriminate].
    destruct (startTimecodeOf d) as [|s|n]; try discriminate.
    cbn [startFrameOf ret app].
    destruct (mkdir w dir) as [[]|e].
    + cbn [app].
      match goal with
      | |- context [writeFile w ?f ?x "utf8"] =>
          destruct (writeFile w f x "utf8") as [[]|e] eqn:E
      end; [|discriminate].
      intros _. do 2 eexists.
      split; [reflexivity|]. split; [reflexivity|exact E].
    + destruct (code_differs (error_code e) "EEXIST"); [discriminate|].
      unfold ret. cbn [app].
      match goal with
      | |- context [writeFile w ?f ?x "utf8"] =>
          destruct (writeFile w f x "utf8") as [[]|e'] eqn:E
      end; [|discriminate].
      intros _. do 2 eexists.
      split; [reflexivity|]. split; [reflexivity|exact E].
Qed.

End OrchestratorFailures.

Lemma probe_failure_writes_nothing_witness :
  ffprobe failingProbeWorld (path exampleVideo) =
  Throw (ProbeError "ffprobe exited with code 1") /\
  showSaveDialog failingProbeWorld (edlDialogOptions "Export" exampleVideo) =
  {| canceled := false; filePath := Some "/out" |} /\
  createEDL "Export" [ {| start := num 2; end_ := num 5 |} ] exampleVideo
    "a.mov" (num 30) failingProbeWorld =
  ([ ShowSaveDialog (edlDialogOptions "Export" exampleVideo);
     Ffprobe (path exampleVideo) ],
   Throw (ProbeError "ffprobe exited with code 1")).
Proof.
  assert (H0 : ffprobe failingProbeWorld (path exampleVideo) =
               Throw (ProbeError "ffprobe exited with code 1"))
    by reflexivity.
  assert (H1 : showSaveDialog failingProbeWorld
                 (edlDialogOptions "Export" exampleVideo) =
               {| canceled := false; filePath := Some "/out" |})
    by reflexivity.
  split; [exact H0|]. split; [exact H1|].
  exact (proj1 (@probe_failure_writes_nothing exampleSerializer
                  examplePathJoin failingProbeWorld "Export"
                  [ {| start := num 2; end_ := num 5 |} ] exampleVideo
                  "a.mov" (num 30) _ "/out" H0) H1).
Defined.

Lemma bundle_directory_failure_witness :
  let d :=
    {| streams :=
         [ {| codec_type := "video"; stream_tags := None;
              start_time := Undefined |} ];
       probe_format := {| format_tags := None |} |} in
  let w := failingMkdirWorld "EACCES" in
  showSaveDialog w (fcpxmlDialogOptions "Export" exampleVideo) =
  {| canceled := false; filePath := Some "/out" |} /\
  ffprobe w (path exampleVideo) = Ok d /\
  startTimecodeOf d = Str "00:00:00:00" /\
  mkdir w "/out" = Throw (FsError "EACCES") /\
  error_code (FsError "EACCES") <> Some "EEXIST"%string /\
  createFCPXML exampleSerializer examplePathJoin "Export" [] exampleVideo
    "a.mov" (num 30) w =
  ([ ShowSaveDialog (fcpxmlDialogOptions "Export" exampleVideo);
     Ffprobe (path exampleVideo);
     Mkdir "/out" ],
   Throw (PlainError "Failed to create directory")).
Proof.
  cbv zeta.
  set (d := {| streams := _; probe_format := _ |}).
  set (w := failingMkdirWorld "EACCES").
  assert (H0 : showSaveDialog w (fcpxmlDialogOptions "Export" exampleVideo) =
               {| canceled := false; filePath := Some "/out" |})
    by reflexivity.
  assert (H1 : ffprobe w (path exampleVideo) = Ok d) by reflexivity.
  assert (H2 : startTimecodeOf d = Str "00:00:00:00") by reflexivity.
  assert (H3 : mkdir w "/out" = Throw (FsError "EACCES")) by reflexivity.
  assert (H4 : error_code (FsError "EACCES") <> Some "EEXIST"%string)
    by discriminate.
  split; [exact H0|]. split; [exact H1|]. split; [exact H2|].
  split; [exact H3|]. split; [exact H4|].
  exact (proj2 (@bundle_directory_failure exampleSerializer examplePathJoin
                  w "Export" [] exampleVideo "a.mov" (num 30) "/out"
                  "00:00:00:00" d _ H0 H1 H2 H3) H4).
Defined.

Lemma true_means_written_witness :
  snd (createEDL "Export" [ {| start := num 2; end_ := num 5 |} ]
         exampleVideo "a.mov" (num 30) exampleWorld) = Ok true /\
  exists file data : string,
    fst (createEDL "Export" [ {| start := num 2; end_ := num 5 |} ]
           exampleVideo "a.mov" (num 30) exampleWorld) =
    [ ShowSaveDialog (edlDialogOptions "Export" exampleVideo);
      Ffprobe (path exampleVideo);
      WriteFile file data "utf8" ] /\
    filePath (showSaveDialog exampleWorld
                (edlDialogOptions "Export" exampleVideo)) = Some file /\
    writeFile exampleWorld file data "utf8" = Ok tt.
Proof.
  assert (H : snd (createEDL "Export" [ {| start := num 2; end_ := num 5 |} ]
                     exampleVideo "a.mov" (num 30) exampleWorld) = Ok true)
    by (vm_compute; reflexivity).
  split; [exact H|].
  exact (proj1 (@true_means_written exampleSerializer examplePathJoin
                  exampleWorld "Export"
                  [ {| start := num 2; end_ := num 5 |} ] exampleVideo
                  "a.mov" (num 30)) H).
Defined.

(** * Properties of the optimized audio path *)

Section OptimizedAudioPath.

Local Open Scope string_scope.

Lemma extension_at_cons (c : ascii) (rest : string) :
  extension_at (String c rest) =
  (Ascii.eqb c "." && negb (String.eqb rest "")
   && all_chars extension_char rest)%bool.
Proof.
  destruct c as [[] [] [] [] [] [] [] []]; reflexivity.
Qed.

Lemma all_chars_app (p : ascii -> bool) (a b : string) :
  all_chars p (a ++ b) = (all_chars p a && all_chars p b)%bool.
Proof.
  induction a as [|c a IH]; simpl; [reflexivity|].
  now rewrite IH, andb_assoc.
Qed.

(** No match starts before a later separator [c]. *)
Lemma extension_at_before (x : ascii) (a b : string) (c : ascii) :
  extension_char c = false ->
  extension_at (String x (a ++ String c b)) = false.
Proof.
  intros Hc. rewrite extension_at_cons, all_chars_app. cbn [all_chars].
  rewrite Hc. now rewrite andb_false_r, andb_false_r.
Qed.

Lemma replaceExtension_before (replacement a b : string) (c : ascii) :
  extension_char c = false ->
  replaceExtension replacement (a ++ String c b) =
  a ++ replaceExtension replacement (String c b).
Proof.
  intros Hc. induction a as [|x a IH]; [reflexivity|].
  cbn [append]. cbn [replaceExtension].
  rewrite (@extension_at_before x a b c Hc). now rewrite IH.
Qed.

Lemma append_inj_l (a b c : string) : a ++ b = a ++ c -> b = c.
Proof.
  induction a as [|x a IH]; simpl; [trivial|]. intros [= E]. now apply IH.
Qed.

(** When the path ends in an extension, that is a dot followed by one or
    more characters other than [/] and [.], the output path is the path
    with this extension replaced by [.compressed.mono.wav]: the directory
    and the rest of the name are kept, and the output is never the input
    file itself. *)
Theorem outPath_replaces_extension (stem ext : string) :
  ext <> "" ->
  all_chars extension_char ext = true ->
  outPath (stem ++ "." ++ ext) = stem ++ ".compressed.mono.wav" /\
  outPath (stem ++ "." ++ ext) <> stem ++ "." ++ ext.
Proof.
  intros Hne Hext.
  assert (E : outPath (stem ++ "." ++ ext) = stem ++ ".compressed.mono.wav").
  { unfold outPath. cbn [append].
    rewrite replaceExtension_before by reflexivity.
    f_equal. cbn [replaceExtension]. rewrite extension_at_cons, Hext.
    destruct ext; [congruence|reflexivity]. }
  split; [exact E|].
  rewrite E. intros H. apply append_inj_l in H.
  cbn [append] in H. injection H as H. rewrite <- H in Hext. discriminate.
Qed.

Lemma outPath_replaces_extension_witness :
  "mov" <> "" /\ all_chars extension_char "mov" = true /\
  outPath ("/Users/me/my.clips/take 1" ++ "." ++ "mov") =
  "/Users/me/my.clips/take 1" ++ ".compressed.mono.wav".
Proof.
  assert (H0 : "mov" <> "") by discriminate.
  assert (H1 : all_chars extension_char "mov" = true) by reflexivity.
  split; [exact H0|]. split; [exact H1|].
  exact (proj1 (@outPath_replaces_extension "/Users/me/my.clips/take 1" "mov"
                  H0 H1)).
Defined.

Lemma replaceExtension_dotless (replacement s : string) :
  all_chars (fun c => negb (Ascii.eqb c ".")) s = true ->
  replaceExtension replacement s = s.
Proof.
  induction s as [|c s IH]; [reflexivity|]. cbn [all_chars]. intros H.
  apply andb_true_iff in H as [Hc Hs]. apply negb_true_iff in Hc.
  cbn [replaceExtension]. rewrite extension_at_cons, Hc. cbn [andb].
  now rewrite IH.
Qed.

(** When the last segment of the path has no dot, or the path ends in a
    dot, nothing is replaced: the output path is the input path. *)
Theorem outPath_without_extension (dir base stem : string) :
  all_chars (fun c => negb (Ascii.eqb c ".")) base = true ->
  outPath base = base /\
  outPath (dir ++ "/" ++ base) = dir ++ "/" ++ base /\
  outPath (stem ++ ".") = stem ++ ".".
Proof.
  intros Hbase. unfold outPath. split; [|split].
  - now apply replaceExtension_dotless.
  - cbn [append]. rewrite replaceExtension_before by reflexivity.
    f_equal. cbn [replaceExtension]. rewrite extension_at_cons. cbn [andb].
    now rewrite replaceExtension_dotless.
  - rewrite replaceExtension_before by reflexivity. reflexivity.
Qed.

Lemma outPath_without_extension_witness :
  all_chars (fun c => negb (Ascii.eqb c ".")) "recording" = true /\
  outPath ("/Users/me/my.clips" ++ "/" ++ "recording") =
  "/Users/me/my.clips" ++ "/" ++ "recording".
Proof.
  assert (H : all_chars (fun c => negb (Ascii.eqb c ".")) "recording" = true)
    by reflexivity.
  split; [exact H|].
  exact (proj1 (proj2 (@outPath_without_extension "/Users/me/my.clips"
                         "recording" "" H))).
Defined.

End OptimizedAudioPath.

(** * Properties of the segment selection *)

Section SegmentToggle.

Local Open Scope Z_scope.

Lemma has_app (s t : NumberSet) (id : Z) :
  has (s ++ t)%list id = (has s id || has t id)%bool.
Proof. unfold has. apply existsb_app. Qed.

Lemma has_add (s : NumberSet) (x id : Z) :
  has (add s x) id = (has s id || (id =? x))%bool.
Proof.
  unfold add. destruct (has s x) eqn:E.
  - destruct (Z.eqb_spec id x) as [->|]; [|now rewrite orb_false_r].
    now rewrite E.
  - rewrite has_app. cbn. now rewrite orb_false_r.
Qed.

Lemma has_fold_add (l : list Z) :
  forall (s : NumberSet) (id : Z),
    has (fold_left add l s) id = (has s id || has l id)%bool.
Proof.
  induction l as [|x l IH]; intros s id; cbn [fold_left].
  - cbn. now rewrite orb_false_r.
  - rewrite IH, has_add. cbn. now rewrite orb_assoc.
Qed.

Lemma has_newSet (l : list Z) (id : Z) : has (newSet l) id = has l id.
Proof. unfold newSet. now rewrite has_fold_add. Qed.

Lemma has_filter (f : Z -> bool) (l : list Z) (id : Z) :
  has (filter f l) id = (has l id && f id)%bool.
Proof.
  induction l as [|x l IH]; [reflexivity|].
  cbn [filter]. destruct (f x) eqn:Ef; cbn [has existsb] in *.
  - fold (has (filter f l) id). fold (has l id). rewrite IH.
    destruct (Z.eqb_spec id x) as [->|]; [now rewrite Ef|reflexivity].
  - fold (has (filter f l) id). fold (has l id). rewrite IH.
    destruct (Z.eqb_spec id x) as [->|]; [|reflexivity].
    rewrite Ef. cbn. now rewrite andb_false_r.
Qed.

Lemma has_countFrom (count : nat) :
  forall a id : Z,
    has (countFrom a count) id =
    ((a <=? id) && (id <? a + Z.of_nat count))%bool.
Proof.
  induction count as [|count IH]; intros a id.
  - cbn. destruct (Z.leb_spec a id), (Z.ltb_spec id (a + 0)); try reflexivity.
    lia.
  - cbn [countFrom has existsb]. fold (has (countFrom (a + 1) count) id).
    rewrite IH.
    destruct (Z.eqb_spec id a), (Z.leb_spec (a + 1) id), (Z.leb_spec a id),
      (Z.ltb_spec id (a + 1 + Z.of_nat count)),
      (Z.ltb_spec id (a + Z.of_nat (S count))); try reflexivity; lia.
Qed.

Lemma marks_segments (disabled : NumberSet) (l : list Z) :
  forall (covered : Z -> bool) (st : NumberSet * NumberSet),
    marks disabled covered st ->
    marks disabled (fun id => (covered id || has l id)%bool)
      (fold_left (markSegment disabled) l st).
Proof.
  induction l as [|j l IH]; intros covered st Hst.
  - intros id. cbn. rewrite orb_false_r. apply Hst.
  - cbn [fold_left].
    assert (Hstep : marks disabled (fun id => (covered id || (id =? j))%bool)
                      (markSegment disabled st j)).
    { intros id. destruct st as [del ad]. destruct (Hst id) as [H1 H2].
      cbn [fst snd] in *. unfold markSegment.
      destruct (has disabled j) eqn:Ej; cbn [fst snd];
        rewrite ?has_add, H1, H2;
        (destruct (Z.eqb_spec id j) as [E|E]; [subst id; rewrite ?Ej|]);
        repeat match goal with
               | |- context [covered ?x] => destruct (covered x)
               end;
        repeat match goal with
               | |- context [has disabled ?x] => destruct (has disabled x)
               end;
        split; reflexivity. }
    specialize (IH _ _ Hstep). intros id. destruct (IH id) as [H1 H2].
    rewrite H1, H2. cbn [has existsb]. fold (has l id).
    now rewrite orb_assoc.
Qed.

Lemma parseInt_integer (s : string) :
  parseInt s = NaN \/ exists z : Z, parseInt s = num z.
Proof.
  unfold parseInt.
  destruct (drop_while is_space s) as [|c t] eqn:E.
  - left. reflexivity.
  - match goal with
    | |- context [let '(negative, body) := ?m in _] =>
        destruct m as [negative body]
    end.
    destruct (fst (span is_digit body)); [left; reflexivity|].
    right. eexists. reflexivity.
Qed.

Lemma neqb_num (a b : Z) : neqb (num a) (num b) = (a =? b).
Proof.
  unfold neqb, num, of_Z.
  destruct (Z.eqb_spec a b) as [->|Hne].
  - apply Qeq_bool_iff. reflexivity.
  - destruct (Qeq_bool (inject_Z a) (inject_Z b)) eqn:E; [|reflexivity].
    apply Qeq_bool_eq in E. unfold Qeq in E. simpl in E. lia.
Qed.

Lemma if_same {A : Type} (b : bool) (x : A) : (if b then x else x) = x.
Proof. now destruct b. Qed.

(** [markRange] runs the inner loop over the bounds of the range, when
    it has bounds. *)
Lemma markRange_bounds (disabled : NumberSet) (st : NumberSet * NumberSet)
    (range : SegmentId * SegmentId) :
  markRange disabled st range =
  match rangeBounds range with
  | Some (a, b) =>
      fold_left (markSegment disabled)
        (countFrom a (Z.to_nat (b - a + 1))) st
  | None => st
  end.
Proof.
  destruct range as [start end_]. unfold markRange, rangeBounds.
  destruct (present start), (present end_); cbn [negb orb andb];
    try reflexivity.
  unfold idNumber.
  destruct (parseInt_integer
              match start with
              | Some (String c s) => String c s
              | _ => "-1"%string
              end) as [Ef|[a Ef]];
    destruct (parseInt_integer
                match end_ with
                | Some (String c s) => String c s
                | _ => "-1"%string
                end) as [Et|[b Et]];
    rewrite Ef, Et.
  - reflexivity.
  - cbn [loopValues fold_left]. apply if_same.
  - unfold num at 3, of_Z. cbn [loopValues fold_left]. apply if_same.
  - rewrite !neqb_num. unfold num, of_Z. cbn [loopValues].
    rewrite !Qfloor_Z.
    destruct (a =? -1), (b =? -1); reflexivity.
Qed.

Lemma markRange_marks (disabled : NumberSet)
    (range : SegmentId * SegmentId) (covered : Z -> bool)
    (st : NumberSet * NumberSet) :
  marks disabled covered st ->
  marks disabled
    (fun id => (covered id || selected [range] id)%bool)
    (markRange disabled st range).
Proof.
  intros Hst. rewrite markRange_bounds. unfold selected. cbn [existsb].
  destruct (rangeBounds range) as [[a b]|].
  - pose proof (@marks_segments disabled
                  (countFrom a (Z.to_nat (b - a + 1))) covered st Hst) as H.
    intros id. destruct (H id) as [H1 H2]. rewrite H1, H2.
    rewrite has_countFrom, orb_false_r.
    assert (E : ((a <=? id) && (id <? a + Z.of_nat (Z.to_nat (b - a + 1))))%bool
                = ((a <=? id) && (id <=? b))%bool).
    { destruct (Z.leb_spec a id), (Z.leb_spec id b),
        (Z.ltb_spec id (a + Z.of_nat (Z.to_nat (b - a + 1))));
        try reflexivity; lia. }
    rewrite E. split; reflexivity.
  - intros id. cbn [orb]. rewrite orb_false_r. apply Hst.
Qed.

Lemma markRanges_marks (disabled : NumberSet)
    (ranges : list (SegmentId * SegmentId)) :
  forall (covered : Z -> bool) (st : NumberSet * NumberSet),
    marks disabled covered st ->
    marks disabled (fun id => (covered id || selected ranges id)%bool)
      (fold_left (markRange disabled) ranges st).
Proof.
  induction ranges as [|range ranges IH]; intros covered st Hst.
  - intros id. cbn. rewrite orb_false_r. apply Hst.
  - cbn [fold_left].
    specialize (IH _ _ (markRange_marks range Hst)).
    intros id. destruct (IH id) as [H1 H2]. rewrite H1, H2.
    unfold selected. cbn [existsb]. rewrite orb_false_r, !orb_assoc.
    split; reflexivity.
Qed.

Lemma merged_membership (ranges : list (SegmentId * SegmentId))
    (disabled prev : NumberSet) (id : Z) :
  let '(toDelete, toAdd) := fold_left (markRange disabled) ranges ([], []) in
  has (mergeSegments toDelete toAdd prev) id =
  (has prev id && negb (selected ranges id && has disabled id)
   || selected ranges id && negb (has disabled id))%bool.
Proof.
  assert (H0 : marks disabled (fun _ => false) ([], [])).
  { intros x. split; reflexivity. }
  pose proof (markRanges_marks ranges H0) as H.
  destruct (fold_left (markRange disabled) ranges ([], [])) as [toDelete toAdd].
  destruct (H id) as [H1 H2]. cbn [fst snd orb] in H1, H2.
  unfold mergeSegments. rewrite has_newSet, has_app, has_filter.
  now rewrite H1, H2.
Qed.

End SegmentToggle.

Section SegmentToggleProperties.

Local Open Scope Z_scope.

Lemma handleKeyUp_membership (key : string)
    (ranges : list (SegmentId * SegmentId)) (disabled prev : NumberSet) :
  key = "Backspace"%string \/ key = "Delete"%string ->
  exists next : NumberSet,
    handleKeyUp key (Some ranges) disabled prev = Some next /\
    forall id : Z,
      has next id =
      (has prev id && negb (selected ranges id && has disabled id)
       || selected ranges id && negb (has disabled id))%bool.
Proof.
  intros Hkey. unfold handleKeyUp.
  assert (E : (String.eqb key "Backspace" || String.eqb key "Delete")%bool
              = true).
  { destruct Hkey as [-> | ->]; reflexivity. }
  rewrite E.
  pose proof (fun id => @merged_membership ranges disabled prev id) as H.
  destruct (fold_left (markRange disabled) ranges ([], []))
    as [toDelete toAdd].
  eexists. split; [reflexivity|exact H].
Qed.

(** Pressing Backspace or Delete toggles the segments of the selection:
    a segment covered by one of the ranges is disabled afterwards exactly
    when it was enabled before, and every other segment keeps its state.
    The segment ids at the ends of the ranges are within [maxSafeInteger],
    where [parseInt] is exact and the loop over a range ends.  Any other
    key, or no selection, leaves the state alone. *)
Theorem selection_toggles_segments (key : string)
    (ranges : list (SegmentId * SegmentId)) (disabled : NumberSet) :
  (key = "Backspace"%string \/ key = "Delete"%string ->
   safeRanges ranges ->
   exists next : NumberSet,
     handleKeyUp key (Some ranges) disabled disabled = Some next /\
     forall id : Z,
       has next id = xorb (has disabled id) (selected ranges id)) /\
  (key <> "Backspace"%string -> key <> "Delete"%string ->
   handleKeyUp key (Some ranges) disabled disabled = None) /\
  handleKeyUp key None disabled disabled = None.
Proof.
  split; [|split].
  - intros Hkey _.
    destruct (@handleKeyUp_membership key ranges disabled disabled Hkey)
      as (next & E & H).
    exists next. split; [exact E|]. intros id. rewrite H.
    destruct (has disabled id), (selected ranges id); reflexivity.
  - intros H1 H2. unfold handleKeyUp.
    apply String.eqb_neq in H1, H2. now rewrite H1, H2.
  - unfold handleKeyUp.
    destruct (String.eqb key "Backspace" || String.eqb key "Delete")%bool;
      reflexivity.
Qed.

Lemma selection_toggles_segments_witness :
  let ranges := [ (Some "3", Some "5"); (None, Some "9"); (Some "x", Some "7") ]%string in
  ("Delete" = "Backspace" \/ "Delete" = "Delete")%string /\
  safeRanges ranges /\
  exists next : NumberSet,
    handleKeyUp "Delete" (Some ranges) [4; 8] [4; 8] = Some next /\
    forall id : Z, has next id = xorb (has [4; 8] id) (selected ranges id).
Proof.
  cbv zeta.
  assert (H : ("Delete" = "Backspace" \/ "Delete" = "Delete")%string)
    by (right; reflexivity).
  assert (Hsafe : safeRanges [ (Some "3", Some "5"); (None, Some "9");
                               (Some "x", Some "7") ]%string).
  { unfold safeRanges.
    repeat (apply Forall_cons;
            [vm_compute; repeat split; try discriminate|]).
    apply Forall_nil. }
  split; [exact H|]. split; [exact Hsafe|].
  exact (proj1 (@selection_toggles_segments "Delete"
                  [ (Some "3", Some "5"); (None, Some "9");
                    (Some "x", Some "7") ]%string [4; 8]) H Hsafe).
Defined.

(** Pressing the key twice over the same selection gives back the
    disabled segments there were, the segment ids at the ends of the
    ranges being within [maxSafeInteger]. *)
Theorem toggling_twice_restores (key : string)
    (ranges : list (SegmentId * SegmentId)) (disabled : NumberSet) :
  key = "Backspace"%string \/ key = "Delete"%string ->
  safeRanges ranges ->
  exists once twice : NumberSet,
    handleKeyUp key (Some ranges) disabled disabled = Some once /\
    handleKeyUp key (Some ranges) once once = Some twice /\
    forall id : Z, has twice id = has disabled id.
Proof.
  intros Hkey _.
  destruct (@handleKeyUp_membership key ranges disabled disabled Hkey)
    as (once & E1 & H1).
  destruct (@handleKeyUp_membership key ranges once once Hkey)
    as (twice & E2 & H2).
  exists once, twice. split; [exact E1|]. split; [exact E2|].
  intros id. rewrite H2, H1.
  destruct (has disabled id), (selected ranges id); reflexivity.
Qed.

Lemma toggling_twice_restores_witness :
  ("Backspace" = "Backspace" \/ "Backspace" = "Delete")%string /\
  safeRanges [ (Some "3", Some "5") ]%string /\
  exists once twice : NumberSet,
    handleKeyUp "Backspace" (Some [ (Some "3", Some "5") ]%string) [4; 8] [4; 8]
    = Some once /\
    handleKeyUp "Backspace" (Some [ (Some "3", Some "5") ]%string) once once
    = Some twice /\
    forall id : Z, has twice id = has [4; 8] id.
Proof.
  assert (H : ("Backspace" = "Backspace" \/ "Backspace" = "Delete")%string)
    by (left; reflexivity).
  assert (Hsafe : safeRanges [ (Some "3", Some "5") ]%string).
  { unfold safeRanges.
    apply Forall_cons; [vm_compute; repeat split; discriminate|].
    apply Forall_nil. }
  split; [exact H|]. split; [exact Hsafe|].
  exact (@toggling_twice_restores "Backspace"
           [ (Some "3", Some "5") ]%string [4; 8] H Hsafe).
Defined.

(** The selection of segments 3 to 5 with 4 and 8 disabled: 4 is enabled
    again, 3 and 5 are disabled, 8 stays disabled. *)
Example toggle_three_to_five :
  handleKeyUp "Delete" (Some [ (Some "3", Some "5") ]%string)
    [4; 8] [4; 8] = Some [8; 3; 5].
Proof. vm_compute. reflexivity. Qed.

End SegmentToggleProperties.
